(** * notion_sync: extraction, classification and block conversion

  A shallow embedding of [src/notion_sync.py] and the properties of its
  pipeline: [MemoryParser], [EntryClassifier], [MarkdownToNotion] and
  [SyncOrchestrator].

  Text is a list of characters; a character is a code point below 256,
  so the Python [str] methods used by the program ([strip], [lower],
  [isspace], the [\d] class of [re]) are given on that range. *)

From Stdlib Require Import Ascii String ZArith Lia Bool.
From stdpp Require Import base option list gmap strings.

Abbreviation str := (list ascii).

(** ** Python string primitives *)

Module Py.

(** A string literal of the source. *)
Definition lit (x : string) : str := list_ascii_of_string x.

Definition code (c : ascii) : nat := nat_of_ascii c.

(** [str.isspace] on one character: TAB..CR, FS..US, space, NEL, NBSP. *)
Definition isspace (c : ascii) : bool :=
  let n := code c in
  (Nat.leb 9 n && Nat.leb n 13) || (Nat.leb 28 n && Nat.leb n 32)
  || Nat.eqb n 133 || Nat.eqb n 160.

(** The class [\d] of [re] on a [str] pattern. *)
Definition isdigit (c : ascii) : bool :=
  let n := code c in Nat.leb 48 n && Nat.leb n 57.

(** [str.lower] on one character. On code points below 256, the
    alphabet of [str], lowercasing maps character by character: the
    letters A-Z and the accented capitals 192-222 but the sign 215 move
    up by 32. Beyond that alphabet [str.lower] can change the length of
    a string; no statement here rests on the length being kept. *)
Definition lower_char (c : ascii) : ascii :=
  let n := code c in
  if (Nat.leb 65 n && Nat.leb n 90)
     || (Nat.leb 192 n && Nat.leb n 222 && negb (Nat.eqb n 215))
  then ascii_of_nat (n + 32) else c.

Definition lower (s : str) : str := map lower_char s.

Fixpoint lstrip (s : str) : str :=
  match s with
  | c :: s' => if isspace c then lstrip s' else s
  | [] => []
  end.

Definition rstrip (s : str) : str := reverse (lstrip (reverse s)).

Definition strip (s : str) : str := lstrip (rstrip s).

(** Truth value of a string: the empty string is falsy. *)
Definition truthy (s : str) : bool :=
  match s with [] => false | _ => true end.

(** The newline character and the one-character string of it. *)
Definition nl_char : ascii := "010"%char.
Definition nl : str := [nl_char].

(** [s.startswith(p)] *)
Fixpoint startswith (s p : str) {struct p} : bool :=
  match p, s with
  | [], _ => true
  | a :: p', b :: s' => if decide (a = b) then startswith s' p' else false
  | _ :: _, [] => false
  end.

(** [sub in s] *)
Fixpoint contains (s sub : str) : bool :=
  startswith s sub ||
  match s with
  | [] => false
  | _ :: s' => contains s' sub
  end.

(** [s.count(c)] for a one-character [c]. *)
Definition count (s : str) (c : ascii) : nat :=
  length (filter (fun x => x = c) s).

(** [s.split(sep)] for a one-character [sep]. *)
Fixpoint split (s : str) (sep : ascii) : list str :=
  match s with
  | [] => [[]]
  | c :: s' =>
      if decide (c = sep) then [] :: split s' sep
      else match split s' sep with
           | h :: t => (c :: h) :: t
           | [] => [[c]]
           end
  end.

(** [sep.join(parts)] *)
Fixpoint join (sep : str) (parts : list str) : str :=
  match parts with
  | [] => []
  | [p] => p
  | p :: rest => p ++ sep ++ join sep rest
  end.

(** [s[:k]] for any integer [k]: a negative [k] counts from the end. *)
Definition slice_to {A} (s : list A) (k : Z) : list A :=
  if (0 <=? k)%Z then take (Z.to_nat k) s
  else take (Z.to_nat (Z.of_nat (length s) + k)) s.

(** [s[k:]] for [k >= 0]. *)
Definition slice_from (s : str) (k : nat) : str := drop k s.

(** Highest index at which [sub] occurs in [s], scanning from index [i];
    [last] is the best index found so far. *)
Fixpoint rfind_scan (s sub : str) (i : nat) (last : option nat) : option nat :=
  match s with
  | [] => if startswith [] sub then Some i else last
  | _ :: s' =>
      rfind_scan s' sub (S i) (if startswith s sub then Some i else last)
  end.

(** [s.rfind(sub, 0, stop)] for [stop >= 0]: the occurrence lies inside
    [s[0:stop]]; -1 when there is none. *)
Definition rfind (s sub : str) (stop : nat) : Z :=
  match rfind_scan (take stop s) sub 0 None with
  | Some i => Z.of_nat i
  | None => (-1)%Z
  end.

Fixpoint digits_prefix (s : str) : nat :=
  match s with
  | c :: s' => if isdigit c then S (digits_prefix s') else 0
  | [] => 0
  end.

(** [re.match(r'^\d+\. ', s)]: [Some] of [group(0)] on a match. The
    greedy [\d+] takes every leading digit, then a dot and a space must
    follow; giving back digits cannot help since a digit is not a dot. *)
Definition re_match_numbered (s : str) : option str :=
  let k := digits_prefix s in
  if Nat.ltb 0 k && startswith (drop k s) (lit ". ")
  then Some (take (k + 2) s) else None.

End Py.

Import Py.

(** ** MarkdownToNotion *)

(** A Notion block dictionary, by its ["type"] and text content; a code
    block also carries its ["language"]. *)
Inductive Block :=
| Heading (level : nat) (text : str)
| Paragraph (text : str)
| ListItem (text : str)
| Quote (text : str)
| Code (text : str) (language : str)
| Divider.

Definition _create_heading (level : nat) (text : str) : Block :=
  Heading level (slice_to text 2000).

Definition _create_paragraph (text : str) : Block :=
  Paragraph (slice_to text 2000).

Definition _create_list_item (text : str) : Block :=
  ListItem (slice_to text 2000).

Definition _create_quote (text : str) : Block :=
  Quote (slice_to text 2000).

(** [language] is [None] or a string; an empty string is falsy too. *)
Definition _create_code (code : str) (language : option str) : Block :=
  Code (slice_to code 2000)
       (match language with
        | Some (c :: l) => c :: l
        | _ => lit "plain text"
        end).

Definition _create_divider : Block := Divider.

(** The [list_type] argument of the list helpers: ['-'] or ['numbered']. *)
Inductive ListType := Dash | Numbered.

(** The run predicate shared by [_parse_list] and [_skip_list], on a
    right-stripped line: [Some prefix] when the line is an item. *)
Definition list_prefix (list_type : ListType) (line : str) : option str :=
  match list_type with
  | Dash => if startswith line (lit "- ") then Some (lit "- ") else None
  | Numbered => re_match_numbered line
  end.

(** The loop of [_parse_list] over [lines[i:]]. *)
Fixpoint parse_list_from (rest : list str) (list_type : ListType) : list Block :=
  match rest with
  | [] => []
  | raw :: rest' =>
      let line := rstrip raw in
      if negb (truthy (strip line))
      then parse_list_from rest' list_type
      else match list_prefix list_type line with
           | Some prefix =>
               _create_list_item (strip (slice_from line (length prefix)))
               :: parse_list_from rest' list_type
           | None => []
           end
  end.

Definition _parse_list (lines : list str) (start : nat) (list_type : ListType)
  : list Block :=
  parse_list_from (drop start lines) list_type.

(** The loop of [_skip_list] over [lines[i:]], with the index [i]. *)
Fixpoint skip_list_from (rest : list str) (i : nat) (list_type : ListType) : nat :=
  match rest with
  | [] => i
  | raw :: rest' =>
      let line := rstrip raw in
      if negb (truthy (strip line))
      then skip_list_from rest' (S i) list_type
      else match list_prefix list_type line with
           | Some _ => skip_list_from rest' (S i) list_type
           | None => i
           end
  end.

Definition _skip_list (lines : list str) (start : nat) (list_type : ListType)
  : nat :=
  skip_list_from (drop start lines) start list_type.

(** The loop of [_parse_code_block] over [lines[i:]]. *)
Fixpoint parse_code_from (rest : list str) (i : nat) : list str * nat :=
  match rest with
  | [] => ([], i)
  | raw :: rest' =>
      if bool_decide (strip raw = lit "```") then ([], S i)
      else let '(code_lines, j) := parse_code_from rest' (S i) in
           (rstrip raw :: code_lines, j)
  end.

Definition _parse_code_block (lines : list str) (start : nat) : list str * nat :=
  parse_code_from (drop (S start) lines) (S start).

(** The inner loop of the table branch over [lines[j:]]. *)
Fixpoint table_from (rest : list str) (j : nat) (table_text : str) : str * nat :=
  match rest with
  | [] => (table_text, j)
  | raw :: rest' =>
      if contains raw (lit "|")
      then table_from rest' (S j) (table_text ++ nl ++ raw)
      else (table_text, j)
  end.

(** One iteration of the [while i < len(lines)] loop of [convert]:
    [None] when the loop condition fails, otherwise the next [i] and
    [blocks]. *)
Definition convert_step (lines : list str) (st : nat * list Block)
  : option (nat * list Block) :=
  let '(i, blocks) := st in
  match lines !! i with
  | None => None
  | Some raw =>
      let line := rstrip raw in
      Some
        (if negb (truthy (strip line)) then (S i, blocks)
         else if startswith line (lit "# ")
         then (S i, blocks ++ [_create_heading 1 (slice_from line 2)])
         else if startswith line (lit "## ")
         then (S i, blocks ++ [_create_heading 2 (slice_from line 3)])
         else if startswith line (lit "### ")
         then (S i, blocks ++ [_create_heading 3 (slice_from line 4)])
         else if startswith line (lit "- ") || startswith line (lit "* ")
         then (_skip_list lines i Dash, blocks ++ _parse_list lines i Dash)
         else if bool_decide (is_Some (re_match_numbered line))
         then (_skip_list lines i Numbered, blocks ++ _parse_list lines i Numbered)
         else if startswith line (lit "> ")
         then (S i, blocks ++ [_create_quote (slice_from line 2)])
         else if startswith line (lit "```")
         then let '(code_lines, new_i) := _parse_code_block lines i in
              let lang := if Nat.ltb 3 (length raw)
                          then strip (slice_from raw 3) else [] in
              (new_i,
               blocks ++ [_create_code (join nl code_lines)
                                       (match lang with [] => None | _ => Some lang end)])
         else if bool_decide (strip line ∈ [lit "---"; lit "***"; lit "___"])
         then (S i, blocks ++ [_create_divider])
         else if contains line (lit "|") && Nat.leb 3 (count line "|"%char)
         then let '(table_text, j) := table_from (drop (S i) lines) (S i) line in
              (j, blocks ++ [_create_code table_text (Some (lit "markdown-table"))])
         else (S i, blocks ++ [_create_paragraph line]))
  end.

(** The [while] loop, run for at most [fuel] iterations; [None] when the
    loop is still running after them. *)
Fixpoint convert_loop (fuel : nat) (lines : list str) (st : nat * list Block)
  : option (list Block) :=
  match convert_step lines st with
  | None => Some (snd st)
  | Some st' =>
      match fuel with
      | 0 => None
      | S fuel' => convert_loop fuel' lines st'
      end
  end.

(** [convert], with the bound on the iterations of its loop. *)
Definition convert (fuel : nat) (text : str) : option (list Block) :=
  convert_loop fuel (split text nl_char) (0, []).

(** [convert text] returns [blocks]: the loop ends after some number of
    iterations. *)
Definition convert_returns (text : str) (blocks : list Block) : Prop :=
  exists fuel, convert fuel text = Some blocks.

(** ** EntryClassifier *)

(** The metadata dictionary built by [classify]. The ["tags"] entry is
    left out: it is listed in the iteration order of a Python set. *)
Record Metadata := {
  content_type : str;
  domain : str;
  certainty : str;
  impact : str;
  confidence_score : Z;
  meta_source : str
}.

(** A taxonomy dictionary, in insertion order. *)
Definition Taxonomy := list (str * list str).

Definition TYPE_KEYWORDS : Taxonomy :=
  [ (lit "Research", map lit ["research"; "benchmark"; "analysis"; "comparison";
       "technical deep dive"; "performance"; "detailed breakdown"]);
    (lit "Lesson", map lit ["lesson"; "learned"; "mistake"; "error"; "issue";
       "problem"; "fixed"; "resolved"; "blocker"]);
    (lit "Decision", map lit ["decision"; "choose"; "selected"; "opted";
       "concluded"; "determined"; "agreed"; "strategy"]);
    (lit "Pattern", map lit ["pattern"; "trend"; "recurring"; "common";
       "usually"; "typically"; "observation"]);
    (lit "Tutorial", map lit ["how to"; "tutorial"; "guide"; "step";
       "instruction"; "walkthrough"; "setup"; "configure"]);
    (lit "Reference", map lit ["reference"; "cheatsheet"; "spec";
       "specification"; "documentation"; "api"; "quick reference"]);
    (lit "Insight", map lit ["insight"; "realized"; "noticed"; "observed";
       "thought"; "idea"; "aha"; "epiphany"]) ]%string.

Definition DOMAIN_KEYWORDS : Taxonomy :=
  [ (lit "AI Models", map lit ["model"; "llm"; "gpt"; "claude"; "gemini";
       "stepflash"; "deepseek"; "mimo"; "devstral"; "openrouter"; "free tier";
       "notion"]);
    (lit "OpenClaw", map lit ["openclaw"; "agent"; "workflow"; "skill"; "tool";
       "automation"; "sync"; "database"]);
    (lit "Cost Optimization", map lit ["cost"; "price"; "$"; "budget"; "free";
       "tier"; "routing"; "saving"; "optimization"; "value"]);
    (lit "Trading", map lit ["trading"; "invest"; "stock"; "crypto"; "nft";
       "web3"; "defi"; "bitcoin"; "ethereum"]);
    (lit "Learning", map lit ["learn"; "study"; "japanese"; "language";
       "course"; "tutorial"; "duolingo"]);
    (lit "Process", map lit ["process"; "workflow"; "method"; "procedure";
       "system"; "framework"]) ]%string.

Definition CERTAINTY_PHRASES : Taxonomy :=
  [ (lit "Verified", map lit ["proven"; "confirmed"; "tested"; "verified";
       "measured"; "data shows"; "benchmark result"]);
    (lit "Likely", map lit ["likely"; "probably"; "most likely"; "seems";
       "appears"; "suggest"]);
    (lit "Speculative", map lit ["maybe"; "might"; "could"; "possibly";
       "hypothesis"; "guess"; "uncertain"]);
    (lit "Opinion", map lit ["i think"; "believe"; "feel"; "in my view";
       "personally"; "prefer"]) ]%string.

Definition IMPACT_INDICATORS : Taxonomy :=
  [ (lit "High", map lit ["critical"; "important"; "must"; "essential"; "key";
       "major"; "significant"; "game changer"]);
    (lit "Medium", map lit ["relevant"; "useful"; "helpful"; "worth"; "good";
       "beneficial"]);
    (lit "Low", map lit ["minor"; "small"; "slight"; "marginal";
       "nice to have"]);
    (lit "Negligible", map lit ["negligible"; "tiny"; "minimal"; "barely";
       "insignificant"]) ]%string.

(** [any(kw in text for kw in keywords)] *)
Definition any_in (keywords : list str) (text : str) : bool :=
  existsb (fun kw => contains text kw) keywords.

(** The loop shared by the four [classify_*] methods: the first label
    with a matching keyword, else the default. *)
Fixpoint first_label (taxonomy : Taxonomy) (text : str) (default : str) : str :=
  match taxonomy with
  | [] => default
  | (label, keywords) :: rest =>
      if any_in keywords text then label else first_label rest text default
  end.

Definition classify_type (title body : str) : str :=
  first_label TYPE_KEYWORDS (lower (title ++ lit " " ++ body)) (lit "Insight").

Definition classify_domain (title body : str) : str :=
  first_label DOMAIN_KEYWORDS (lower (title ++ lit " " ++ body)) (lit "General").

Definition classify_certainty (body : str) : str :=
  first_label CERTAINTY_PHRASES (lower body) (lit "Verified").

Definition classify_impact (title body : str) : str :=
  first_label IMPACT_INDICATORS (lower (title ++ lit " " ++ body)) (lit "Medium").

Definition EVIDENCE_WORDS : list str :=
  map lit ["data"; "benchmark"; "measured"; "tested"]%string.

Definition _estimate_confidence (title body : str) (source : option str) : Z :=
  let score := 7%Z in
  let score := if bool_decide (source = Some (lit "MEMORY.md"))
               then (score + 1)%Z else score in
  let score := if Nat.ltb 500 (length body) then (score + 1)%Z else score in
  let score := if any_in EVIDENCE_WORDS (lower body)
               then (score + 1)%Z else score in
  Z.min 10 (Z.max 1 score).

(** ** MemoryParser *)

(** An entry dictionary. The keys ['date'], ['body'] and ['metadata'] are
    absent until the code sets them. *)
Record Entry := {
  title : str;
  source : str;
  section : str;
  file : str;
  date : option str;
  body : option str;
  metadata : option Metadata
}.

Definition set_body (b : str) (e : Entry) : Entry :=
  {| title := title e; source := source e; section := section e;
     file := file e; date := date e; body := Some b;
     metadata := metadata e |}.

Definition set_metadata (m : Metadata) (e : Entry) : Entry :=
  {| title := title e; source := source e; section := section e;
     file := file e; date := date e; body := body e;
     metadata := Some m |}.

(** The state of a parsing loop. The entry dictionaries live in [heap]
    and are named by their index there: [current_entry] and the items of
    [entries] are references, so that an assignment to
    [current_entry['body']] is seen through every reference to that
    dictionary, including those already appended to [entries]. *)
Record ParseState := {
  current_section : option str;
  current_entry : option nat;
  entry_buffer : list str;
  entries : list nat;
  heap : list Entry
}.

(** The block guarded by [if current_entry and entry_buffer:]. *)
Definition flush (st : ParseState) : ParseState :=
  match current_entry st, entry_buffer st with
  | Some r, _ :: _ =>
      {| current_section := current_section st;
         current_entry := Some r;
         entry_buffer := [];
         entries := entries st ++ [r];
         heap := alter (set_body (strip (join nl (entry_buffer st)))) r (heap st) |}
  | _, _ => st
  end.

(** What distinguishes the two parsers: the test on a section title and
    the dictionary created at a level-3 heading. *)
Record ParseMode := {
  recognised : str -> bool;
  new_entry : str -> str -> Entry
}.

Definition memory_mode : ParseMode :=
  {| recognised := fun section_title =>
       existsb (fun kw => contains section_title kw)
         (map lit ["Standard"; "Protocol"; "Lesson"; "Framework"]%string);
     new_entry := fun entry_title current_section =>
       {| title := entry_title; source := lit "MEMORY.md";
          section := current_section; file := lit "MEMORY.md";
          date := None; body := None; metadata := None |} |}.

Definition daily_mode (date_str : str) : ParseMode :=
  {| recognised := fun section_title =>
       existsb (fun keyword => contains (lower section_title) keyword)
         (map lit ["research"; "finding"; "lesson"; "decision"; "insight";
                   "pattern"; "key takeaway"; "benchmark"]%string);
     new_entry := fun entry_title current_section =>
       {| title := entry_title; source := lit "daily";
          section := current_section; file := date_str ++ lit ".md";
          date := Some date_str; body := None; metadata := None |} |}.

(** The body of [for line in lines:]. [current_section] is [None] or a
    recognised title; such a title contains a keyword, so it is not the
    empty string and counts as true. *)
Definition parse_line (mode : ParseMode) (st : ParseState) (line : str)
  : ParseState :=
  if startswith line (lit "## ") then
    let st := flush st in
    let section_title := strip (slice_from line 3) in
    {| current_section :=
         if recognised mode section_title then Some section_title else None;
       current_entry := current_entry st;
       entry_buffer := entry_buffer st;
       entries := entries st;
       heap := heap st |}
  else
    match startswith line (lit "### "), current_section st with
    | true, Some sec =>
        let st := flush st in
        let entry_title := strip (slice_from line 4) in
        {| current_section := Some sec;
           current_entry := Some (length (heap st));
           entry_buffer := entry_buffer st;
           entries := entries st;
           heap := heap st ++ [new_entry mode entry_title sec] |}
    | _, _ =>
        match current_entry st with
        | Some r =>
            {| current_section := current_section st;
               current_entry := Some r;
               entry_buffer := entry_buffer st ++ [line];
               entries := entries st;
               heap := heap st |}
        | None => st
        end
    end.

(** One document: the loop over its lines from a fresh section, entry
    and buffer, then the flush after the loop. [entries] and the heap are
    carried from [acc]. *)
Definition parse_document (mode : ParseMode) (content : str)
  (acc : list nat * list Entry) : list nat * list Entry :=
  let st0 := {| current_section := None; current_entry := None;
                entry_buffer := []; entries := acc.1; heap := acc.2 |} in
  let st := flush (foldl (parse_line mode) st0 (split content nl_char)) in
  (entries st, heap st).

(** The dictionaries a list of references denotes. *)
Definition deref (acc : list nat * list Entry) : list Entry :=
  omap (fun r => acc.2 !! r) acc.1.

(** [memory_md] is the text of MEMORY.md, [None] when it does not exist. *)
Definition parse_memory_file (memory_md : option str) : list Entry :=
  match memory_md with
  | None => []
  | Some content => deref (parse_document memory_mode content ([], []))
  end.

(** The body of the loop of [parse_daily_files] over the days: [day] is
    a date string with the text of that day's file, [None] when the file
    does not exist. *)
Definition daily_step (acc : list nat * list Entry) (day : str * option str)
  : list nat * list Entry :=
  match day.2 with
  | None => acc
  | Some content => parse_document (daily_mode day.1) content acc
  end.

(** [days] lists the days [today - i] for [i] in [range(days_back)]. *)
Definition parse_daily_files (days : list (str * option str)) : list Entry :=
  deref (foldl daily_step ([], []) days).

Section Dedup.

(** [hashlib.md5(s.encode()).hexdigest()[:16]] *)
Variable md5_16 : str -> str.

(** The hashed string; [None] stands for the [KeyError] of
    [entry['body']] on a dictionary without that key. *)
Definition content_hash (entry : Entry) : option str :=
  b ← body entry;
  Some (md5_16 (title entry ++ lit "|" ++ default [] (date entry) ++ lit "|"
                ++ slice_to b 200)).

(** The deduplication loop. *)
Fixpoint unique_loop (all_entries : list Entry) (seen : gset str)
  (unique_entries : list Entry) : option (list Entry) :=
  match all_entries with
  | [] => Some unique_entries
  | entry :: rest =>
      h ← content_hash entry;
      if decide (h ∉ seen)
      then unique_loop rest ({[h]} ∪ seen) (unique_entries ++ [entry])
      else unique_loop rest seen unique_entries
  end.

Definition extract_all_entries (memory_md : option str)
  (days : list (str * option str)) : option (list Entry) :=
  let all_entries := parse_memory_file memory_md ++ parse_daily_files days in
  unique_loop all_entries ∅ [].

End Dedup.

(** ** NotionClient and the database behind it *)

(** The properties dictionary sent with a page; ["Body"] is optional and
    ["Tags"] is left out with the tags. *)
Record Properties := {
  Name : str;
  Content_Type : str;
  Domain : str;
  Certainty : str;
  Source : str;
  Confidence_Score : Z;
  Impact : str;
  Source_File : str;
  Body : option str
}.

(** A page of the remote database. The database is outside the program:
    it is taken here as a list of pages that answers every request, a
    page being named by its position. *)
Record Page := {
  page_properties : Properties;
  page_children : list Block
}.

(** The first result of the query filtered by
    ["Source File" contains source_file]. *)
Definition query_by_source_file (db : list Page) (source_file : str)
  : option nat :=
  fst <$> list_find
    (fun p => Is_true (contains (Source_File (page_properties p)) source_file))
    db.

(** POST /v1/pages: the new page and its id. *)
Definition create_page (db : list Page) (properties : Properties)
  (children : option (list Block)) : option nat * list Page :=
  (Some (length db),
   db ++ [{| page_properties := properties;
             page_children := default [] children |}]).

(** PATCH /v1/pages/id: the listed properties are overwritten, the
    children are kept. *)
Definition update_page (db : list Page) (page_id : nat)
  (properties : Properties) : bool * list Page :=
  match db !! page_id with
  | None => (false, db)
  | Some p =>
      (true,
       <[page_id :=
           {| page_properties :=
                {| Name := Name properties;
                   Content_Type := Content_Type properties;
                   Domain := Domain properties;
                   Certainty := Certainty properties;
                   Source := Source properties;
                   Confidence_Score := Confidence_Score properties;
                   Impact := Impact properties;
                   Source_File := Source_File properties;
                   Body := match Body properties with
                           | Some b => Some b
                           | None => Body (page_properties p)
                           end |};
              page_children := page_children p |}]> db)
  end.

(** ** SyncOrchestrator *)

Definition MAX_BODY_LENGTH : nat := 2000.
Definition MAX_TITLE_LENGTH : nat := 100.

Definition classify (entry : Entry) : Entry :=
  let title := title entry in
  let body := default [] (body entry) in
  set_metadata
    {| content_type := classify_type title body;
       domain := classify_domain title body;
       certainty := classify_certainty body;
       impact := classify_impact title body;
       confidence_score := _estimate_confidence title body (Some (source entry));
       meta_source := source entry |}
    entry.

Definition SENTENCE_SEPARATORS : list str :=
  [nl ++ nl; lit ". "; lit "! "; lit "? "; lit "; "].

(** The [for sep in ...] loop of [_truncate_text]: the text cut at the
    first separator found far enough, [None] when the loop ends.
    [idx > max_len * 0.5] is [max_len < 2 * idx] on integers. *)
Fixpoint truncate_at (seps : list str) (text : str) (max_len : nat)
  : option str :=
  match seps with
  | [] => None
  | sep :: rest =>
      let idx := rfind text sep max_len in
      if (Z.of_nat max_len <? 2 * idx)%Z
      then Some (strip (slice_to text (idx + 1)))
      else truncate_at rest text max_len
  end.

Definition _truncate_text (text : str) (max_len : nat) : str :=
  if Nat.leb (length text) max_len then text
  else match truncate_at SENTENCE_SEPARATORS text max_len with
       | Some cut => cut
       | None => strip (slice_to text (Z.of_nat max_len - 3)) ++ lit "..."
       end.

(** The action names given to [log_action]. *)
Inductive Action := DRY_RUN | UPDATED | UPDATE_FAILED | CREATED | CREATE_FAILED.

#[global] Instance Action_eq_dec : EqDecision Action.
Proof. solve_decision. Defined.

(** What the orchestrator acts on: the database and the sync log, one
    record per [log_action] call with the title it names. *)
Record World := {
  db : list Page;
  log : list (Action * str)
}.

Definition log_action (a : Action) (title : str) (w : World) : World :=
  {| db := db w; log := log w ++ [(a, title)] |}.

Definition with_db (d : list Page) (w : World) : World :=
  {| db := d; log := log w |}.

(** The properties built by [process_entry] for a classified entry. *)
Definition build_properties (entry : Entry) (meta : Metadata) : Properties :=
  let body_content := default [] (body entry) in
  {| Name := slice_to (title entry) (Z.of_nat MAX_TITLE_LENGTH);
     Content_Type := content_type meta;
     Domain := domain meta;
     Certainty := certainty meta;
     Source := meta_source meta;
     Confidence_Score := confidence_score meta;
     Impact := impact meta;
     Source_File := file entry;
     Body := if truthy body_content && Nat.ltb 50 (length body_content)
             then Some (_truncate_text body_content MAX_BODY_LENGTH)
             else None |}.

(** [process_entry]. The call of [convert] stands where the source has
    it, before the dry-run test; its loop is run for at most [fuel]
    iterations, and the result is [None] when [convert] has not returned
    by then. *)
Definition process_entry (fuel : nat) (entry : Entry) (dry_run : bool)
  (w : World) : option (option nat * World) :=
  let entry := classify entry in
  match metadata entry with
  | None => Some (None, w)
  | Some meta =>
      let source_file := file entry in
      let existing_page_id := query_by_source_file (db w) source_file in
      let properties := build_properties entry meta in
      let body_content := default [] (body entry) in
      children ← (if truthy body_content && Nat.ltb 50 (length body_content)
                  then Some <$> convert fuel body_content
                  else Some None);
      Some
        (if dry_run then (None, log_action DRY_RUN (title entry) w)
         else match existing_page_id with
              | Some page_id =>
                  let '(success, d) := update_page (db w) page_id properties in
                  if success
                  then (Some page_id,
                        log_action UPDATED (title entry) (with_db d w))
                  else (None,
                        log_action UPDATE_FAILED (title entry) (with_db d w))
              | None =>
                  let '(page_id, d) := create_page (db w) properties children in
                  (page_id,
                   log_action (match page_id with
                               | Some _ => CREATED
                               | None => CREATE_FAILED
                               end)
                              (title entry) (with_db d w))
              end)
  end.

Record Stats := { created : nat; updated : nat; failed : nat }.

(** The body of the [for] loop of [sync]; [None] when [process_entry]
    has not returned. *)
Definition sync_entry (fuel : nat) (dry_run : bool) (acc : Stats * World)
  (entry : Entry) : option (Stats * World) :=
  let '(stats, w) := acc in
  '(page_id, w) ← process_entry fuel entry dry_run w;
  Some
    match page_id with
    | Some _ =>
        if negb (bool_decide (is_Some (query_by_source_file (db w) (file entry))))
        then ({| created := S (created stats); updated := updated stats;
                 failed := failed stats |}, w)
        else ({| created := created stats; updated := S (updated stats);
                 failed := failed stats |}, w)
    | None =>
        ({| created := created stats; updated := updated stats;
            failed := S (failed stats) |}, w)
    end.

(** The loop of [sync] over the extracted entries. *)
Fixpoint dispatch_loop (fuel : nat) (dry_run : bool) (acc : Stats * World)
  (entries : list Entry) : option (Stats * World) :=
  match entries with
  | [] => Some acc
  | entry :: rest =>
      acc ← sync_entry fuel dry_run acc entry;
      dispatch_loop fuel dry_run acc rest
  end.

Definition dispatch (fuel : nat) (dry_run : bool) (entries : list Entry)
  (w : World) : option (Stats * World) :=
  dispatch_loop fuel dry_run
                ({| created := 0; updated := 0; failed := 0 |}, w) entries.

(** [if limit: entries = entries[:limit]]; [limit] is [None] or an
    integer, and [0] is falsy. *)
Definition apply_limit (limit : option Z) (entries : list Entry) : list Entry :=
  match limit with
  | Some k => if (k =? 0)%Z then entries else slice_to entries k
  | None => entries
  end.

Section Sync.

Variable md5_16 : str -> str.

(** [None] as a result: [extract_all_entries] raised, or a call of
    [convert] has not returned within [fuel] iterations. *)
Definition sync (fuel : nat) (memory_md : option str)
  (days : list (str * option str)) (dry_run : bool) (limit : option Z)
  (w : World) : option (Stats * World) :=
  entries ← extract_all_entries md5_16 memory_md days;
  let entries := apply_limit limit entries in
  dispatch fuel dry_run entries w.

End Sync.

(** *** The run once [convert] has returned

    [process_entry] and the loop body of [sync] with the result of
    [convert] given by [children_of]: what they compute when every call
    of [convert] returns. The properties of a run are proved on these
    and carried over to [process_entry] and [sync]. *)
Definition process_entry_with (children_of : str -> list Block)
  (entry : Entry) (dry_run : bool) (w : World) : option nat * World :=
  let entry := classify entry in
  match metadata entry with
  | None => (None, w)
  | Some meta =>
      let source_file := file entry in
      let existing_page_id := query_by_source_file (db w) source_file in
      let properties := build_properties entry meta in
      let body_content := default [] (body entry) in
      let children :=
        if truthy body_content && Nat.ltb 50 (length body_content)
        then Some (children_of body_content) else None in
      if dry_run then (None, log_action DRY_RUN (title entry) w)
      else match existing_page_id with
           | Some page_id =>
               let '(success, d) := update_page (db w) page_id properties in
               if success
               then (Some page_id, log_action UPDATED (title entry) (with_db d w))
               else (None, log_action UPDATE_FAILED (title entry) (with_db d w))
           | None =>
               let '(page_id, d) := create_page (db w) properties children in
               (page_id,
                log_action (match page_id with Some _ => CREATED | None => CREATE_FAILED end)
                           (title entry) (with_db d w))
           end
  end.

Definition sync_entry_with (children_of : str -> list Block) (dry_run : bool)
  (acc : Stats * World) (entry : Entry) : Stats * World :=
  let '(stats, w) := acc in
  let '(page_id, w) := process_entry_with children_of entry dry_run w in
  match page_id with
  | Some _ =>
      if negb (bool_decide (is_Some (query_by_source_file (db w) (file entry))))
      then ({| created := S (created stats); updated := updated stats;
               failed := failed stats |}, w)
      else ({| created := created stats; updated := S (updated stats);
               failed := failed stats |}, w)
  | None =>
      ({| created := created stats; updated := updated stats;
          failed := S (failed stats) |}, w)
  end.

(** [convert] returns within [fuel] iterations on the body of the
    entry, when [process_entry] calls it. *)
Definition converted (fuel : nat) (e : Entry) : bool :=
  let body_content := default [] (body e) in
  negb (truthy body_content && Nat.ltb 50 (length body_content))
  || bool_decide (is_Some (convert fuel body_content)).

(** The blocks [convert] returns within [fuel] iterations. *)
Definition blocks_of (fuel : nat) (text : str) : list Block :=
  default [] (convert fuel text).

(** Counting the log records of one action. *)
Definition count_action (a : Action) (l : list (Action * str)) : nat :=
  length (filter (fun r => r.1 = a) l).

(** ** Predicates used to state the properties *)

(** A line that the list helpers skip: empty once stripped. *)
Definition is_blank (raw : str) : bool := negb (truthy (strip (rstrip raw))).

(** The block [_parse_list] appends for a line of a run, if any. *)
Definition item_of (list_type : ListType) (raw : str) : option Block :=
  if is_blank raw then None
  else (fun prefix =>
          _create_list_item (strip (slice_from (rstrip raw) (length prefix))))
       <$> list_prefix list_type (rstrip raw).

(** A line that a run of [list_type] goes through: blank, or an item. *)
Definition in_run (list_type : ListType) (raw : str) : bool :=
  is_blank raw || bool_decide (is_Some (list_prefix list_type (rstrip raw))).

(** The text payload of a block. *)
Definition block_text (b : Block) : str :=
  match b with
  | Heading _ t | Paragraph t | ListItem t | Quote t | Code t _ => t
  | Divider => []
  end.

(** Two states of one dictionary: the keys set at its creation agree. *)
Definition same_keys (e e' : Entry) : Prop :=
  title e = title e' /\ source e = source e' /\ section e = section e'
  /\ file e = file e' /\ date e = date e'.

(** Every dictionary of [h] is still in [h'] under its reference, with
    the keys of its creation, and with a body if it had one. *)
Definition heap_extends (h h' : list Entry) : Prop :=
  forall r e, h !! r = Some e ->
    exists e', h' !! r = Some e' /\ same_keys e e'
               /\ (is_Some (body e) -> is_Some (body e')).

(** References are valid, and an appended dictionary has a body. *)
Definition refs_ok (es : list nat) (h : list Entry) : Prop :=
  forall r, r ∈ es -> exists e, h !! r = Some e /\ is_Some (body e).

Definition state_ok (st : ParseState) : Prop :=
  (forall r, current_entry st = Some r -> r < length (heap st))
  /\ refs_ok (entries st) (heap st).

(** The dictionary [r] is appended, or is the open entry with lines in
    its buffer. *)
Definition pending (r : nat) (st : ParseState) : Prop :=
  r ∈ entries st \/ (current_entry st = Some r /\ entry_buffer st <> []).

(** The state of the loop of [parse_document] before line [i]. *)
Definition state_before (mode : ParseMode) (lines : list str) (i : nat)
  (acc : list nat * list Entry) : ParseState :=
  foldl (parse_line mode)
        {| current_section := None; current_entry := None;
           entry_buffer := []; entries := acc.1; heap := acc.2 |}
        (take i lines).

(** A heading line of either level. *)
Definition is_heading_line (line : str) : bool :=
  startswith line (lit "## ") || startswith line (lit "### ").

(** The section a line is read in: [current_section] alone, followed
    through the level-2 headings. *)
Definition section_step (mode : ParseMode) (sec : option str) (line : str)
  : option str :=
  if startswith line (lit "## ")
  then let section_title := strip (slice_from line 3) in
       if recognised mode section_title then Some section_title else None
  else sec.

Definition section_before (mode : ParseMode) (lines : list str) (i : nat)
  : option str :=
  foldl (section_step mode) None (take i lines).


(** No keyword of the taxonomy occurs in [text]. *)
Definition no_match (taxonomy : Taxonomy) (text : str) : bool :=
  forallb (fun entry => negb (any_in entry.2 text)) taxonomy.

(** No keyword of any of the four taxonomies matches: content type,
    domain and impact look at the lowercased title, space and body,
    certainty at the lowercased body. *)
Definition no_taxonomy_match (title body : str) : bool :=
  let text := lower (title ++ lit " " ++ body) in
  no_match TYPE_KEYWORDS text && no_match DOMAIN_KEYWORDS text
  && no_match CERTAINTY_PHRASES (lower body)
  && no_match IMPACT_INDICATORS text.

(** The text of a block fits the limit of the store. *)
Definition text_ok (b : Block) : Prop := length (block_text b) <= 2000.

(** The database has a page whose Source File is [f]. *)
Definition has_page (d : list Page) (f : str) : Prop :=
  exists i p, d !! i = Some p /\ Source_File (page_properties p) = f.

Definition has_pages (fs : list str) (d : list Page) : Prop :=
  forall f, f ∈ fs -> has_page d f.

(** No file identifier of [fs] occurs inside another one, so that the
    "contains" filter of the lookup tells them apart. *)
Definition files_separate (fs : list str) : Prop :=
  forall f f', f ∈ fs -> f' ∈ fs -> contains f' f = true -> f = f'.

(** The log records written between two states of the world. *)
Definition log_since (w w' : World) : list (Action * str) :=
  drop (length (log w)) (log w').

(** [files_separate] as a test. *)
Definition files_separate_b (fs : list str) : bool :=
  forallb (fun f =>
             forallb (fun f' => implb (contains f' f) (bool_decide (f = f'))) fs)
          fs.

(** A MEMORY.md with two entries, used in the examples of the sync. *)
Definition two_entries_md : str :=
  lit "## Lesson" ++ nl ++ lit "### A" ++ nl ++ lit "x" ++ nl
  ++ lit "### B" ++ nl ++ lit "y".

Definition empty_world : World := {| db := []; log := [] |}.

(** The dictionary [e] was created at a level-3 heading that stands in
    a recognised section among the first [k] lines. *)
Definition created_at_heading (mode : ParseMode) (lines : list str) (k : nat)
  (e : Entry) : Prop :=
  exists i h sec,
    i < k /\ lines !! i = Some h /\ startswith h (lit "### ") = true
    /\ section_before mode lines i = Some sec
    /\ same_keys (new_entry mode (strip (slice_from h 4)) sec) e.

(** Every body stored in the heap is a stripped string. *)
Definition bodies_stripped (h : list Entry) : Prop :=
  forall r e b, h !! r = Some e -> body e = Some b -> strip b = b.

(** An empty buffer goes with the absence of an open entry. *)
Definition buffer_ok (st : ParseState) : Prop :=
  current_entry st = None -> entry_buffer st = [].

(** The dictionary [r] is finished: it is [e] and is no longer the open
    entry. *)
Definition frozen (r : nat) (e : Entry) (st : ParseState) : Prop :=
  heap st !! r = Some e /\ r ∈ entries st
  /\ forall r', current_entry st = Some r' -> r' <> r.

(** The [keyword_map] dictionary of [extract_tags], in insertion order. *)
Definition TAG_KEYWORDS : Taxonomy :=
  [ (lit "AI", map lit ["ai"; "artificial intelligence"; "ml";
       "machine learning"; "model"]);
    (lit "OpenRouter", map lit ["openrouter"; "router"; "provider"; "stepfun";
       "moonshot"; "xiaomi"; "mistral"]);
    (lit "FreeTier", map lit ["free"; "free tier"; "no cost"]);
    (lit "Benchmark", map lit ["benchmark"; "test"; "score"; "performance";
       "swe-bench"; "aime"]);
    (lit "Cost", map lit ["cost"; "price"; "$"; "pricing"; "budget";
       "optimization"]);
    (lit "Automation", map lit ["automation"; "auto"; "script"; "workflow";
       "agent"; "tool"]);
    (lit "Coding", map lit ["code"; "programming"; "development"; "swe";
       "coding"]);
    (lit "Notion", map lit ["notion"; "database"; "knowledge base"; "sync"]);
    (lit "Decision", map lit ["decision"; "choose"; "selected"; "strategy"])
  ]%string.

Definition MAX_TAGS : nat := 7.

(** The loop of [extract_tags] over [keyword_map]: the tags appended. *)
Fixpoint tags_loop (keyword_map : Taxonomy) (text : str) : list str :=
  match keyword_map with
  | [] => []
  | (tag, words) :: rest =>
      if any_in words text then tag :: tags_loop rest text
      else tags_loop rest text
  end.

(** [extract_tags]. [set_order tags] stands for [list(set(tags))]: the
    members of the set, listed in its iteration order, which the
    program does not fix. *)
Definition extract_tags (set_order : list str -> list str)
  (title body section : str) : list str :=
  let text := lower (title ++ lit " " ++ body ++ lit " " ++ section) in
  slice_to (set_order (tags_loop TAG_KEYWORDS text)) (Z.of_nat MAX_TAGS).

(** The page a PATCH with [properties] leaves of [p], as [update_page]
    builds it. *)
Definition patched (properties : Properties) (p : Page) : Page :=
  {| page_properties :=
       {| Name := Name properties;
          Content_Type := Content_Type properties;
          Domain := Domain properties;
          Certainty := Certainty properties;
          Source := Source properties;
          Confidence_Score := Confidence_Score properties;
          Impact := Impact properties;
          Source_File := Source_File properties;
          Body := match Body properties with
                  | Some b => Some b
                  | None => Body (page_properties p)
                  end |};
     page_children := page_children p |}.

(** The metadata [classify] attaches to an entry, and the properties
    [process_entry] builds from them. *)
Definition entry_meta (e : Entry) : Metadata :=
  {| content_type := classify_type (title e) (default [] (body e));
     domain := classify_domain (title e) (default [] (body e));
     certainty := classify_certainty (default [] (body e));
     impact := classify_impact (title e) (default [] (body e));
     confidence_score :=
       _estimate_confidence (title e) (default [] (body e)) (Some (source e));
     meta_source := source e |}.

Definition entry_properties (e : Entry) : Properties :=
  build_properties (classify e) (entry_meta e).

(** What [process_entry] does to the database for one entry, outside a
    dry run: the page found by the lookup is patched, or a page is
    added. *)
Definition upsert (children_of : str -> list Block) (d : list Page)
  (e : Entry) : list Page :=
  match query_by_source_file d (file e) with
  | Some i =>
      match d !! i with
      | Some p => <[i := patched (entry_properties e) p]> d
      | None => d
      end
  | None =>
      let body_content := default [] (body e) in
      d ++ [{| page_properties := entry_properties e;
               page_children :=
                 if truthy body_content && Nat.ltb 50 (length body_content)
                 then children_of body_content else [] |}]
  end.

(** The file [f] has its page at [i]: the lookup of [f] finds page [i],
    whose Source File is [f]. *)
Definition anchored (d : list Page) (f : str) (i : nat) : Prop :=
  query_by_source_file d f = Some i
  /\ exists p, d !! i = Some p /\ Source_File (page_properties p) = f.

(** The Body a page is left with after the PATCHes of [es], from [b]. *)
Definition body_after (es : list Entry) (b : option str) : option str :=
  foldl (fun b e => match Body (entry_properties e) with
                    | Some x => Some x
                    | None => b
                    end) b es.

(** The page left of [q] by the PATCHes of the entries [es], in order. *)
Definition patched_by (es : list Entry) (q : Page) : Page :=
  foldl (fun p e => patched (entry_properties e) p) q es.

(** What Notion requires of a block beyond its text: a heading of
    level 1, 2 or 3, a code block with a language. *)
Definition block_wf (b : Block) : Prop :=
  match b with
  | Heading level _ => 1 <= level <= 3
  | Code _ language => language <> []
  | _ => True
  end.

(** A MEMORY.md with one entry whose body, of 62 characters, is a line
    starting with ['* ']. *)
Definition starred_entry_md : str :=
  lit "## Lesson" ++ nl ++ lit "### A" ++ nl
  ++ lit "* " ++ replicate 60 "x"%char.

(** A MEMORY.md with one entry whose body is a paragraph of 60
    characters. *)
Definition long_entry_md : str :=
  lit "## Lesson" ++ nl ++ lit "### A" ++ nl ++ replicate 60 "x"%char.

(** * Properties *)

(** ** Strings *)

Lemma lstrip_snoc_nonspace (x : str) (c : ascii) :
  isspace c = false -> exists y, lstrip (x ++ [c]) = y ++ [c].
Proof.
  intros Hc. induction x as [|a x IH]; simpl.
  - rewrite Hc. by exists [].
  - destruct (isspace a); [exact IH|]. by exists (a :: x).
Qed.

Lemma rstrip_cons_nonspace (c : ascii) (l : str) :
  isspace c = false -> exists l', rstrip (c :: l) = c :: l'.
Proof.
  intros Hc. unfold rstrip. rewrite reverse_cons.
  destruct (lstrip_snoc_nonspace (reverse l) c Hc) as [y ->].
  rewrite reverse_app. simpl. by exists (reverse y).
Qed.

Lemma strip_cons_nonspace (c : ascii) (l : str) :
  isspace c = false -> exists l', strip (c :: l) = c :: l'.
Proof.
  intros Hc. unfold strip.
  destruct (rstrip_cons_nonspace c l Hc) as [l' ->].
  simpl. rewrite Hc. by exists l'.
Qed.

Lemma length_lstrip (s : str) : length (lstrip s) <= length s.
Proof.
  induction s as [|c s IH]; simpl; [lia|].
  destruct (isspace c); simpl; lia.
Qed.

Lemma length_rstrip (s : str) : length (rstrip s) <= length s.
Proof.
  unfold rstrip. rewrite length_reverse.
  etrans; [apply length_lstrip|]. by rewrite length_reverse.
Qed.

Lemma length_strip (s : str) : length (strip s) <= length s.
Proof.
  unfold strip. etrans; [apply length_lstrip|]. apply length_rstrip.
Qed.

Lemma length_slice_to {A} (s : list A) (k : Z) :
  (0 <= k)%Z -> length (slice_to s k) <= Z.to_nat k.
Proof.
  intros Hk. unfold slice_to.
  destruct (Z.leb_spec 0 k); [|lia]. rewrite length_take. lia.
Qed.

(** ** MarkdownToNotion *)

Lemma skip_list_from_cons (raw : str) (r : list str) (i : nat) (lt : ListType) :
  skip_list_from (raw :: r) i lt =
  if in_run lt raw then skip_list_from r (S i) lt else i.
Proof.
  simpl. unfold in_run, is_blank.
  destruct (truthy (strip (rstrip raw))); simpl; [|done].
  by destruct (list_prefix lt (rstrip raw)).
Qed.

Lemma parse_list_from_cons (raw : str) (r : list str) (lt : ListType) :
  parse_list_from (raw :: r) lt =
  if in_run lt raw
  then option_list (item_of lt raw) ++ parse_list_from r lt else [].
Proof.
  simpl. unfold in_run, item_of, is_blank.
  destruct (truthy (strip (rstrip raw))); simpl; [|done].
  by destruct (list_prefix lt (rstrip raw)).
Qed.

Lemma omap_cons_option_list {A B} (f : A -> option B) (x : A) (l : list A) :
  omap f (x :: l) = option_list (f x) ++ omap f l.
Proof. simpl. by destruct (f x). Qed.

Lemma skip_parse_from_run (rest0 : list str) (i : nat) (lt : ListType) :
  exists run rest,
    rest0 = run ++ rest
    /\ Forall (fun raw => in_run lt raw = true) run
    /\ match rest with [] => True | raw :: _ => in_run lt raw = false end
    /\ skip_list_from rest0 i lt = i + length run
    /\ parse_list_from rest0 lt = omap (item_of lt) run.
Proof.
  revert i. induction rest0 as [|raw r IH]; intros i.
  - exists [], []. simpl. repeat split; [constructor | lia].
  - rewrite skip_list_from_cons, parse_list_from_cons.
    destruct (in_run lt raw) eqn:Hin.
    + destruct (IH (S i)) as (run & rest & -> & Hrun & Hrest & Hs & Hpl).
      exists (raw :: run), rest.
      rewrite omap_cons_option_list, Hs, Hpl. simpl.
      repeat split; [by constructor | done | lia].
    + exists [], (raw :: r). simpl. repeat split; [constructor | done | lia].
Qed.

(** C3, as amended. A run of list lines goes through blank lines: from
    [start], [_skip_list] passes every line that is blank or an item of
    the list type and stops at the first line that is neither, or at the
    end; [_parse_list] returns the items of exactly those lines, in
    order. *)
Theorem list_run_goes_through_blank_lines
  (lines : list str) (start : nat) (lt : ListType) :
  exists run rest,
    drop start lines = run ++ rest
    /\ Forall (fun raw => in_run lt raw = true) run
    /\ match rest with [] => True | raw :: _ => in_run lt raw = false end
    /\ _skip_list lines start lt = start + length run
    /\ _parse_list lines start lt = omap (item_of lt) run.
Proof. apply skip_parse_from_run. Qed.

(** C3, as stated, fails: a run does not stop at a blank line. In
    ["- a", "", "- b"] the run starting at line 0 ends at index 3. *)
Lemma blank_line_does_not_end_run :
  ~ (forall (lines : list str) (start : nat) (lt : ListType) (raw b : str),
        lines !! start = Some raw -> is_Some (item_of lt raw) ->
        lines !! S start = Some b -> is_blank b = true ->
        _skip_list lines start lt = S start).
Proof.
  intros H.
  specialize (H [lit "- a"; []; lit "- b"] 0 Dash (lit "- a") []).
  vm_compute in H. by specialize (H eq_refl (ex_intro _ _ eq_refl) eq_refl eq_refl).
Qed.

Example list_run_example :
  let lines := [lit "- a"; []; lit "- b"; lit "x"; lit "- c"] in
  _skip_list lines 0 Dash = 3
  /\ _parse_list lines 0 Dash = [ListItem (lit "a"); ListItem (lit "b")].
Proof. by vm_compute. Qed.

Lemma star_line_shape (line : str) :
  startswith line (lit "* ") = true ->
  exists l, line = "*"%char :: " "%char :: l.
Proof.
  destruct line as [|a [|b l]]; simpl; repeat case_decide; subst; try done.
  by exists l.
Qed.

Lemma star_line_step
  (lines : list str) (i : nat) (raw : str) (blocks : list Block) :
  lines !! i = Some raw ->
  startswith (rstrip raw) (lit "* ") = true ->
  _parse_list lines i Dash = []
  /\ _skip_list lines i Dash = i
  /\ convert_step lines (i, blocks) = Some (i, blocks).
Proof.
  intros Hi Hstar.
  destruct (star_line_shape _ Hstar) as [l Hl].
  assert (Hstrip : exists l', strip (rstrip raw) = "*"%char :: l').
  { rewrite Hl. by apply strip_cons_nonspace. }
  destruct Hstrip as [l' Hl'].
  assert (Hp : _parse_list lines i Dash = []).
  { unfold _parse_list. rewrite (drop_S _ _ _ Hi).
    unfold parse_list_from. cbv zeta. by rewrite Hl', Hl. }
  assert (Hs : _skip_list lines i Dash = i).
  { unfold _skip_list. rewrite (drop_S _ _ _ Hi).
    unfold skip_list_from. cbv zeta. by rewrite Hl', Hl. }
  repeat split; try done.
  unfold convert_step. rewrite Hi. cbv zeta.
  rewrite Hl', Hp, Hs, app_nil_r, Hl. by vm_compute.
Qed.

(** C2 fails on the code. A line starting with ['* '] enters the list
    branch of [convert], but the helpers test ['- '] only:
    [_parse_list] returns no block, [_skip_list] returns the index it
    was given, and the iteration of [convert] leaves [i] and [blocks] as
    they were. *)
Theorem star_line_emits_nothing
  (lines : list str) (i : nat) (raw : str) (blocks : list Block) :
  lines !! i = Some raw ->
  startswith (rstrip raw) (lit "* ") = true ->
  _parse_list lines i Dash = []
  /\ _skip_list lines i Dash = i
  /\ convert_step lines (i, blocks) = Some (i, blocks).
Proof. apply star_line_step. Qed.

Lemma star_line_emits_nothing_witness :
  _parse_list [lit "x"; lit "* a"] 1 Dash = []
  /\ _skip_list [lit "x"; lit "* a"] 1 Dash = 1
  /\ convert_step [lit "x"; lit "* a"] (1, [Paragraph (lit "x")])
     = Some (1, [Paragraph (lit "x")]).
Proof.
  apply (star_line_emits_nothing [lit "x"; lit "* a"] 1 (lit "* a"));
    reflexivity.
Defined.

Lemma convert_loop_stuck (fuel : nat) (lines : list str) (st : nat * list Block) :
  convert_step lines st = Some st -> convert_loop fuel lines st = None.
Proof.
  intros Hst. induction fuel as [|fuel IH]; simpl; rewrite Hst; [done|exact IH].
Qed.

(** C1 fails on the code. On the text ["* a"] the loop of [convert]
    never ends: no number of iterations yields a result. *)
Theorem convert_star_line_never_returns :
  forall fuel, convert fuel (lit "* a") = None.
Proof.
  intros fuel. unfold convert. apply convert_loop_stuck.
  change (split (lit "* a") nl_char) with [lit "* a"].
  by apply (star_line_step [lit "* a"] 0 (lit "* a") []).
Qed.

Lemma skip_list_from_bounds (rest : list str) (i : nat) (lt : ListType) :
  i <= skip_list_from rest i lt <= i + length rest.
Proof.
  revert i. induction rest as [|raw rest IH]; intros i; simpl; [lia|].
  destruct (negb _); [specialize (IH (S i)); lia|].
  destruct (list_prefix lt (rstrip raw)); [specialize (IH (S i))|]; lia.
Qed.

Lemma parse_code_from_bounds (rest : list str) (i : nat) :
  i <= (parse_code_from rest i).2 <= i + length rest.
Proof.
  revert i. induction rest as [|raw rest IH]; intros i; simpl; [lia|].
  destruct (bool_decide _); simpl; [lia|].
  specialize (IH (S i)). destruct (parse_code_from rest (S i)). simpl in *. lia.
Qed.

Lemma table_from_bounds (rest : list str) (j : nat) (table_text : str) :
  j <= (table_from rest j table_text).2 <= j + length rest.
Proof.
  revert j table_text. induction rest as [|raw rest IH]; intros j t; simpl; [lia|].
  destruct (contains raw _); simpl; [|lia].
  specialize (IH (S j) (t ++ nl_char :: raw)). lia.
Qed.

(** Outside the defect of the star lines every iteration of [convert]
    moves [i] forward, and stays within the lines. *)
Lemma convert_step_advances (lines : list str) (i i' : nat)
  (blocks blocks' : list Block) :
  (forall raw, lines !! i = Some raw ->
               startswith (rstrip raw) (lit "* ") = false) ->
  convert_step lines (i, blocks) = Some (i', blocks') ->
  i < i' <= length lines.
Proof.
  intros Hstar. unfold convert_step, _skip_list, _parse_code_block.
  destruct (lines !! i) as [raw|] eqn:Hi; [|done].
  specialize (Hstar raw eq_refl).
  pose proof (lookup_lt_Some _ _ _ Hi) as Hlt.
  pose proof (f_equal length (take_drop_middle _ _ _ Hi)) as Hlen.
  rewrite length_app, length_take in Hlen. simpl in Hlen.
  rewrite (drop_S _ _ _ Hi), !skip_list_from_cons. cbv zeta.
  rewrite Hstar, orb_false_r. unfold in_run, list_prefix.
  pose proof (skip_list_from_bounds (drop (S i) lines) (S i)) as Hskip.
  pose proof (parse_code_from_bounds (drop (S i) lines) (S i)) as Hcode.
  pose proof (table_from_bounds (drop (S i) lines) (S i) (rstrip raw)) as Htab.
  destruct (negb (truthy (strip (rstrip raw)))) eqn:Hblank;
    [intros [= <- <-]; lia|].
  destruct (startswith (rstrip raw) (lit "# ")); [intros [= <- <-]; lia|].
  destruct (startswith (rstrip raw) (lit "## ")); [intros [= <- <-]; lia|].
  destruct (startswith (rstrip raw) (lit "### ")); [intros [= <- <-]; lia|].
  destruct (startswith (rstrip raw) (lit "- ")) eqn:Hdash.
  { assert (is_blank raw || bool_decide (is_Some (Some (lit "- "))) = true)
      as -> by (apply orb_true_iff; right; by apply bool_decide_eq_true_2).
    intros [= <- <-]. specialize (Hskip Dash). lia. }
  destruct (re_match_numbered (rstrip raw)) as [prefix|] eqn:Hnum.
  { assert (bool_decide (is_Some (Some prefix)) = true)
      as -> by (by apply bool_decide_eq_true_2).
    rewrite orb_true_r.
    intros [= <- <-]. specialize (Hskip Numbered). lia. }
  assert (bool_decide (is_Some (@None str)) = false)
    as -> by (apply bool_decide_eq_false_2; by intros [? ?]).
  destruct (startswith (rstrip raw) (lit "> ")); [intros [= <- <-]; lia|].
  destruct (startswith (rstrip raw) (lit "```")).
  { destruct (parse_code_from (drop (S i) lines) (S i)) as [code_lines new_i].
    intros [= <- <-]. simpl in Hcode. lia. }
  destruct (bool_decide _); [intros [= <- <-]; lia|].
  destruct (_ && _).
  - destruct (table_from (drop (S i) lines) (S i) (rstrip raw)) as [t j].
    intros [= <- <-]. simpl in Htab. lia.
  - intros [= <- <-]. lia.
Qed.

Lemma convert_loop_unfold (fuel : nat) (lines : list str) (st : nat * list Block) :
  convert_loop fuel lines st =
  match convert_step lines st with
  | None => Some st.2
  | Some st' =>
      match fuel with
      | 0 => None
      | S fuel' => convert_loop fuel' lines st'
      end
  end.
Proof. by destruct fuel. Qed.

(** A text without star lines is converted: the loop of [convert] ends
    within one iteration per line. *)
Lemma convert_loop_terminates (lines : list str) :
  Forall (fun raw => startswith (rstrip raw) (lit "* ") = false) lines ->
  forall fuel i blocks,
    length lines <= i + fuel ->
    is_Some (convert_loop fuel lines (i, blocks)).
Proof.
  intros Hstar fuel. induction fuel as [|fuel IH]; intros i blocks Hfuel;
    rewrite convert_loop_unfold.
  - unfold convert_step. rewrite lookup_ge_None_2 by lia. by eexists.
  - destruct (convert_step lines (i, blocks)) as [[i' blocks']|] eqn:Hstep;
      [|by eexists].
    apply IH. apply convert_step_advances in Hstep; [lia|].
    intros raw Hraw. rewrite Forall_forall in Hstar.
    by eapply Hstar, list_elem_of_lookup_2.
Qed.

(** C4. The text ["## H\n- a\n- b\n\npara"] converts to a level-2
    heading, two list items and a paragraph, in that order. *)
Theorem convert_block_sequence :
  convert_returns
    (lit "## H" ++ nl ++ lit "- a" ++ nl ++ lit "- b" ++ nl ++ nl ++ lit "para")
    [Heading 2 (lit "H"); ListItem (lit "a"); ListItem (lit "b");
     Paragraph (lit "para")].
Proof. exists 4. by vm_compute. Qed.

(** ** MemoryParser *)

Lemma same_keys_refl (e : Entry) : same_keys e e.
Proof. by repeat split. Qed.

Lemma same_keys_trans (e1 e2 e3 : Entry) :
  same_keys e1 e2 -> same_keys e2 e3 -> same_keys e1 e3.
Proof.
  intros (?&?&?&?&?) (?&?&?&?&?). repeat split; congruence.
Qed.

Lemma heap_extends_refl (h : list Entry) : heap_extends h h.
Proof. intros r e Hr. exists e. split; [done|]. split; [apply same_keys_refl|done]. Qed.

Lemma heap_extends_trans (h1 h2 h3 : list Entry) :
  heap_extends h1 h2 -> heap_extends h2 h3 -> heap_extends h1 h3.
Proof.
  intros H12 H23 r e Hr.
  destruct (H12 r e Hr) as (e2 & Hr2 & Hk2 & Hb2).
  destruct (H23 r e2 Hr2) as (e3 & Hr3 & Hk3 & Hb3).
  exists e3. split; [done|]. split; [by eapply same_keys_trans|auto].
Qed.

Lemma heap_extends_alter_body (h : list Entry) (r : nat) (b : str) :
  heap_extends h (alter (set_body b) r h).
Proof.
  intros r' e Hr'. destruct (decide (r = r')) as [<-|Hne].
  - exists (set_body b e). rewrite list_lookup_alter_eq, Hr'.
    split; [done|]. split; [by repeat split|]. intros _. by eexists.
  - exists e. rewrite list_lookup_alter_ne by done.
    split; [done|]. split; [apply same_keys_refl|done].
Qed.

Lemma heap_extends_app (h k : list Entry) : heap_extends h (h ++ k).
Proof.
  intros r e Hr. exists e. split; [by apply lookup_app_l_Some|].
  split; [apply same_keys_refl|done].
Qed.

Lemma refs_ok_extends (es : list nat) (h h' : list Entry) :
  refs_ok es h -> heap_extends h h' -> refs_ok es h'.
Proof.
  intros Hok Hext r Hr. destruct (Hok r Hr) as (e & He & Hb).
  destruct (Hext r e He) as (e' & He' & _ & Hb'). eauto.
Qed.

Lemma flush_current_section (st : ParseState) :
  current_section (flush st) = current_section st.
Proof.
  unfold flush. by destruct (current_entry st) eqn:?, (entry_buffer st) eqn:?.
Qed.

Lemma flush_current_entry (st : ParseState) :
  current_entry (flush st) = current_entry st.
Proof.
  unfold flush.
  by destruct (current_entry st) eqn:?, (entry_buffer st) eqn:?.
Qed.

Lemma flush_entries (st : ParseState) :
  entries (flush st) =
  entries st ++ match current_entry st, entry_buffer st with
                | Some r, _ :: _ => [r]
                | _, _ => []
                end.
Proof.
  unfold flush. destruct (current_entry st) eqn:?, (entry_buffer st) eqn:?;
    simpl; by rewrite ?app_nil_r.
Qed.

Lemma flush_heap (st : ParseState) :
  heap (flush st) =
  match current_entry st, entry_buffer st with
  | Some r, _ :: _ => alter (set_body (strip (join nl (entry_buffer st)))) r (heap st)
  | _, _ => heap st
  end.
Proof.
  unfold flush.
  by destruct (current_entry st) eqn:?, (entry_buffer st) eqn:Hb; rewrite <- ?Hb.
Qed.

Lemma flush_heap_extends (st : ParseState) :
  heap_extends (heap st) (heap (flush st)).
Proof.
  rewrite flush_heap. destruct (current_entry st), (entry_buffer st);
    auto using heap_extends_refl, heap_extends_alter_body.
Qed.

Lemma flush_length_heap (st : ParseState) :
  length (heap (flush st)) = length (heap st).
Proof.
  rewrite flush_heap. destruct (current_entry st), (entry_buffer st);
    by rewrite ?length_alter.
Qed.

Lemma flush_state_ok (st : ParseState) : state_ok st -> state_ok (flush st).
Proof.
  intros [Hcur Hrefs]. split.
  - intros r. rewrite flush_current_entry, flush_length_heap. apply Hcur.
  - rewrite flush_entries. intros r [Hr|Hr]%elem_of_app.
    + by apply (refs_ok_extends _ _ _ Hrefs (flush_heap_extends st)).
    + rewrite flush_heap.
      destruct (current_entry st) as [r0|] eqn:Hc; [|by apply elem_of_nil in Hr].
      destruct (entry_buffer st) as [|b0 buf] eqn:Hbuf; [by apply elem_of_nil in Hr|].
      apply list_elem_of_singleton in Hr as ->.
      destruct (lookup_lt_is_Some_2 (heap st) r0 (Hcur r0 eq_refl)) as [e He].
      exists (set_body (strip (join nl (b0 :: buf))) e).
      rewrite list_lookup_alter_eq, He. split; [done|]. by eexists.
Qed.

Lemma flush_pending (r : nat) (st : ParseState) :
  pending r st -> r ∈ entries (flush st).
Proof.
  rewrite flush_entries. intros [Hr|[Hc Hb]]; apply elem_of_app; [by left|].
  right. rewrite Hc. destruct (entry_buffer st); [done|]. by apply list_elem_of_singleton.
Qed.

Lemma parse_line_cases (mode : ParseMode) (st : ParseState) (line : str) :
  (startswith line (lit "## ") = true
   /\ parse_line mode st line =
      {| current_section := section_step mode (current_section st) line;
         current_entry := current_entry (flush st);
         entry_buffer := entry_buffer (flush st);
         entries := entries (flush st);
         heap := heap (flush st) |})
  \/ (startswith line (lit "## ") = false
      /\ startswith line (lit "### ") = true
      /\ exists sec, current_section st = Some sec
      /\ parse_line mode st line =
         {| current_section := Some sec;
            current_entry := Some (length (heap (flush st)));
            entry_buffer := entry_buffer (flush st);
            entries := entries (flush st);
            heap := heap (flush st)
                    ++ [new_entry mode (strip (slice_from line 4)) sec] |})
  \/ (is_heading_line line && bool_decide (is_Some (current_section st))
        = false
      /\ startswith line (lit "## ") = false
      /\ exists r, current_entry st = Some r
      /\ parse_line mode st line =
         {| current_section := current_section st;
            current_entry := Some r;
            entry_buffer := entry_buffer st ++ [line];
            entries := entries st;
            heap := heap st |})
  \/ (is_heading_line line && bool_decide (is_Some (current_section st))
        = false
      /\ startswith line (lit "## ") = false
      /\ current_entry st = None /\ parse_line mode st line = st).
Proof.
  unfold parse_line, section_step, is_heading_line.
  destruct (startswith line (lit "## ")) eqn:H2; [by left|]. right.
  destruct (startswith line (lit "### ")) eqn:H3,
           (current_section st) as [sec|] eqn:Hsec; simpl.
  - left. repeat split; try done. by exists sec.
  - right. destruct (current_entry st) as [r|] eqn:Hc; [left|by right].
    repeat split; try done. by exists r.
  - right. destruct (current_entry st) as [r|] eqn:Hc; [left|by right].
    repeat split; try done. by exists r.
  - right. destruct (current_entry st) as [r|] eqn:Hc; [left|by right].
    repeat split; try done. by exists r.
Qed.

Lemma parse_line_current_section (mode : ParseMode) (st : ParseState) (line : str) :
  current_section (parse_line mode st line)
  = section_step mode (current_section st) line.
Proof.
  destruct (parse_line_cases mode st line)
    as [[H2 ->]|[(H2&H3&sec&Hs&->)|[(Hh&H2&r&Hc&->)|(Hh&H2&Hc&->)]]];
    simpl; unfold section_step; rewrite ?H2; done.
Qed.

Lemma parse_line_heap_extends (mode : ParseMode) (st : ParseState) (line : str) :
  heap_extends (heap st) (heap (parse_line mode st line)).
Proof.
  destruct (parse_line_cases mode st line)
    as [[H2 ->]|[(H2&H3&sec&Hs&->)|[(Hh&H2&r&Hc&->)|(Hh&H2&Hc&->)]]]; simpl.
  - apply flush_heap_extends.
  - eapply heap_extends_trans; [apply flush_heap_extends|apply heap_extends_app].
  - apply heap_extends_refl.
  - apply heap_extends_refl.
Qed.

Lemma parse_line_state_ok (mode : ParseMode) (st : ParseState) (line : str) :
  state_ok st -> state_ok (parse_line mode st line).
Proof.
  intros Hok. pose proof (flush_state_ok st Hok) as [Hcur Hrefs].
  destruct (parse_line_cases mode st line)
    as [[H2 ->]|[(H2&H3&sec&Hs&->)|[(Hh&H2&r&Hc&->)|(Hh&H2&Hc&->)]]];
    try done.
  - split; simpl.
    + intros r [= <-]. rewrite length_app. simpl. lia.
    + eapply refs_ok_extends; [exact Hrefs|apply heap_extends_app].
  - destruct Hok as [Hcur' Hrefs']. split; simpl; [|done].
    intros r' [= <-]. by apply Hcur'.
Qed.

Lemma parse_line_pending (mode : ParseMode) (st : ParseState) (line : str) (r : nat) :
  pending r st -> pending r (parse_line mode st line).
Proof.
  intros Hp. pose proof (flush_pending r st Hp) as Hf.
  destruct (parse_line_cases mode st line)
    as [[H2 ->]|[(H2&H3&sec&Hs&->)|[(Hh&H2&r'&Hc&->)|(Hh&H2&Hc&->)]]];
    try done; try (by left).
  destruct Hp as [Hr|[Hc' Hb]]; [by left|]. right. simpl.
  split; [congruence|]. by destruct (entry_buffer st).
Qed.

Lemma foldl_parse_line_section (mode : ParseMode) (lines : list str) (st : ParseState) :
  current_section (foldl (parse_line mode) st lines)
  = foldl (section_step mode) (current_section st) lines.
Proof.
  revert st. induction lines as [|l lines IH]; intros st; simpl; [done|].
  by rewrite IH, parse_line_current_section.
Qed.

Lemma foldl_parse_line_inv (mode : ParseMode) (lines : list str) (st : ParseState) :
  state_ok st ->
  state_ok (foldl (parse_line mode) st lines)
  /\ heap_extends (heap st) (heap (foldl (parse_line mode) st lines))
  /\ forall r, pending r st -> pending r (foldl (parse_line mode) st lines).
Proof.
  revert st. induction lines as [|l lines IH]; intros st Hok; simpl.
  - split; [done|]. split; [apply heap_extends_refl|done].
  - destruct (IH (parse_line mode st l) (parse_line_state_ok mode st l Hok))
      as (Hok' & Hext & Hpend).
    split; [done|]. split.
    + eapply heap_extends_trans; [apply parse_line_heap_extends|exact Hext].
    + intros r Hr. by apply Hpend, parse_line_pending.
Qed.

Lemma heading3_not_heading2 (line : str) :
  startswith line (lit "### ") = true -> startswith line (lit "## ") = false.
Proof.
  destruct line as [|a [|b [|c l]]]; simpl;
    repeat case_decide; subst; done.
Qed.

Lemma elem_of_deref (acc : list nat * list Entry) (r : nat) (e : Entry) :
  r ∈ acc.1 -> acc.2 !! r = Some e -> e ∈ deref acc.
Proof. intros Hr He. apply list_elem_of_omap. eauto. Qed.

Lemma deref_body (acc : list nat * list Entry) (e : Entry) :
  refs_ok acc.1 acc.2 -> e ∈ deref acc -> is_Some (body e).
Proof.
  intros Hok (r & Hr & He)%list_elem_of_omap.
  destruct (Hok r Hr) as (e' & He' & Hb). congruence.
Qed.

Lemma parse_document_inv (mode : ParseMode) (content : str)
  (acc : list nat * list Entry) :
  refs_ok acc.1 acc.2 ->
  refs_ok (parse_document mode content acc).1 (parse_document mode content acc).2
  /\ heap_extends acc.2 (parse_document mode content acc).2
  /\ forall r, r ∈ acc.1 -> r ∈ (parse_document mode content acc).1.
Proof.
  intros Hok. unfold parse_document. cbv zeta. simpl.
  set (st0 := {| current_section := None; current_entry := None;
                 entry_buffer := []; entries := acc.1; heap := acc.2 |}).
  assert (Hok0 : state_ok st0) by (by split).
  destruct (foldl_parse_line_inv mode (split content nl_char) st0 Hok0)
    as (Hok1 & Hext & Hpend).
  split; [by apply flush_state_ok|]. split.
  - eapply heap_extends_trans; [exact Hext|apply flush_heap_extends].
  - intros r Hr. apply flush_pending, Hpend. by left.
Qed.

Lemma parse_document_heading (mode : ParseMode) (content : str)
  (acc : list nat * list Entry) (i : nat) (h b sec : str) :
  refs_ok acc.1 acc.2 ->
  split content nl_char !! i = Some h ->
  startswith h (lit "### ") = true ->
  section_before mode (split content nl_char) i = Some sec ->
  split content nl_char !! S i = Some b ->
  is_heading_line b = false ->
  exists r e,
    r ∈ (parse_document mode content acc).1
    /\ (parse_document mode content acc).2 !! r = Some e
    /\ same_keys (new_entry mode (strip (slice_from h 4)) sec) e
    /\ is_Some (body e).
Proof.
  intros Hok Hh H3 Hsec Hb Hnb. unfold parse_document. cbv zeta. simpl.
  set (st0 := {| current_section := None; current_entry := None;
                 entry_buffer := []; entries := acc.1; heap := acc.2 |}).
  assert (Hok0 : state_ok st0) by (by split).
  rewrite <- (take_drop_middle _ _ _ Hh), (drop_S _ _ _ Hb).
  rewrite foldl_app. simpl.
  set (sti := foldl (parse_line mode) st0 (take i (split content nl_char))).
  destruct (foldl_parse_line_inv mode (take i (split content nl_char)) st0 Hok0)
    as (Hoki & _ & _). fold sti in Hoki.
  assert (Hseci : current_section sti = Some sec).
  { unfold sti. by rewrite foldl_parse_line_section. }
  pose proof (parse_line_state_ok mode sti h Hoki) as Hok1.
  pose proof (heading3_not_heading2 h H3) as H2.
  assert (H1 : current_entry (parse_line mode sti h)
               = Some (length (heap (flush sti)))
               /\ heap (parse_line mode sti h) !! length (heap (flush sti))
                  = Some (new_entry mode (strip (slice_from h 4)) sec)).
  { destruct (parse_line_cases mode sti h)
      as [[H2' _]|[(_&_&sec'&Hs&->)|[(Hhl&_)|(Hhl&_)]]].
    - congruence.
    - simpl. assert (sec' = sec) as -> by congruence.
      split; [done|]. by rewrite lookup_app_r, Nat.sub_diag.
    - unfold is_heading_line in Hhl. rewrite H3, H2, Hseci in Hhl.
      by vm_compute in Hhl.
    - unfold is_heading_line in Hhl. rewrite H3, H2, Hseci in Hhl.
      by vm_compute in Hhl. }
  destruct H1 as [Hc1 Hheap1].
  set (st1 := parse_line mode sti h) in *.
  set (r := length (heap (flush sti))) in *.
  pose proof (parse_line_state_ok mode st1 b Hok1) as Hok2.
  assert (H2b : pending r (parse_line mode st1 b)
                /\ heap (parse_line mode st1 b) = heap st1).
  { unfold is_heading_line in Hnb. apply orb_false_iff in Hnb as [Hb2 Hb3].
    destruct (parse_line_cases mode st1 b)
      as [[H2' _]|[(_&H3'&_)|[(_&_&r'&Hc&->)|(_&_&Hc&_)]]];
      try congruence.
    simpl. split; [|done]. right. simpl.
    split; [congruence|]. by destruct (entry_buffer st1). }
  destruct H2b as [Hpend2 Hheap2].
  set (st2 := parse_line mode st1 b) in *.
  destruct (foldl_parse_line_inv mode (drop (S (S i)) (split content nl_char))
              st2 Hok2) as (Hokn & Hextn & Hpendn).
  set (stn := foldl (parse_line mode) st2 _) in *.
  assert (Hext : heap_extends (heap st1) (heap (flush stn))).
  { rewrite <- Hheap2. eapply heap_extends_trans;
      [exact Hextn|apply flush_heap_extends]. }
  destruct (Hext r _ Hheap1) as (e & He & Hk & _).
  pose proof (flush_pending r stn (Hpendn r Hpend2)) as Hr.
  exists r, e. do 3 (split; [done|]).
  destruct (flush_state_ok stn Hokn) as [_ Hrefs].
  destruct (Hrefs r Hr) as (e' & He' & Hbody). congruence.
Qed.

Lemma daily_fold_inv (days : list (str * option str)) (acc : list nat * list Entry) :
  refs_ok acc.1 acc.2 ->
  refs_ok (foldl daily_step acc days).1 (foldl daily_step acc days).2
  /\ heap_extends acc.2 (foldl daily_step acc days).2
  /\ forall r, r ∈ acc.1 -> r ∈ (foldl daily_step acc days).1.
Proof.
  revert acc. induction days as [|[d c] days IH]; intros acc Hok; simpl.
  - split; [done|]. split; [apply heap_extends_refl|done].
  - assert (Hstep : refs_ok (daily_step acc (d, c)).1 (daily_step acc (d, c)).2
                    /\ heap_extends acc.2 (daily_step acc (d, c)).2
                    /\ forall r, r ∈ acc.1 -> r ∈ (daily_step acc (d, c)).1).
    { unfold daily_step. simpl. destruct c as [content|].
      - by apply parse_document_inv.
      - split; [done|]. split; [apply heap_extends_refl|done]. }
    destruct Hstep as (Hok1 & Hext1 & Hmono1).
    destruct (IH _ Hok1) as (Hok2 & Hext2 & Hmono2).
    split; [done|]. split; [by eapply heap_extends_trans|auto].
Qed.

Lemma refs_ok_nil :
  refs_ok (([], []) : list nat * list Entry).1
          (([], []) : list nat * list Entry).2.
Proof. intros r Hr. by apply elem_of_nil in Hr. Qed.

Lemma parse_memory_file_body (memory_md : option str) (e : Entry) :
  e ∈ parse_memory_file memory_md -> is_Some (body e).
Proof.
  destruct memory_md as [content|]; simpl; [|by intros ?%elem_of_nil].
  apply deref_body. by apply parse_document_inv, refs_ok_nil.
Qed.

Lemma parse_daily_files_body (days : list (str * option str)) (e : Entry) :
  e ∈ parse_daily_files days -> is_Some (body e).
Proof. apply deref_body. by apply daily_fold_inv, refs_ok_nil. Qed.

(** C6, as amended. A level-3 heading line inside a recognised section
    yields an entry whenever the next line is not a heading line: the
    entry carries the heading's title and the section, and for a daily
    file its date. Every entry returned by either parser has a body, and
    that body can be empty. *)
Theorem heading_followed_by_text_yields_entry :
  (forall (content : str) (i : nat) (h b sec : str),
      split content nl_char !! i = Some h ->
      startswith h (lit "### ") = true ->
      section_before memory_mode (split content nl_char) i = Some sec ->
      split content nl_char !! S i = Some b ->
      is_heading_line b = false ->
      exists e, e ∈ parse_memory_file (Some content)
                /\ title e = strip (slice_from h 4) /\ section e = sec
                /\ is_Some (body e))
  /\ (forall (days : list (str * option str)) (k : nat) (d content : str)
             (i : nat) (h b sec : str),
      days !! k = Some (d, Some content) ->
      split content nl_char !! i = Some h ->
      startswith h (lit "### ") = true ->
      section_before (daily_mode d) (split content nl_char) i = Some sec ->
      split content nl_char !! S i = Some b ->
      is_heading_line b = false ->
      exists e, e ∈ parse_daily_files days
                /\ title e = strip (slice_from h 4) /\ section e = sec
                /\ date e = Some d /\ is_Some (body e))
  /\ (forall memory_md e, e ∈ parse_memory_file memory_md -> is_Some (body e))
  /\ (forall days e, e ∈ parse_daily_files days -> is_Some (body e))
  /\ (exists content e, e ∈ parse_memory_file (Some content) /\ body e = Some []).
Proof.
  split; [|split; [|split; [|split]]].
  - intros content i h b sec Hh H3 Hsec Hb Hnb.
    destruct (parse_document_heading memory_mode content ([], []) i h b sec
                refs_ok_nil Hh H3 Hsec Hb Hnb) as (r & e & Hr & He & Hk & Hbody).
    exists e. destruct Hk as (Ht & _ & Hs & _).
    split; [by eapply elem_of_deref|]. by rewrite <- Ht, <- Hs.
  - intros days k d content i h b sec Hk Hh H3 Hsec Hb Hnb.
    unfold parse_daily_files.
    rewrite <- (take_drop_middle _ _ _ Hk), foldl_app. simpl.
    destruct (daily_fold_inv (take k days) ([], []) refs_ok_nil) as (Hok0 & _ & _).
    set (acc0 := foldl daily_step ([], []) (take k days)) in *.
    unfold daily_step at 2. simpl.
    destruct (parse_document_heading (daily_mode d) content acc0 i h b sec
                Hok0 Hh H3 Hsec Hb Hnb) as (r & e & Hr & He & Hkeys & Hbody).
    destruct (parse_document_inv (daily_mode d) content acc0 Hok0) as (Hok1 & _ & _).
    set (acc1 := parse_document (daily_mode d) content acc0) in *.
    destruct (daily_fold_inv (drop (S k) days) acc1 Hok1) as (Hok2 & Hext2 & Hmono2).
    destruct (Hext2 r e He) as (e' & He' & Hkeys' & Hbody').
    exists e'. pose proof (same_keys_trans _ _ _ Hkeys Hkeys') as (Ht & _ & Hs & _ & Hd).
    split; [eapply elem_of_deref; [by apply Hmono2|done]|].
    rewrite <- Ht, <- Hs, <- Hd. auto.
  - apply parse_memory_file_body.
  - apply parse_daily_files_body.
  - exists (lit "## Lesson" ++ nl ++ lit "### T" ++ nl).
    exists {| title := lit "T"; source := lit "MEMORY.md";
              section := lit "Lesson"; file := lit "MEMORY.md";
              date := None; body := Some []; metadata := None |}.
    split; [|reflexivity]. vm_compute. apply list_elem_of_here.
Qed.

Lemma heading_followed_by_text_yields_entry_witness :
  exists e, e ∈ parse_memory_file
                  (Some (lit "## Lesson" ++ nl ++ lit "### T" ++ nl ++ lit "x"))
            /\ title e = lit "T" /\ section e = lit "Lesson"
            /\ is_Some (body e).
Proof.
  apply (proj1 heading_followed_by_text_yields_entry
           (lit "## Lesson" ++ nl ++ lit "### T" ++ nl ++ lit "x")
           1 (lit "### T") (lit "x") (lit "Lesson"));
    reflexivity.
Defined.

(** C6, as stated, fails: in ["## Lesson\n### T"] the heading [### T]
    stands in a recognised section and ends the input; the parser
    returns no entry. *)
Lemma heading_at_end_yields_no_entry :
  ~ (forall (content : str) (i : nat) (h sec : str),
        split content nl_char !! i = Some h ->
        startswith h (lit "### ") = true ->
        section_before memory_mode (split content nl_char) i = Some sec ->
        exists e, e ∈ parse_memory_file (Some content)
                  /\ title e = strip (slice_from h 4)).
Proof.
  intros H.
  destruct (H (lit "## Lesson" ++ nl ++ lit "### T") 1 (lit "### T")
              (lit "Lesson") eq_refl eq_refl eq_refl) as (e & He & _).
  vm_compute in He. by apply elem_of_nil in He.
Qed.

(** C7 fails on the code. A level-2 heading flushes the open entry but
    leaves [current_entry] set: the lines that follow, also those of an
    unrecognised section and its level-3 headings, are buffered, and the
    next flush overwrites the body of the same dictionary and appends it
    to [entries] again. *)
Theorem closed_entry_is_overwritten_and_repeated :
  parse_memory_file
    (Some (lit "## Lesson" ++ nl ++ lit "### T" ++ nl ++ lit "body1" ++ nl
           ++ lit "## Other" ++ nl ++ lit "### U" ++ nl ++ lit "junk"))
  = let e := {| title := lit "T"; source := lit "MEMORY.md";
                section := lit "Lesson"; file := lit "MEMORY.md";
                date := None;
                body := Some (lit "### U" ++ nl ++ lit "junk");
                metadata := None |} in
    [e; e].
Proof. by vm_compute. Qed.

(** ** Deduplication *)

Section DedupProperties.

Variable md5_16 : str -> str.





End DedupProperties.

(** ** EntryClassifier *)

Lemma first_label_no_match (taxonomy : Taxonomy) (text default : str) :
  no_match taxonomy text = true -> first_label taxonomy text default = default.
Proof.
  induction taxonomy as [|[label keywords] rest IH]; simpl; [done|].
  intros [Hhd Htl]%andb_true_iff.
  apply negb_true_iff in Hhd. rewrite Hhd. by apply IH.
Qed.

(** C8, as amended. An entry without a keyword match in any taxonomy is
    classified Insight, General, Verified, Medium. Its confidence score
    is 7, plus one for the source MEMORY.md, plus one for a body longer
    than 500 characters, plus one for an evidence word in the body: 7,
    or 8 for MEMORY.md, when the body has at most 500 characters and no
    evidence word. *)
Theorem classify_defaults (e : Entry) :
  no_taxonomy_match (title e) (default [] (body e)) = true ->
  exists m,
    metadata (classify e) = Some m
    /\ content_type m = lit "Insight" /\ domain m = lit "General"
    /\ certainty m = lit "Verified" /\ impact m = lit "Medium"
    /\ confidence_score m
       = (7 + (if bool_decide (source e = lit "MEMORY.md") then 1 else 0)
            + (if Nat.ltb 500 (length (default [] (body e))) then 1 else 0)
            + (if any_in EVIDENCE_WORDS (lower (default [] (body e)))
               then 1 else 0))%Z
    /\ (length (default [] (body e)) <= 500 ->
        any_in EVIDENCE_WORDS (lower (default [] (body e))) = false ->
        confidence_score m
        = if bool_decide (source e = lit "MEMORY.md") then 8%Z else 7%Z).
Proof.
  unfold no_taxonomy_match. cbv zeta.
  intros [[[Ht Hd]%andb_true_iff Hc]%andb_true_iff Hi]%andb_true_iff.
  eexists. split; [reflexivity|].
  cbn [content_type domain certainty impact confidence_score].
  unfold classify_type, classify_domain, classify_certainty, classify_impact.
  rewrite !first_label_no_match by done.
  do 4 (split; [done|]).
  assert (Hscore : _estimate_confidence (title e) (default [] (body e))
                     (Some (source e))
       = (7 + (if bool_decide (source e = lit "MEMORY.md") then 1 else 0)
            + (if Nat.ltb 500 (length (default [] (body e))) then 1 else 0)
            + (if any_in EVIDENCE_WORDS (lower (default [] (body e)))
               then 1 else 0))%Z).
  { unfold _estimate_confidence.
    destruct (decide (source e = lit "MEMORY.md")) as [Hs|Hs].
    - rewrite (bool_decide_eq_true_2 (Some (source e) = Some (lit "MEMORY.md")))
        by congruence.
      rewrite (bool_decide_eq_true_2 (source e = lit "MEMORY.md")) by done.
      destruct (Nat.ltb 500 _), (any_in EVIDENCE_WORDS _); lia.
    - rewrite (bool_decide_eq_false_2 (Some (source e) = Some (lit "MEMORY.md")))
        by congruence.
      rewrite (bool_decide_eq_false_2 (source e = lit "MEMORY.md")) by done.
      destruct (Nat.ltb 500 _), (any_in EVIDENCE_WORDS _); lia. }
  split; [exact Hscore|].
  intros Hlen Hev. rewrite Hscore, Hev.
  destruct (Nat.ltb_spec 500 (length (default [] (body e)))); [lia|].
  by destruct (bool_decide (source e = lit "MEMORY.md")).
Qed.

Lemma classify_defaults_witness :
  exists m,
    metadata (classify {| title := lit "Zq"; source := lit "daily";
                          section := lit "Notes"; file := lit "2026-01-01.md";
                          date := Some (lit "2026-01-01");
                          body := Some (lit "xyz"); metadata := None |}) = Some m
    /\ content_type m = lit "Insight" /\ domain m = lit "General"
    /\ certainty m = lit "Verified" /\ impact m = lit "Medium"
    /\ confidence_score m = 7%Z.
Proof.
  destruct (classify_defaults
              {| title := lit "Zq"; source := lit "daily";
                 section := lit "Notes"; file := lit "2026-01-01.md";
                 date := Some (lit "2026-01-01");
                 body := Some (lit "xyz"); metadata := None |} eq_refl)
    as (m & Hm & Ht & Hd & Hc & Hi & Hs & _).
  exists m. repeat split; try done.
Defined.

(** C8, as stated, fails: an entry from a daily file whose body is 501
    times the letter x matches no keyword, and its score is 8. *)
Lemma long_body_raises_confidence :
  ~ (forall e : Entry,
        no_taxonomy_match (title e) (default [] (body e)) = true ->
        exists m, metadata (classify e) = Some m
                  /\ confidence_score m
                     = if bool_decide (source e = lit "MEMORY.md")
                       then 8%Z else 7%Z).
Proof.
  intros H.
  destruct (H {| title := lit "Zq"; source := lit "daily";
                 section := lit "Notes"; file := lit "2026-01-01.md";
                 date := Some (lit "2026-01-01");
                 body := Some (replicate 501 "x"%char); metadata := None |})
    as (m & Hm & Hs).
  - by vm_compute.
  - vm_compute in Hm. injection Hm as <-. by vm_compute in Hs.
Qed.

(** ** Truncation *)

Lemma startswith_take (s p : str) :
  startswith s p = true -> length p <= length s /\ take (length p) s = p.
Proof.
  revert s. induction p as [|a p IH]; intros s; simpl.
  - intros _. split; [lia|done].
  - destruct s as [|b s]; [done|]. case_decide; [|done]. subst.
    intros [Hlen Htake]%IH. simpl. split; [lia|by rewrite Htake].
Qed.

Lemma rfind_scan_bound (s sub : str) (i : nat) (last : option nat) (j : nat) :
  rfind_scan s sub i last = Some j ->
  last = Some j
  \/ (i <= j /\ j + length sub <= i + length s
      /\ take (length sub) (drop (j - i) s) = sub).
Proof.
  revert i last. induction s as [|c s IH]; intros i last; simpl.
  - destruct sub as [|a sub]; simpl; [|by left].
    intros [= <-]. right. rewrite Nat.sub_diag. simpl. repeat split; lia.
  - intros [Hl|(Hi & Hlen & Htake)]%IH.
    + destruct (startswith (c :: s) sub) eqn:Hsw; [|by left].
      injection Hl as <-. right. rewrite Nat.sub_diag.
      apply startswith_take in Hsw as [Hlen Htake]. simpl in *.
      repeat split; [lia|lia|done].
    + right. replace (j - i) with (S (j - S i)) by lia. simpl.
      repeat split; [lia|lia|done].
Qed.

Lemma rfind_found (text sep : str) (stop j : nat) :
  rfind text sep stop = Z.of_nat j ->
  j + length sep <= stop /\ take (length sep) (drop j text) = sep.
Proof.
  unfold rfind. destruct (rfind_scan (take stop text) sep 0 None) as [j'|] eqn:Hscan;
    [|lia].
  intros Hj. assert (j' = j) as -> by lia.
  apply rfind_scan_bound in Hscan as [?|(_ & Hlen & Htake)]; [done|].
  rewrite Nat.sub_0_r in Htake. rewrite length_take in Hlen.
  split; [lia|].
  rewrite <- Htake at 2. rewrite take_drop_commute, take_drop_commute.
  rewrite take_take. f_equal. f_equal. lia.
Qed.

Lemma truncate_at_spec (seps : list str) (text : str) (max_len : nat) (cut : str) :
  truncate_at seps text max_len = Some cut ->
  exists sep j,
    sep ∈ seps /\ max_len < 2 * j /\ j + length sep <= max_len
    /\ take (length sep) (drop j text) = sep
    /\ cut = strip (take (j + 1) text).
Proof.
  induction seps as [|sep seps IH]; simpl; [done|].
  destruct (Z.ltb_spec (Z.of_nat max_len) (2 * rfind text sep max_len)) as [Hlt|Hge].
  - intros [= <-]. exists sep, (Z.to_nat (rfind text sep max_len)).
    destruct (rfind_found text sep max_len (Z.to_nat (rfind text sep max_len)))
      as [Hlen Htake]; [lia|].
    split; [by left|]. split; [lia|]. split; [done|]. split; [done|].
    unfold slice_to. destruct (Z.leb_spec 0 (rfind text sep max_len + 1)); [|lia].
    do 2 f_equal. lia.
  - intros (sep' & j & Hin & H) %IH. exists sep', j. split; [by right|done].
Qed.

Lemma truncate_text_bound (text : str) (max_len : nat) :
  3 <= max_len -> length (_truncate_text text max_len) <= max_len.
Proof.
  intros Hmax. unfold _truncate_text.
  destruct (Nat.leb_spec (length text) max_len) as [Hle|Hgt]; [done|].
  destruct (truncate_at SENTENCE_SEPARATORS text max_len) as [cut|] eqn:Hcut.
  - apply truncate_at_spec in Hcut as (sep & j & Hin & Hj & Hlen & _ & ->).
    assert (1 <= length sep).
    { unfold SENTENCE_SEPARATORS in Hin.
      repeat (apply elem_of_cons in Hin as [->|Hin]); simpl; try lia.
      by apply elem_of_nil in Hin. }
    etrans; [apply length_strip|]. rewrite length_take. lia.
  - rewrite length_app. change (length (lit "...")) with 3.
    pose proof (length_strip (slice_to text (Z.of_nat max_len - 3))).
    pose proof (length_slice_to text (Z.of_nat max_len - 3)). lia.
Qed.

Lemma create_heading_ok (level : nat) (text : str) :
  text_ok (_create_heading level text).
Proof. unfold text_ok. simpl. by apply (length_slice_to text 2000). Qed.

Lemma create_paragraph_ok (text : str) : text_ok (_create_paragraph text).
Proof. unfold text_ok. simpl. by apply (length_slice_to text 2000). Qed.

Lemma create_list_item_ok (text : str) : text_ok (_create_list_item text).
Proof. unfold text_ok. simpl. by apply (length_slice_to text 2000). Qed.

Lemma create_quote_ok (text : str) : text_ok (_create_quote text).
Proof. unfold text_ok. simpl. by apply (length_slice_to text 2000). Qed.

Lemma create_code_ok (code : str) (language : option str) :
  text_ok (_create_code code language).
Proof. unfold text_ok. simpl. by apply (length_slice_to code 2000). Qed.

Lemma create_divider_ok : text_ok _create_divider.
Proof. unfold text_ok. simpl. lia. Qed.

Lemma parse_list_from_ok (rest : list str) (lt : ListType) :
  Forall text_ok (parse_list_from rest lt).
Proof.
  induction rest as [|raw rest IH]; simpl; [constructor|].
  destruct (negb _); [done|].
  destruct (list_prefix lt (rstrip raw)); constructor; [|done].
  apply create_list_item_ok.
Qed.

Create HintDb blocks.

#[local] Hint Resolve create_heading_ok create_paragraph_ok create_list_item_ok
  create_quote_ok create_code_ok create_divider_ok parse_list_from_ok : blocks.

Lemma convert_step_ok (lines : list str) (st st' : nat * list Block) :
  convert_step lines st = Some st' ->
  Forall text_ok st.2 -> Forall text_ok st'.2.
Proof.
  destruct st as [i blocks]. unfold convert_step, _parse_list.
  destruct (lines !! i) as [raw|]; [|done]. cbv zeta.
  intros [= <-] Hok.
  repeat match goal with
         | |- context [if ?c then _ else _] => destruct c
         | |- context [let '(_, _) := ?p in _] => destruct p
         end; simpl; try done;
    apply Forall_app_2; try done; try apply Forall_singleton;
    auto with blocks.
Qed.

Lemma convert_loop_ok (fuel : nat) (lines : list str) (st : nat * list Block)
  (blocks : list Block) :
  convert_loop fuel lines st = Some blocks ->
  Forall text_ok st.2 -> Forall text_ok blocks.
Proof.
  revert st. induction fuel as [|fuel IH]; intros st; simpl;
    destruct (convert_step lines st) as [st'|] eqn:Hstep; try done.
  - by intros [= <-].
  - intros Hloop Hok. eapply IH; [exact Hloop|]. by eapply convert_step_ok.
  - by intros [= <-].
Qed.

Lemma truncate_at_first (pre post : list str) (sep text : str)
  (max_len : nat) :
  Forall (fun s => (2 * rfind text s max_len <= Z.of_nat max_len)%Z) pre ->
  (Z.of_nat max_len < 2 * rfind text sep max_len)%Z ->
  truncate_at (pre ++ sep :: post) text max_len
  = Some (strip (take (Z.to_nat (rfind text sep max_len) + 1) text)).
Proof.
  intros Hpre Hsep. induction Hpre as [|s pre Hs _ IH]; cbn [app truncate_at].
  - rewrite (proj2 (Z.ltb_lt _ _) Hsep). unfold slice_to.
    destruct (Z.leb_spec 0 (rfind text sep max_len + 1)); [|lia].
    do 3 f_equal. lia.
  - by rewrite (proj2 (Z.ltb_ge _ _) Hs).
Qed.

Lemma truncate_at_none (seps : list str) (text : str) (max_len : nat) :
  Forall (fun s => (2 * rfind text s max_len <= Z.of_nat max_len)%Z) seps ->
  truncate_at seps text max_len = None.
Proof.
  intros Hseps. induction Hseps as [|s seps Hs _ IH]; cbn [truncate_at]; [done|].
  by rewrite (proj2 (Z.ltb_ge _ _) Hs).
Qed.

(** C9. The sentence cut can keep far less than half of the limit
    although the text has a sentence boundary: the test
    [idx > max_len * 0.5] is made on the index of the separator, and the
    prefix is stripped afterwards. A body made of [a], 1500 newlines and
    1000 times [x], as [parse_memory_file] returns it for such an entry
    of MEMORY.md, has 2501 characters and blank lines; the last
    blank-line separator inside the first 2000 characters starts at
    index 1499, beyond half of the limit, and the Body property of the
    entry is ["a"], one character. *)
Theorem sentence_cut_keeps_less_than_half :
  let text := lit "a" ++ replicate 1500 nl_char ++ replicate 1000 "x"%char in
  let e := {| title := lit "T"; source := lit "MEMORY.md";
              section := lit "Lesson"; file := lit "MEMORY.md";
              date := None; body := Some text; metadata := None |} in
  parse_memory_file
    (Some (lit "## Lesson" ++ nl ++ lit "### T" ++ nl ++ text)) = [e]
  /\ length text = 2501
  /\ contains text (nl ++ nl) = true
  /\ rfind text (nl ++ nl) MAX_BODY_LENGTH = 1499%Z
  /\ _truncate_text text MAX_BODY_LENGTH = lit "a"
  /\ Body (entry_properties e) = Some (lit "a").
Proof. by vm_compute. Qed.

(** ** SyncOrchestrator *)

Lemma startswith_refl (s : str) : startswith s s = true.
Proof. induction s as [|c s IH]; simpl; [done|]. by case_decide. Qed.

Lemma contains_refl (s : str) : contains s s = true.
Proof. destruct s; simpl; [done|]. case_decide; [|done]. by rewrite startswith_refl. Qed.

Lemma query_has_page (d : list Page) (f : str) :
  has_page d f -> is_Some (query_by_source_file d f).
Proof.
  intros (i & p & Hi & Hf). unfold query_by_source_file.
  destruct (list_find_elem_of
              (fun p => Is_true (contains (Source_File (page_properties p)) f)) d p)
    as [[j q] Hj].
  - by eapply list_elem_of_lookup_2.
  - rewrite Hf, contains_refl. done.
  - rewrite Hj. by eexists.
Qed.

Lemma query_Some (d : list Page) (f : str) (i : nat) :
  query_by_source_file d f = Some i ->
  exists p, d !! i = Some p
            /\ contains (Source_File (page_properties p)) f = true.
Proof.
  unfold query_by_source_file.
  destruct (list_find _ d) as [[j q]|] eqn:Hfind; [|done].
  intros [= <-]. apply list_find_Some in Hfind as (Hj & Hq & _).
  exists q. split; [done|]. by apply Is_true_eq_true.
Qed.

Lemma has_pages_insert (fs : list str) (d : list Page) (i : nat) (p p' : Page)
  (f : str) :
  (forall f', f' ∈ fs -> contains f' f = true -> f = f') ->
  has_pages fs d ->
  d !! i = Some p ->
  contains (Source_File (page_properties p)) f = true ->
  Source_File (page_properties p') = f ->
  has_pages fs (<[i := p']> d) /\ has_page (<[i := p']> d) f.
Proof.
  intros Hsep Hfs Hi Hc Hf'.
  assert (Hlt : i < length d) by (by eapply lookup_lt_Some).
  split.
  - intros f0 Hf0. destruct (Hfs f0 Hf0) as (k & q & Hk & Hq).
    destruct (decide (k = i)) as [->|Hne].
    + assert (q = p) as -> by congruence.
      exists i, p'. split; [by apply list_lookup_insert_eq|].
      rewrite Hf'. apply Hsep; [done|]. by rewrite <- Hq.
    + exists k, q. split; [|done]. by rewrite list_lookup_insert_ne.
  - exists i, p'. split; [by apply list_lookup_insert_eq|done].
Qed.

Lemma has_pages_snoc (fs : list str) (d : list Page) (q : Page) :
  has_pages fs d ->
  has_pages fs (d ++ [q])
  /\ has_page (d ++ [q]) (Source_File (page_properties q)).
Proof.
  intros Hfs. split.
  - intros f Hf. destruct (Hfs f Hf) as (k & p & Hk & Hp).
    exists k, p. split; [by apply lookup_app_l_Some|done].
  - exists (length d), q. split; [|done]. by rewrite lookup_app_r, Nat.sub_diag.
Qed.

Lemma process_entry_spec (children_of : str -> list Block) (e : Entry) (w : World) :
  exists page_id w' a,
    process_entry_with children_of e false w = (Some page_id, w')
    /\ log w' = log w ++ [(a, title e)]
    /\ ((exists i p p',
            query_by_source_file (db w) (file e) = Some i
            /\ db w !! i = Some p
            /\ contains (Source_File (page_properties p)) (file e) = true
            /\ Source_File (page_properties p') = file e
            /\ db w' = <[i := p']> (db w) /\ a = UPDATED)
        \/ (exists q,
               query_by_source_file (db w) (file e) = None
               /\ Source_File (page_properties q) = file e
               /\ db w' = db w ++ [q] /\ a = CREATED)).
Proof.
  unfold process_entry_with.
  destruct (metadata (classify e)) as [meta|] eqn:Hm;
    [|unfold classify, set_metadata in Hm; cbn [metadata] in Hm; done].
  change (file (classify e)) with (file e).
  change (title (classify e)) with (title e).
  cbv zeta.
  destruct (query_by_source_file (db w) (file e)) as [i|] eqn:Hq.
  - destruct (query_Some _ _ _ Hq) as (p & Hi & Hc).
    unfold update_page. rewrite Hi.
    eexists _, _, _. split; [reflexivity|]. split; [reflexivity|].
    left. eexists _, _, _. split; [reflexivity|]. split; [exact Hi|].
    split; [exact Hc|]. split; [|split; reflexivity]. reflexivity.
  - unfold create_page.
    eexists _, _, _. split; [reflexivity|]. split; [reflexivity|].
    right. eexists. split; [reflexivity|]. split; [|split; reflexivity].
    reflexivity.
Qed.

Lemma sync_entry_spec (children_of : str -> list Block) (fs : list str)
  (stats : Stats) (w : World) (e : Entry) :
  (forall f', f' ∈ fs -> contains f' (file e) = true -> file e = f') ->
  has_pages fs (db w) ->
  exists stats' w' a,
    sync_entry_with children_of false (stats, w) e = (stats', w')
    /\ log w' = log w ++ [(a, title e)]
    /\ has_pages fs (db w') /\ has_page (db w') (file e)
    /\ (has_page (db w) (file e) ->
        a = UPDATED /\ length (db w') = length (db w)
        /\ stats' = {| created := created stats; updated := S (updated stats);
                       failed := failed stats |}).
Proof.
  intros Hsep Hfs. unfold sync_entry_with.
  destruct (process_entry_spec children_of e w)
    as (page_id & w' & a & -> & Hlog & Hcases).
  assert (Hdb : has_pages fs (db w') /\ has_page (db w') (file e)).
  { destruct Hcases as [(i & p & p' & _ & Hi & Hc & Hf & -> & _)
                       |(q & _ & Hf & -> & _)].
    - by eapply has_pages_insert.
    - rewrite <- Hf. by apply has_pages_snoc. }
  destruct Hdb as [Hfs' Hpage'].
  rewrite (bool_decide_eq_true_2 _ (query_has_page _ _ Hpage')). simpl.
  eexists _, w', a. split; [reflexivity|]. do 3 (split; [done|]).
  intros Hpage. apply query_has_page in Hpage as [i0 Hq0].
  destruct Hcases as [(i & p & p' & _ & Hi & Hc & Hf & Hdb & ->)
                     |(q & Hq & _)]; [|congruence].
  split; [done|]. split; [|done]. by rewrite Hdb, length_insert.
Qed.


Lemma count_action_le (a : Action) (l : list (Action * str)) :
  count_action a l <= length l.
Proof. unfold count_action. apply length_filter. Qed.

Lemma dispatch_first_run (children_of : str -> list Block) (fs : list str)
  (es : list Entry) (stats : Stats) (w : World) :
  files_separate fs ->
  (forall e, e ∈ es -> file e ∈ fs) ->
  forall done_fs,
    done_fs ⊆ fs ->
    has_pages done_fs (db w) ->
    exists stats' w' l,
      foldl (sync_entry_with children_of false) (stats, w) es = (stats', w')
      /\ log w' = log w ++ l /\ length l = length es
      /\ has_pages (done_fs ++ (file <$> es)) (db w').
Proof.
  intros Hsep. revert stats w.
  induction es as [|e es IH]; intros stats w Hes done_fs Hsub Hdone.
  - exists stats, w, []. simpl. rewrite !app_nil_r. by repeat split.
  - cbn [foldl].
    destruct (sync_entry_spec children_of done_fs stats w e)
      as (stats1 & w1 & a & -> & Hlog1 & Hfs1 & Hpage1 & _); [|done|].
    { intros f' Hf' Hc. apply Hsep; [|by apply Hsub|done].
      apply Hes. by left. }
    destruct (IH stats1 w1 (fun e' He' => Hes e' (list_elem_of_further _ _ _ He'))
                (done_fs ++ [file e])) as (stats' & w' & l & -> & Hlog & Hlen & Hfs').
    + intros f [Hf|Hf%list_elem_of_singleton]%elem_of_app; [by apply Hsub|].
      subst. apply Hes. by left.
    + intros f [Hf|Hf%list_elem_of_singleton]%elem_of_app; [by apply Hfs1|].
      by subst.
    + exists stats', w', ((a, title e) :: l).
      split; [done|]. split; [by rewrite Hlog, Hlog1, <- app_assoc|].
      split; [simpl; lia|]. rewrite fmap_cons.
      by rewrite <- app_assoc in Hfs'.
Qed.

Lemma dispatch_second_run (children_of : str -> list Block) (fs : list str)
  (es : list Entry) (stats : Stats) (w : World) :
  files_separate fs ->
  (forall e, e ∈ es -> file e ∈ fs) ->
  has_pages fs (db w) ->
  exists w',
    foldl (sync_entry_with children_of false) (stats, w) es
    = ({| created := created stats; updated := updated stats + length es;
          failed := failed stats |}, w')
    /\ log w' = log w ++ ((fun e => (UPDATED, title e)) <$> es)
    /\ length (db w') = length (db w).
Proof.
  intros Hsep. revert stats w.
  induction es as [|e es IH]; intros stats w Hes Hfs.
  - exists w. simpl. rewrite Nat.add_0_r, app_nil_r. by destruct stats.
  - cbn [foldl].
    destruct (sync_entry_spec children_of fs stats w e)
      as (stats1 & w1 & a & -> & Hlog1 & Hfs1 & _ & Hupd); [|done|].
    { intros f' Hf' Hc. apply Hsep; [|done|done]. apply Hes. by left. }
    destruct Hupd as (-> & Hlen1 & ->); [apply Hfs, Hes; by left|].
    destruct (IH {| created := created stats; updated := S (updated stats);
                    failed := failed stats |} w1
                (fun e' He' => Hes e' (list_elem_of_further _ _ _ He')) Hfs1)
      as (w' & -> & Hlog & Hlen).
    exists w'. cbn [created updated failed length]. split; [do 2 f_equal; lia|].
    split; [by rewrite Hlog, Hlog1, fmap_cons, <- app_assoc|congruence].
Qed.

Lemma files_separate_b_sound (fs : list str) :
  files_separate_b fs = true -> files_separate fs.
Proof.
  unfold files_separate_b, files_separate. rewrite forallb_forall.
  intros H f f' Hf Hf' Hc.
  apply list_elem_of_In in Hf, Hf'. specialize (H f Hf).
  rewrite forallb_forall in H. specialize (H f' Hf').
  rewrite Hc in H. simpl in H. by apply bool_decide_eq_true in H.
Qed.

Lemma files_separate_subseteq (fs gs : list str) :
  gs ⊆ fs -> files_separate fs -> files_separate gs.
Proof. intros Hsub Hsep f f' Hf Hf'. apply Hsep; by apply Hsub. Qed.

Lemma apply_limit_subseteq (limit : option Z) (es : list Entry) :
  apply_limit limit es ⊆ es.
Proof.
  unfold apply_limit, slice_to. destruct limit as [k|]; [|done].
  destruct (k =? 0)%Z; [done|].
  destruct (0 <=? k)%Z; apply sublist_subseteq, sublist_take.
Qed.

Lemma count_action_updates (a : Action) (es : list Entry) :
  count_action a ((fun e => (UPDATED, title e)) <$> es)
  = if decide (a = UPDATED) then length es else 0.
Proof.
  unfold count_action. destruct (decide (a = UPDATED)) as [->|Hne].
  - induction es as [|e es IH]; [done|].
    rewrite fmap_cons, filter_cons_True by done. simpl. by rewrite IH.
  - induction es as [|e es IH]; [done|].
    rewrite fmap_cons, filter_cons_False; [done|]. simpl. congruence.
Qed.

(** *** From the run with [convert] given to [process_entry] and [sync] *)

Lemma process_entry_converted (fuel : nat) (e : Entry) (dry_run : bool)
  (w : World) :
  process_entry fuel e dry_run w
  = if converted fuel e
    then Some (process_entry_with (blocks_of fuel) e dry_run w)
    else None.
Proof.
  unfold process_entry, process_entry_with, converted, blocks_of.
  destruct (metadata (classify e)) as [meta|] eqn:Hm;
    [|unfold classify, set_metadata in Hm; cbn [metadata] in Hm; done].
  change (body (classify e)) with (body e). cbv zeta.
  destruct (truthy (default [] (body e))
            && Nat.ltb 50 (length (default [] (body e)))); [|done].
  cbn [negb orb].
  destruct (convert fuel (default [] (body e))) as [blocks|]; [|done].
  by rewrite bool_decide_eq_true_2 by (by eexists).
Qed.

Lemma sync_entry_converted (fuel : nat) (dry_run : bool) (acc : Stats * World)
  (e : Entry) :
  sync_entry fuel dry_run acc e
  = if converted fuel e
    then Some (sync_entry_with (blocks_of fuel) dry_run acc e)
    else None.
Proof.
  destruct acc as [stats w]. unfold sync_entry, sync_entry_with.
  rewrite process_entry_converted. destruct (converted fuel e); [|done].
  cbn [mbind option_bind].
  by destruct (process_entry_with (blocks_of fuel) e dry_run w) as [[i|] w'].
Qed.

Lemma dispatch_loop_converted (fuel : nat) (dry_run : bool) (es : list Entry)
  (acc : Stats * World) :
  dispatch_loop fuel dry_run acc es
  = if forallb (converted fuel) es
    then Some (foldl (sync_entry_with (blocks_of fuel) dry_run) acc es)
    else None.
Proof.
  revert acc. induction es as [|e es IH]; intros acc; [done|].
  cbn [dispatch_loop forallb foldl]. rewrite sync_entry_converted.
  destruct (converted fuel e); [|done]. cbn [mbind option_bind andb].
  apply IH.
Qed.

(** C10, as amended. When no file identifier occurs inside another, a
    second run on unchanged input sends no create: every extracted
    entry is found by the lookup on its file identifier and updated, so
    the second run logs one update per entry and leaves the number of
    pages unchanged. The lookup is by file, not by entry: entries of
    one file share a page, and the first run creates at most as many
    pages as the second run updates entries. *)
Theorem resync_updates_every_entry
  (md5_16 : str -> str) (fuel : nat)
  (memory_md : option str) (days : list (str * option str))
  (limit : option Z) (w0 : World) (entries : list Entry)
  (s1 : Stats) (w1 : World) :
  extract_all_entries md5_16 memory_md days = Some entries ->
  files_separate (file <$> entries) ->
  sync md5_16 fuel memory_md days false limit w0 = Some (s1, w1) ->
  exists s2 w2,
    sync md5_16 fuel memory_md days false limit w1 = Some (s2, w2)
    /\ count_action CREATED (log_since w1 w2) = 0
    /\ count_action UPDATED (log_since w1 w2)
       = length (apply_limit limit entries)
    /\ length (db w2) = length (db w1)
    /\ s2 = {| created := 0; updated := length (apply_limit limit entries);
               failed := 0 |}
    /\ count_action CREATED (log_since w0 w1)
       <= length (apply_limit limit entries).
Proof.
  intros Hex Hsep. unfold sync, dispatch. rewrite Hex. cbn [mbind option_bind].
  cbv zeta. set (es := apply_limit limit entries).
  rewrite !dispatch_loop_converted.
  destruct (forallb (converted fuel) es); [|done].
  assert (Hsep' : files_separate (file <$> es)).
  { eapply files_separate_subseteq; [|exact Hsep].
    intros f (e & -> & He)%list_elem_of_fmap.
    apply list_elem_of_fmap_2. by apply (apply_limit_subseteq limit entries). }
  assert (Hes : forall e, e ∈ es -> file e ∈ file <$> es).
  { intros e He. by apply list_elem_of_fmap_2. }
  destruct (dispatch_first_run (blocks_of fuel) (file <$> es) es
              {| created := 0; updated := 0; failed := 0 |} w0 Hsep' Hes [])
    as (s1' & w1' & l1 & Hrun1 & Hlog1 & Hlen1 & Hpages).
  { by intros f ?%elem_of_nil. }
  { by intros f ?%elem_of_nil. }
  rewrite Hrun1. intros [= <- <-].
  destruct (dispatch_second_run (blocks_of fuel) (file <$> es) es
              {| created := 0; updated := 0; failed := 0 |} w1' Hsep' Hes Hpages)
    as (w2 & Hrun2 & Hlog2 & Hlen2).
  eexists _, w2. split; [by rewrite Hrun2|].
  unfold log_since. rewrite Hlog2, Hlog1, !drop_app_length.
  rewrite !count_action_updates. simpl.
  repeat split; try done.
  rewrite <- Hlen1. apply count_action_le.
Qed.

Lemma resync_updates_every_entry_witness :
  exists s2 w2,
    sync id 8 (Some two_entries_md) [] false None
         (default (Build_Stats 0 0 0, empty_world)
            (sync id 8 (Some two_entries_md) [] false None empty_world)).2
    = Some (s2, w2)
    /\ s2 = {| created := 0; updated := 2; failed := 0 |}.
Proof.
  destruct (resync_updates_every_entry id 8
              (Some two_entries_md) [] None empty_world
              (default [] (extract_all_entries id (Some two_entries_md) []))
              (default (Build_Stats 0 0 0, empty_world)
                 (sync id 8 (Some two_entries_md) [] false None
                       empty_world)).1
              (default (Build_Stats 0 0 0, empty_world)
                 (sync id 8 (Some two_entries_md) [] false None
                       empty_world)).2)
    as (s2 & w2 & Hrun & _ & _ & _ & Hs & _).
  - by vm_compute.
  - apply files_separate_b_sound. by vm_compute.
  - by vm_compute.
  - exists s2, w2. split; [exact Hrun|exact Hs].
Defined.

(** C10, as stated, fails: on a MEMORY.md with two entries and an empty
    database the first run creates one page and updates it once; the
    second run sends two updates, not one. *)
Lemma entries_of_one_file_share_a_page :
  ~ (forall (fuel : nat) (memory_md : option str)
            (days : list (str * option str))
            (w0 w1 w2 : World) (s1 s2 : Stats),
        sync id fuel memory_md days false None w0 = Some (s1, w1) ->
        sync id fuel memory_md days false None w1 = Some (s2, w2) ->
        count_action CREATED (log_since w1 w2) = 0
        /\ count_action UPDATED (log_since w1 w2)
           = count_action CREATED (log_since w0 w1)).
Proof.
  intros H.
  destruct (sync id 8 (Some two_entries_md) [] false None empty_world)
    as [[s1 w1]|] eqn:H1; [|by vm_compute in H1].
  destruct (sync id 8 (Some two_entries_md) [] false None w1)
    as [[s2 w2]|] eqn:H2.
  - destruct (H _ _ _ _ _ _ _ _ H1 H2) as [_ Hn].
    vm_compute in H1. injection H1 as <- <-.
    vm_compute in H2. injection H2 as <- <-.
    by vm_compute in Hn.
  - vm_compute in H1. injection H1 as <- <-. by vm_compute in H2.
Qed.

(** * Further properties *)

(** ** MarkdownToNotion: the loop of [convert] *)

(** X1. A text none of whose lines starts with ['* '] (once stripped on
    the right) is converted: the loop of [convert] ends within one
    iteration per line. *)
Theorem convert_returns_without_star_lines (text : str) :
  Forall (fun raw => startswith (rstrip raw) (lit "* ") = false)
         (split text nl_char) ->
  exists blocks, convert (length (split text nl_char)) text = Some blocks.
Proof.
  intros Hstar. unfold convert.
  apply (convert_loop_terminates _ Hstar). lia.
Qed.

Lemma convert_returns_without_star_lines_witness :
  exists blocks,
    convert 3 (lit "# T" ++ nl ++ lit "1. x" ++ nl ++ lit "a|b|c|d")
    = Some blocks.
Proof.
  apply (convert_returns_without_star_lines
           (lit "# T" ++ nl ++ lit "1. x" ++ nl ++ lit "a|b|c|d")).
  repeat constructor.
Defined.

Lemma length_omap_le {A B} (f : A -> option B) (l : list A) :
  length (omap f l) <= length l.
Proof.
  induction l as [|x l IH]; [simpl; lia|].
  rewrite omap_cons_option_list, length_app. destruct (f x); simpl; lia.
Qed.

Lemma convert_step_count (lines : list str) (i i' : nat)
  (blocks blocks' : list Block) :
  convert_step lines (i, blocks) = Some (i', blocks') ->
  length blocks <= i ->
  i' <= length lines /\ length blocks' <= i'.
Proof.
  unfold convert_step, _parse_code_block.
  destruct (lines !! i) as [raw|] eqn:Hi; [|done].
  pose proof (lookup_lt_Some _ _ _ Hi) as Hlt.
  pose proof (f_equal length (take_drop_middle _ _ _ Hi)) as Hlen.
  rewrite length_app, length_take in Hlen. simpl in Hlen.
  pose proof (parse_code_from_bounds (drop (S i) lines) (S i)) as Hcode.
  pose proof (table_from_bounds (drop (S i) lines) (S i) (rstrip raw)) as Htab.
  assert (Hlist : forall lt,
             _skip_list lines i lt <= length lines
             /\ length (_parse_list lines i lt) + i <= _skip_list lines i lt).
  { intros lt. unfold _skip_list, _parse_list.
    destruct (skip_parse_from_run (drop i lines) i lt)
      as (run & rest & Hdrop & _ & _ & -> & ->).
    pose proof (length_omap_le (item_of lt) run).
    pose proof (f_equal length Hdrop) as Hl.
    rewrite length_drop, length_app in Hl. lia. }
  cbv zeta. intros Hstep Hb. injection Hstep as Hstep.
  repeat match type of Hstep with
         | (if ?c then _ else _) = _ => destruct c
         | (let '(_, _) := ?p in _) = _ => destruct p
         end;
    injection Hstep as <- <-; rewrite ?length_app; simpl in *;
    try lia;
    match goal with
    | |- context [_skip_list _ _ ?lt] => specialize (Hlist lt); lia
    end.
Qed.

(** X2. [convert] never returns more blocks than the text has lines. *)
Theorem convert_at_most_one_block_per_line
  (fuel : nat) (text : str) (blocks : list Block) :
  convert fuel text = Some blocks ->
  length blocks <= length (split text nl_char).
Proof.
  unfold convert.
  assert (Hgen : forall fuel st,
             convert_loop fuel (split text nl_char) st = Some blocks ->
             st.1 <= length (split text nl_char) -> length st.2 <= st.1 ->
             length blocks <= length (split text nl_char)).
  { clear fuel. intros fuel. induction fuel as [|fuel IH]; intros [i b];
      rewrite convert_loop_unfold;
      destruct (convert_step (split text nl_char) (i, b)) as [[i' b']|] eqn:Hs;
      simpl; try done.
    - intros [= <-] ? ?. lia.
    - intros Hloop Hi Hb. destruct (convert_step_count _ _ _ _ _ Hs Hb).
      by apply (IH (i', b')).
    - intros [= <-] ? ?. lia. }
  intros Hc. apply (Hgen fuel (0, [])); simpl; [done|lia|lia].
Qed.

Lemma convert_at_most_one_block_per_line_witness :
  length [Heading 2 (lit "H"); ListItem (lit "a"); ListItem (lit "b");
          Paragraph (lit "para")] <= 5.
Proof.
  apply (convert_at_most_one_block_per_line 4
           (lit "## H" ++ nl ++ lit "- a" ++ nl ++ lit "- b" ++ nl ++ nl
            ++ lit "para")).
  reflexivity.
Defined.

(** ** MarkdownToNotion: fenced code *)

Lemma parse_code_from_closed (body : list str) (close : str) (rest : list str)
  (i : nat) :
  Forall (fun l => strip l <> lit "```") body ->
  strip close = lit "```" ->
  parse_code_from (body ++ close :: rest) i
  = (rstrip <$> body, i + length body + 1).
Proof.
  intros Hbody Hclose. revert i.
  induction Hbody as [|l body Hl _ IH]; intros i; simpl.
  - rewrite bool_decide_eq_true_2 by done. f_equal. lia.
  - rewrite bool_decide_eq_false_2 by done. rewrite IH. f_equal. lia.
Qed.

Lemma parse_code_from_open (body : list str) (i : nat) :
  Forall (fun l => strip l <> lit "```") body ->
  parse_code_from body i = (rstrip <$> body, i + length body).
Proof.
  intros Hbody. revert i.
  induction Hbody as [|l body Hl _ IH]; intros i; simpl.
  - f_equal. lia.
  - rewrite bool_decide_eq_false_2 by done. rewrite IH. f_equal. lia.
Qed.

(** X3. [_parse_code_block] reads up to the first line that is a bare
    fence: it returns the lines before it, stripped on the right, and
    the index after the fence. Without such a line it returns all the
    remaining lines and the index of the end. *)
Theorem parse_code_block_reads_to_fence (lines : list str) (start : nat) :
  (forall body close rest,
      drop (S start) lines = body ++ close :: rest ->
      Forall (fun l => strip l <> lit "```") body ->
      strip close = lit "```" ->
      _parse_code_block lines start
      = (rstrip <$> body, S start + length body + 1))
  /\ (Forall (fun l => strip l <> lit "```") (drop (S start) lines) ->
      _parse_code_block lines start
      = (rstrip <$> drop (S start) lines,
         S start + length (drop (S start) lines))).
Proof.
  unfold _parse_code_block. split.
  - intros body close rest -> Hbody Hclose. by apply parse_code_from_closed.
  - apply parse_code_from_open.
Qed.

Lemma parse_code_block_reads_to_fence_witness :
  _parse_code_block [lit "```py"; lit "x = 1  "; lit "```"; lit "after"] 0
  = ([lit "x = 1"], 3).
Proof.
  apply (proj1 (parse_code_block_reads_to_fence
                  [lit "```py"; lit "x = 1  "; lit "```"; lit "after"] 0)
           [lit "x = 1  "] (lit "```") [lit "after"]).
  - reflexivity.
  - repeat constructor. by vm_compute.
  - reflexivity.
Defined.

Lemma fence_line_shape (line : str) :
  startswith line (lit "```") = true ->
  exists l, line = "`"%char :: "`"%char :: "`"%char :: l.
Proof.
  destruct line as [|a [|b [|c l]]]; simpl; repeat case_decide; subst; try done.
  by exists l.
Qed.

(** X4. A text that is one fenced block - an opening fence line, lines
    none of which is a bare fence, a closing fence - is converted to a
    single code block: the lines between the fences are not read as
    markdown. The language is what follows the opening fence, or
    "plain text". *)
Theorem convert_fenced_text
  (text open_line close_line : str) (body : list str) :
  split text nl_char = open_line :: body ++ [close_line] ->
  startswith (rstrip open_line) (lit "```") = true ->
  Forall (fun l => strip l <> lit "```") body ->
  strip close_line = lit "```" ->
  convert 1 text
  = Some [Code (slice_to (join nl (rstrip <$> body)) 2000)
               (match strip (slice_from open_line 3) with
                | [] => lit "plain text"
                | lang => lang
                end)].
Proof.
  intros Hsplit Hopen Hbody Hclose. unfold convert. rewrite Hsplit.
  set (lines := open_line :: body ++ [close_line]).
  destruct (fence_line_shape _ Hopen) as [l Hl].
  assert (Hstrip : exists l', strip (rstrip open_line) = "`"%char :: l').
  { rewrite Hl. by apply strip_cons_nonspace. }
  destruct Hstrip as [l' Hl'].
  assert (Hcode : _parse_code_block lines 0
                  = (rstrip <$> body, S (length body + 1))).
  { unfold _parse_code_block, lines.
    change (drop 1 (open_line :: body ++ [close_line]))
      with (body ++ [close_line]).
    by rewrite (parse_code_from_closed body close_line [] 1). }
  assert (Hlang : (if Nat.ltb 3 (length open_line)
                   then strip (slice_from open_line 3) else [])
                  = strip (slice_from open_line 3)).
  { destruct (Nat.ltb_spec 3 (length open_line)); [done|].
    unfold slice_from. by rewrite drop_ge by lia. }
  assert (Hstep : convert_step lines (0, [])
                  = Some (S (length body + 1),
                          [Code (slice_to (join nl (rstrip <$> body)) 2000)
                                (match strip (slice_from open_line 3) with
                                 | [] => lit "plain text"
                                 | lang => lang
                                 end)])).
  { unfold convert_step. change (lines !! 0) with (Some open_line).
    cbv beta iota zeta. rewrite Hl', Hcode, Hlang, Hl.
    change (negb (truthy ("`"%char :: l'))) with false.
    cbn [startswith]. repeat (case_decide; [done|]).
    assert (re_match_numbered ("`"%char :: "`"%char :: "`"%char :: l) = None)
      as -> by reflexivity.
    rewrite bool_decide_eq_false_2 by (by intros [? ?]).
    repeat (case_decide; [|done]).
    unfold _create_code.
    destruct (strip (slice_from open_line 3)); reflexivity. }
  cbn [convert_loop]. rewrite Hstep. cbn [convert_loop].
  unfold convert_step. rewrite lookup_ge_None_2; [done|].
  unfold lines. simpl. rewrite length_app. simpl. lia.
Qed.

Lemma convert_fenced_text_witness :
  convert 1 (lit "```py" ++ nl ++ lit "# not a heading" ++ nl ++ lit "```")
  = Some [Code (lit "# not a heading") (lit "py")].
Proof.
  apply (convert_fenced_text
           (lit "```py" ++ nl ++ lit "# not a heading" ++ nl ++ lit "```")
           (lit "```py") (lit "```") [lit "# not a heading"]).
  - reflexivity.
  - reflexivity.
  - repeat constructor. by vm_compute.
  - reflexivity.
Defined.

(** ** Strings: stripping twice *)

Lemma lstrip_idemp (s : str) : lstrip (lstrip s) = lstrip s.
Proof.
  induction s as [|c s IH]; simpl; [done|].
  destruct (isspace c) eqn:Hc; [done|]. simpl. by rewrite Hc.
Qed.

Lemma lstrip_nil_or_nonspace (s : str) :
  lstrip s = [] \/ exists c l, lstrip s = c :: l /\ isspace c = false.
Proof.
  induction s as [|c s IH]; simpl; [by left|].
  destruct (isspace c) eqn:Hc; [done|]. right. by exists c, s.
Qed.

Lemma rstrip_nil_or_nonspace (s : str) :
  rstrip s = [] \/ exists x c, rstrip s = x ++ [c] /\ isspace c = false.
Proof.
  unfold rstrip. destruct (lstrip_nil_or_nonspace (reverse s))
    as [->|(c & l & -> & Hc)]; [by left|].
  right. exists (reverse l), c. by rewrite reverse_cons.
Qed.

Lemma rstrip_snoc_nonspace (x : str) (c : ascii) :
  isspace c = false -> rstrip (x ++ [c]) = x ++ [c].
Proof.
  intros Hc. unfold rstrip. rewrite reverse_app. simpl. rewrite Hc.
  by rewrite reverse_cons, reverse_involutive.
Qed.

Lemma strip_idemp (s : str) : strip (strip s) = strip s.
Proof.
  unfold strip at 2 3. destruct (rstrip_nil_or_nonspace s)
    as [->|(x & c & -> & Hc)]; [done|].
  destruct (lstrip_snoc_nonspace x c Hc) as [y Hy].
  unfold strip. rewrite Hy, rstrip_snoc_nonspace by done.
  by rewrite <- Hy, lstrip_idemp.
Qed.

(** ** MemoryParser: where the entries come from *)

Lemma same_keys_sym (e e' : Entry) : same_keys e e' -> same_keys e' e.
Proof. intros (?&?&?&?&?). by repeat split. Qed.

Lemma flush_heap_back (st : ParseState) (r : nat) (e' : Entry) :
  heap (flush st) !! r = Some e' ->
  exists e, heap st !! r = Some e /\ same_keys e e'.
Proof.
  rewrite flush_heap.
  destruct (current_entry st) as [r0|]; [|by exists e'; split; [|apply same_keys_refl]].
  destruct (entry_buffer st) as [|b0 buf]; [by exists e'; split; [|apply same_keys_refl]|].
  rewrite list_lookup_alter. case_decide; [subst|].
  - destruct (heap st !! r) as [e|]; [|done]. intros [= <-].
    exists e. split; [done|]. by repeat split.
  - intros He. exists e'. split; [done|]. apply same_keys_refl.
Qed.

Lemma parse_line_heap_back (mode : ParseMode) (st : ParseState) (line : str)
  (r : nat) (e' : Entry) :
  heap (parse_line mode st line) !! r = Some e' ->
  (exists e, heap st !! r = Some e /\ same_keys e e')
  \/ (startswith line (lit "### ") = true
      /\ exists sec, current_section st = Some sec
         /\ e' = new_entry mode (strip (slice_from line 4)) sec).
Proof.
  destruct (parse_line_cases mode st line)
    as [[H2 ->]|[(H2&H3&sec&Hs&->)|[(Hh&H2&r'&Hc&->)|(Hh&H2&Hc&->)]]]; simpl.
  - intros He. left. by apply flush_heap_back.
  - intros [He|[_ He]]%lookup_app_Some.
    + left. by apply flush_heap_back.
    + right. split; [done|]. exists sec. split; [done|].
      destruct (r - length (heap (flush st))); simpl in He; [congruence|done].
  - intros He. left. exists e'. split; [done|apply same_keys_refl].
  - intros He. left. exists e'. split; [done|apply same_keys_refl].
Qed.

Lemma created_at_heading_mono (mode : ParseMode) (lines : list str)
  (k k' : nat) (e : Entry) :
  k <= k' -> created_at_heading mode lines k e ->
  created_at_heading mode lines k' e.
Proof.
  intros Hk (i & h & sec & Hi & H). exists i, h, sec. split; [lia|done].
Qed.

Lemma created_at_heading_keys (mode : ParseMode) (lines : list str)
  (k : nat) (e e' : Entry) :
  same_keys e e' -> created_at_heading mode lines k e ->
  created_at_heading mode lines k e'.
Proof.
  intros Hk (i & h & sec & Hi & Hh & H3 & Hsec & Hkeys).
  exists i, h, sec. do 4 (split; [done|]). by eapply same_keys_trans.
Qed.

Lemma state_before_S (mode : ParseMode) (lines : list str) (k : nat)
  (acc : list nat * list Entry) (l : str) :
  lines !! k = Some l ->
  state_before mode lines (S k) acc
  = parse_line mode (state_before mode lines k acc) l.
Proof.
  intros Hl. unfold state_before.
  by rewrite (take_S_r _ _ _ Hl), foldl_app.
Qed.

Lemma state_before_all (mode : ParseMode) (lines : list str) (k : nat)
  (acc : list nat * list Entry) :
  length lines <= k ->
  state_before mode lines k acc
  = foldl (parse_line mode)
          {| current_section := None; current_entry := None;
             entry_buffer := []; entries := acc.1; heap := acc.2 |} lines.
Proof. intros Hk. unfold state_before. by rewrite take_ge. Qed.

Lemma state_before_origin (mode : ParseMode) (lines : list str)
  (acc : list nat * list Entry) (k : nat) (r : nat) (e : Entry) :
  heap (state_before mode lines k acc) !! r = Some e ->
  (exists e0, acc.2 !! r = Some e0 /\ same_keys e0 e)
  \/ created_at_heading mode lines k e.
Proof.
  revert r e. induction k as [|k IH]; intros r e.
  - unfold state_before. rewrite take_0. simpl. intros He. left.
    exists e. split; [done|apply same_keys_refl].
  - destruct (lines !! k) as [l|] eqn:Hl.
    + rewrite (state_before_S _ _ _ _ _ Hl).
      intros [(e1 & He1 & Hk1)|(H3 & sec & Hsec & ->)]%parse_line_heap_back.
      * destruct (IH r e1 He1) as [(e0 & He0 & Hk0)|Hc].
        -- left. exists e0. split; [done|]. by eapply same_keys_trans.
        -- right. eapply created_at_heading_keys; [exact Hk1|].
           eapply created_at_heading_mono; [|exact Hc]. lia.
      * right. exists k, l, sec. split; [lia|]. do 2 (split; [done|]).
        split; [|apply same_keys_refl].
        unfold section_before. rewrite <- Hsec. unfold state_before.
        by rewrite foldl_parse_line_section.
    + apply lookup_ge_None in Hl.
      rewrite state_before_all by lia. rewrite <- (state_before_all _ _ k) by lia.
      intros [?|Hc]%IH; [by left|right].
      eapply created_at_heading_mono; [|exact Hc]. lia.
Qed.

Lemma parse_document_origin (mode : ParseMode) (content : str)
  (acc : list nat * list Entry) (r : nat) (e : Entry) :
  (parse_document mode content acc).2 !! r = Some e ->
  (exists e0, acc.2 !! r = Some e0 /\ same_keys e0 e)
  \/ created_at_heading mode (split content nl_char)
       (length (split content nl_char)) e.
Proof.
  unfold parse_document. cbv zeta. simpl.
  rewrite <- (state_before_all mode _ (length (split content nl_char)) acc) by lia.
  intros (e1 & He1 & Hk1)%flush_heap_back.
  destruct (state_before_origin _ _ _ _ _ _ He1) as [(e0 & He0 & Hk0)|Hc].
  - left. exists e0. split; [done|]. by eapply same_keys_trans.
  - right. by eapply created_at_heading_keys.
Qed.

Lemma parse_memory_file_origin (content : str) (e : Entry) :
  e ∈ parse_memory_file (Some content) ->
  created_at_heading memory_mode (split content nl_char)
    (length (split content nl_char)) e.
Proof.
  simpl. intros (r & Hr & He)%list_elem_of_omap.
  apply parse_document_origin in He as [(e0 & He0 & _)|Hc]; [|done].
  simpl in He0. by rewrite lookup_nil in He0.
Qed.

(** X5. Every entry returned by [parse_memory_file] was opened by a
    level-3 heading line standing in a recognised section: it has that
    heading's title and that section, the source and file MEMORY.md and
    no date. Nothing else creates an entry. *)
Theorem parse_memory_file_entries_come_from_headings
  (content : str) (e : Entry) :
  e ∈ parse_memory_file (Some content) ->
  exists i h sec,
    split content nl_char !! i = Some h
    /\ startswith h (lit "### ") = true
    /\ section_before memory_mode (split content nl_char) i = Some sec
    /\ title e = strip (slice_from h 4) /\ section e = sec
    /\ source e = lit "MEMORY.md" /\ file e = lit "MEMORY.md"
    /\ date e = None.
Proof.
  intros (i & h & sec & _ & Hh & H3 & Hsec & Hk)%parse_memory_file_origin.
  exists i, h, sec. destruct Hk as (Ht & Hs & Hse & Hf & Hd).
  simpl in *. by repeat split.
Qed.

Lemma parse_memory_file_entries_come_from_headings_witness :
  exists i h sec,
    split two_entries_md nl_char !! i = Some h
    /\ startswith h (lit "### ") = true
    /\ section_before memory_mode (split two_entries_md nl_char) i = Some sec
    /\ lit "A" = strip (slice_from h 4) /\ lit "Lesson" = sec
    /\ lit "MEMORY.md" = lit "MEMORY.md" /\ lit "MEMORY.md" = lit "MEMORY.md"
    /\ @None str = None.
Proof.
  apply (parse_memory_file_entries_come_from_headings two_entries_md
           {| title := lit "A"; source := lit "MEMORY.md";
              section := lit "Lesson"; file := lit "MEMORY.md";
              date := None; body := Some (lit "x"); metadata := None |}).
  vm_compute. apply list_elem_of_here.
Defined.

Lemma daily_fold_origin (days : list (str * option str)) (k r : nat) (e : Entry) :
  (foldl daily_step ([], []) (take k days)).2 !! r = Some e ->
  exists j d content,
    j < k /\ days !! j = Some (d, Some content)
    /\ created_at_heading (daily_mode d) (split content nl_char)
         (length (split content nl_char)) e.
Proof.
  revert r e. induction k as [|k IH]; intros r e.
  - rewrite take_0. simpl. by rewrite lookup_nil.
  - destruct (days !! k) as [[d c]|] eqn:Hk.
    + rewrite (take_S_r _ _ _ Hk), foldl_app. simpl.
      unfold daily_step at 1. simpl. destruct c as [content|].
      * intros [(e0 & He0 & Hk0)|Hc]%parse_document_origin.
        -- destruct (IH r e0 He0) as (j & d' & c' & Hj & Hd & Hc).
           exists j, d', c'. split; [lia|]. split; [done|].
           by eapply created_at_heading_keys.
        -- exists k, d, content. split; [lia|done].
      * intros (j & d' & c' & Hj & H)%IH. exists j, d', c'. split; [lia|done].
    + apply lookup_ge_None in Hk.
      replace (take (S k) days) with (take k days)
        by (by rewrite !take_ge by lia).
      intros (j & d' & c' & Hj & H)%IH. exists j, d', c'. split; [lia|done].
Qed.

(** X6. Every entry returned by [parse_daily_files] was opened by a
    level-3 heading line standing in a recognised section of the file of
    one of the days: it has that heading's title and that section, the
    source 'daily', and that day's date and file name. *)
Theorem parse_daily_files_entries_come_from_headings
  (days : list (str * option str)) (e : Entry) :
  e ∈ parse_daily_files days ->
  exists j d content i h sec,
    days !! j = Some (d, Some content)
    /\ split content nl_char !! i = Some h
    /\ startswith h (lit "### ") = true
    /\ section_before (daily_mode d) (split content nl_char) i = Some sec
    /\ title e = strip (slice_from h 4) /\ section e = sec
    /\ source e = lit "daily" /\ file e = d ++ lit ".md"
    /\ date e = Some d.
Proof.
  unfold parse_daily_files. intros (r & Hr & He)%list_elem_of_omap.
  rewrite <- (take_ge days (length days)) in He by lia.
  apply daily_fold_origin in He
    as (j & d & content & _ & Hj & i & h & sec & _ & Hh & H3 & Hsec & Hk).
  exists j, d, content, i, h, sec.
  destruct Hk as (Ht & Hs & Hse & Hf & Hd). simpl in *. by repeat split.
Qed.

Lemma parse_daily_files_entries_come_from_headings_witness :
  exists j d content i h sec,
    [(lit "2026-01-02", None);
     (lit "2026-01-01",
      Some (lit "## Key Findings" ++ nl ++ lit "### F" ++ nl ++ lit "text"))]
      !! j = Some (d, Some content)
    /\ split content nl_char !! i = Some h
    /\ startswith h (lit "### ") = true
    /\ section_before (daily_mode d) (split content nl_char) i = Some sec
    /\ lit "F" = strip (slice_from h 4) /\ lit "Key Findings" = sec
    /\ lit "daily" = lit "daily" /\ lit "2026-01-01.md" = d ++ lit ".md"
    /\ Some (lit "2026-01-01") = Some d.
Proof.
  apply (parse_daily_files_entries_come_from_headings
           [(lit "2026-01-02", None);
            (lit "2026-01-01",
             Some (lit "## Key Findings" ++ nl ++ lit "### F" ++ nl
                   ++ lit "text"))]
           {| title := lit "F"; source := lit "daily";
              section := lit "Key Findings"; file := lit "2026-01-01.md";
              date := Some (lit "2026-01-01"); body := Some (lit "text");
              metadata := None |}).
  vm_compute. apply list_elem_of_here.
Defined.

Lemma section_before_unrecognised (mode : ParseMode) (lines : list str) (i : nat) :
  Forall (fun l => startswith l (lit "## ") = true ->
                   recognised mode (strip (slice_from l 3)) = false) lines ->
  section_before mode lines i = None.
Proof.
  intros Hall. unfold section_before.
  assert (Htake : Forall (fun l => startswith l (lit "## ") = true ->
                     recognised mode (strip (slice_from l 3)) = false)
                    (take i lines)) by (by apply Forall_take).
  clear Hall. induction Htake as [|l ls Hl _ IH]; [done|].
  simpl. unfold section_step at 2.
  destruct (startswith l (lit "## ")); [|done]. by rewrite Hl.
Qed.

(** X7. A document none of whose level-2 headings has a recognised
    title yields no entry, whatever level-3 headings it has; this holds
    for MEMORY.md and for the daily files. *)
Theorem unrecognised_sections_yield_no_entry :
  (forall content,
      Forall (fun l => startswith l (lit "## ") = true ->
                       recognised memory_mode (strip (slice_from l 3)) = false)
             (split content nl_char) ->
      parse_memory_file (Some content) = [])
  /\ (forall days,
        Forall (fun day =>
                  forall content, day.2 = Some content ->
                    Forall (fun l => startswith l (lit "## ") = true ->
                              recognised (daily_mode day.1)
                                         (strip (slice_from l 3)) = false)
                           (split content nl_char)) days ->
        parse_daily_files days = []).
Proof.
  split.
  - intros content Hall.
    destruct (parse_memory_file (Some content)) as [|e es] eqn:Hp; [done|].
    assert (He : e ∈ parse_memory_file (Some content))
      by (rewrite Hp; apply list_elem_of_here).
    apply parse_memory_file_origin in He as (i & h & sec & _ & _ & _ & Hsec & _).
    by rewrite section_before_unrecognised in Hsec.
  - intros days Hall.
    destruct (parse_daily_files days) as [|e es] eqn:Hp; [done|].
    assert (He : e ∈ parse_daily_files days)
      by (rewrite Hp; apply list_elem_of_here).
    unfold parse_daily_files in He.
    apply list_elem_of_omap in He as (r & Hr & He).
    rewrite <- (take_ge days (length days)) in He by lia.
    apply daily_fold_origin in He
      as (j & d & content & _ & Hj & i & h & sec & _ & _ & _ & Hsec & _).
    rewrite Forall_forall in Hall.
    specialize (Hall (d, Some content) (list_elem_of_lookup_2 _ _ _ Hj)
                  content eq_refl).
    simpl in Hall. by rewrite section_before_unrecognised in Hsec.
Qed.

Lemma unrecognised_sections_yield_no_entry_witness :
  parse_memory_file
    (Some (lit "## Notes" ++ nl ++ lit "### T" ++ nl ++ lit "text")) = [].
Proof.
  apply (proj1 unrecognised_sections_yield_no_entry
           (lit "## Notes" ++ nl ++ lit "### T" ++ nl ++ lit "text")).
  repeat constructor; by vm_compute.
Defined.

(** ** MemoryParser: titles and bodies are stripped *)

Lemma flush_bodies_stripped (st : ParseState) :
  bodies_stripped (heap st) -> bodies_stripped (heap (flush st)).
Proof.
  intros Hs. rewrite flush_heap.
  destruct (current_entry st) as [r0|]; [|done].
  destruct (entry_buffer st) as [|b0 buf]; [done|].
  intros r e b. rewrite list_lookup_alter. case_decide; [subst|by apply Hs].
  destruct (heap st !! r) as [e0|]; [|done]. intros [= <-]. simpl.
  intros [= <-]. apply strip_idemp.
Qed.

Lemma parse_line_bodies_stripped (mode : ParseMode) (st : ParseState) (line : str) :
  (forall t s, body (new_entry mode t s) = None) ->
  bodies_stripped (heap st) -> bodies_stripped (heap (parse_line mode st line)).
Proof.
  intros Hnew Hs. pose proof (flush_bodies_stripped st Hs) as Hf.
  destruct (parse_line_cases mode st line)
    as [[H2 ->]|[(H2&H3&sec&Hsec&->)|[(Hh&H2&r'&Hc&->)|(Hh&H2&Hc&->)]]];
    simpl; try done.
  unfold bodies_stripped.
  intros r e b [He|[_ He]]%lookup_app_Some; [by apply (Hf r e b)|].
  destruct (r - length (heap (flush st))); simpl in He; [|done].
  injection He as <-. by rewrite Hnew.
Qed.

Lemma parse_document_bodies_stripped (mode : ParseMode) (content : str)
  (acc : list nat * list Entry) :
  (forall t s, body (new_entry mode t s) = None) ->
  bodies_stripped acc.2 ->
  bodies_stripped (parse_document mode content acc).2.
Proof.
  intros Hnew Hacc. unfold parse_document. cbv zeta. simpl.
  apply flush_bodies_stripped.
  set (st0 := {| current_section := None; current_entry := None;
                 entry_buffer := []; entries := acc.1; heap := acc.2 |}).
  assert (Hst0 : bodies_stripped (heap st0)) by done.
  clearbody st0. revert st0 Hst0.
  induction (split content nl_char) as [|l ls IH]; intros st0 Hst0; simpl;
    [done|].
  by apply IH, parse_line_bodies_stripped.
Qed.

Lemma daily_fold_bodies_stripped (days : list (str * option str))
  (acc : list nat * list Entry) :
  bodies_stripped acc.2 -> bodies_stripped (foldl daily_step acc days).2.
Proof.
  revert acc. induction days as [|[d c] days IH]; intros acc Hacc; simpl;
    [done|].
  apply IH. unfold daily_step. simpl. destruct c as [content|]; [|done].
  by apply parse_document_bodies_stripped.
Qed.

Lemma bodies_stripped_nil : bodies_stripped [].
Proof. intros r e b Hr. by rewrite lookup_nil in Hr. Qed.

(** X8. The title and the body of every entry returned by the parsers
    are stripped strings: stripping them again changes nothing, so they
    neither start nor end with whitespace. *)
Theorem parsed_titles_and_bodies_are_stripped :
  (forall memory_md e,
      e ∈ parse_memory_file memory_md ->
      strip (title e) = title e
      /\ exists b, body e = Some b /\ strip b = b)
  /\ (forall days e,
        e ∈ parse_daily_files days ->
        strip (title e) = title e
        /\ exists b, body e = Some b /\ strip b = b).
Proof.
  split.
  - intros [content|] e He; [|by apply elem_of_nil in He]. split.
    + apply parse_memory_file_origin in He
        as (i & h & sec & _ & _ & _ & _ & Ht & _).
      simpl in Ht. rewrite <- Ht. apply strip_idemp.
    + destruct (parse_memory_file_body _ _ He) as [b Hb]. exists b.
      split; [done|]. simpl in He.
      apply list_elem_of_omap in He as (r & _ & Hr).
      eapply (parse_document_bodies_stripped memory_mode content ([], []));
        [done|apply bodies_stripped_nil|exact Hr|exact Hb].
  - intros days e He. split.
    + unfold parse_daily_files in He.
      apply list_elem_of_omap in He as (r & _ & Hr).
      rewrite <- (take_ge days (length days)) in Hr by lia.
      apply daily_fold_origin in Hr
        as (j & d & content & _ & _ & i & h & sec & _ & _ & _ & _ & Ht & _).
      simpl in Ht. rewrite <- Ht. apply strip_idemp.
    + destruct (parse_daily_files_body _ _ He) as [b Hb]. exists b.
      split; [done|]. unfold parse_daily_files in He.
      apply list_elem_of_omap in He as (r & _ & Hr).
      eapply (daily_fold_bodies_stripped days ([], []));
        [apply bodies_stripped_nil|exact Hr|exact Hb].
Qed.

Lemma parsed_titles_and_bodies_are_stripped_witness :
  strip (lit "T") = lit "T"
  /\ exists b, Some (lit "indented") = Some b /\ strip b = b.
Proof.
  apply (proj1 parsed_titles_and_bodies_are_stripped
           (Some (lit "## Lesson" ++ nl ++ lit "###   T  " ++ nl ++ nl
                  ++ lit "  indented  " ++ nl))
           {| title := lit "T"; source := lit "MEMORY.md";
              section := lit "Lesson"; file := lit "MEMORY.md";
              date := None; body := Some (lit "indented"); metadata := None |}).
  vm_compute. apply list_elem_of_here.
Defined.

(** ** MemoryParser: what a body holds *)

Lemma flush_buffer_nil (st : ParseState) :
  buffer_ok st -> entry_buffer (flush st) = [].
Proof.
  unfold buffer_ok, flush. intros Hok.
  destruct (current_entry st) as [r|] eqn:Hc; [|by apply Hok].
  by destruct (entry_buffer st) eqn:Hb.
Qed.

Lemma parse_line_buffer_ok (mode : ParseMode) (st : ParseState) (line : str) :
  buffer_ok st -> buffer_ok (parse_line mode st line).
Proof.
  intros Hok.
  destruct (parse_line_cases mode st line)
    as [[H2 ->]|[(H2&H3&sec&Hsec&->)|[(Hh&H2&r'&Hc&->)|(Hh&H2&Hc&->)]]];
    unfold buffer_ok; simpl; try done.
  intros _. by apply flush_buffer_nil.
Qed.

Lemma foldl_parse_line_buffer_ok (mode : ParseMode) (lines : list str)
  (st : ParseState) :
  buffer_ok st -> buffer_ok (foldl (parse_line mode) st lines).
Proof.
  revert st. induction lines as [|l ls IH]; intros st Hok; simpl; [done|].
  by apply IH, parse_line_buffer_ok.
Qed.

Lemma foldl_parse_line_body_lines (mode : ParseMode) (bs : list str)
  (st : ParseState) (r : nat) :
  Forall (fun l => is_heading_line l = false) bs ->
  current_entry st = Some r ->
  foldl (parse_line mode) st bs
  = {| current_section := current_section st;
       current_entry := Some r;
       entry_buffer := entry_buffer st ++ bs;
       entries := entries st;
       heap := heap st |}.
Proof.
  intros Hbs. revert st. induction Hbs as [|l bs Hl _ IH]; intros st Hc; simpl.
  - rewrite app_nil_r. destruct st. simpl in *. by subst.
  - unfold is_heading_line in Hl. apply orb_false_iff in Hl as [Hl2 Hl3].
    destruct (parse_line_cases mode st l)
      as [[H2 _]|[(_&H3&_)|[(_&_&r'&Hc'&->)|(_&_&Hc'&_)]]];
      try congruence.
    assert (r' = r) as -> by congruence.
    rewrite IH by done. simpl. by rewrite <- app_assoc.
Qed.

Lemma flush_frozen (r : nat) (e : Entry) (st : ParseState) :
  frozen r e st -> frozen r e (flush st).
Proof.
  intros (He & Hr & Hc). unfold frozen.
  rewrite flush_current_entry, flush_entries, flush_heap.
  split; [|split; [apply elem_of_app; by left|done]].
  destruct (current_entry st) as [r0|]; [|done].
  destruct (entry_buffer st); [done|].
  rewrite list_lookup_alter_ne; [done|]. by apply Hc.
Qed.

Lemma parse_line_frozen (mode : ParseMode) (r : nat) (e : Entry)
  (st : ParseState) (line : str) :
  frozen r e st -> frozen r e (parse_line mode st line).
Proof.
  intros Hfr. pose proof (flush_frozen r e st Hfr) as (He & Hr & Hc).
  destruct (parse_line_cases mode st line)
    as [[H2 ->]|[(H2&H3&sec&Hsec&->)|[(Hh&H2&r'&Hc'&->)|(Hh&H2&Hc'&->)]]];
    try done.
  - split; simpl; [by apply lookup_app_l_Some|]. split; [done|].
    intros r' [= <-]. apply lookup_lt_Some in He. lia.
  - destruct Hfr as (He' & Hr' & Hcur). split; simpl; [done|].
    split; [done|]. intros r0 [= <-]. by apply Hcur.
Qed.

Lemma foldl_parse_line_frozen (mode : ParseMode) (r : nat) (e : Entry)
  (lines : list str) (st : ParseState) :
  frozen r e st -> frozen r e (foldl (parse_line mode) st lines).
Proof.
  revert st. induction lines as [|l ls IH]; intros st Hfr; simpl; [done|].
  by apply IH, parse_line_frozen.
Qed.

Lemma parse_document_frozen (mode : ParseMode) (content : str)
  (acc : list nat * list Entry) (r : nat) (e : Entry) :
  r ∈ acc.1 -> acc.2 !! r = Some e ->
  r ∈ (parse_document mode content acc).1
  /\ (parse_document mode content acc).2 !! r = Some e.
Proof.
  intros Hr He. unfold parse_document. cbv zeta. simpl.
  set (st0 := {| current_section := None; current_entry := None;
                 entry_buffer := []; entries := acc.1; heap := acc.2 |}).
  assert (Hfr : frozen r e st0) by (by repeat split).
  destruct (flush_frozen r e _ (foldl_parse_line_frozen mode r e
              (split content nl_char) st0 Hfr)) as (He' & Hr' & _).
  done.
Qed.

Lemma daily_fold_frozen (days : list (str * option str))
  (acc : list nat * list Entry) (r : nat) (e : Entry) :
  r ∈ acc.1 -> acc.2 !! r = Some e ->
  r ∈ (foldl daily_step acc days).1
  /\ (foldl daily_step acc days).2 !! r = Some e.
Proof.
  revert acc. induction days as [|[d c] days IH]; intros acc Hr He; simpl;
    [done|].
  unfold daily_step at 2 4. simpl. destruct c as [content|]; [|by apply IH].
  destruct (parse_document_frozen (daily_mode d) content acc r e Hr He).
  by apply IH.
Qed.

Lemma parse_document_body (mode : ParseMode) (content : str)
  (acc : list nat * list Entry) (pre : list str) (h : str) (bs rest : list str)
  (sec : str) :
  split content nl_char = pre ++ h :: bs ++ rest ->
  section_before mode (split content nl_char) (length pre) = Some sec ->
  startswith h (lit "### ") = true ->
  bs <> [] ->
  Forall (fun l => is_heading_line l = false) bs ->
  (rest = [] \/ exists h2 rest', rest = h2 :: rest'
                                 /\ startswith h2 (lit "### ") = true) ->
  exists r,
    r ∈ (parse_document mode content acc).1
    /\ (parse_document mode content acc).2 !! r
       = Some (set_body (strip (join nl bs))
                        (new_entry mode (strip (slice_from h 4)) sec)).
Proof.
  intros Hsplit Hsec H3 Hne Hbs Hrest. unfold parse_document. cbv zeta. simpl.
  unfold section_before in Hsec. rewrite Hsplit in *.
  rewrite take_app_length in Hsec.
  set (st0 := {| current_section := None; current_entry := None;
                 entry_buffer := []; entries := acc.1; heap := acc.2 |}).
  rewrite foldl_app. simpl.
  set (sti := foldl (parse_line mode) st0 pre).
  assert (Hseci : current_section sti = Some sec).
  { unfold sti. by rewrite foldl_parse_line_section. }
  assert (Hoki : buffer_ok sti).
  { by apply foldl_parse_line_buffer_ok. }
  pose proof (heading3_not_heading2 h H3) as H2.
  set (new := new_entry mode (strip (slice_from h 4)) sec).
  set (r := length (heap (flush sti))).
  assert (H1 : parse_line mode sti h
               = {| current_section := Some sec; current_entry := Some r;
                    entry_buffer := []; entries := entries (flush sti);
                    heap := heap (flush sti) ++ [new] |}).
  { destruct (parse_line_cases mode sti h)
      as [[H2' _]|[(_&_&sec'&Hs&->)|[(Hhl&_)|(Hhl&_)]]].
    - congruence.
    - assert (sec' = sec) as -> by congruence.
      by rewrite flush_buffer_nil.
    - unfold is_heading_line in Hhl. rewrite H3, H2, Hseci in Hhl.
      by vm_compute in Hhl.
    - unfold is_heading_line in Hhl. rewrite H3, H2, Hseci in Hhl.
      by vm_compute in Hhl. }
  rewrite H1, foldl_app.
  rewrite (foldl_parse_line_body_lines mode bs
             {| current_section := Some sec; current_entry := Some r;
                entry_buffer := []; entries := entries (flush sti);
                heap := heap (flush sti) ++ [new] |} r Hbs eq_refl).
  simpl.
  set (st2 := {| current_section := Some sec; current_entry := Some r;
                 entry_buffer := bs; entries := entries (flush sti);
                 heap := heap (flush sti) ++ [new] |}).
  assert (Hflush : heap (flush st2) !! r
                   = Some (set_body (strip (join nl bs)) new)
                   /\ r ∈ entries (flush st2)).
  { rewrite flush_heap, flush_entries. simpl.
    destruct bs as [|b0 bs']; [done|]. split.
    - rewrite list_lookup_alter_eq.
      rewrite lookup_app_r by (unfold r; lia).
      unfold r. by rewrite Nat.sub_diag.
    - apply elem_of_app. right. by apply list_elem_of_singleton. }
  destruct Hflush as [Hheap Hin].
  destruct Hrest as [->|(h2 & rest' & -> & H32)].
  - simpl. exists r. by split.
  - simpl.
    assert (Hfr : frozen r (set_body (strip (join nl bs)) new)
                    (parse_line mode st2 h2)).
    { pose proof (heading3_not_heading2 h2 H32) as H22.
      destruct (parse_line_cases mode st2 h2)
        as [[H2' _]|[(_&_&sec'&Hs&->)|[(Hhl&_)|(Hhl&_)]]].
      - congruence.
      - split; simpl; [by apply lookup_app_l_Some|]. split; [done|].
        intros r' [= <-]. apply lookup_lt_Some in Hheap. lia.
      - unfold is_heading_line in Hhl. rewrite H32, H22 in Hhl.
        by vm_compute in Hhl.
      - unfold is_heading_line in Hhl. rewrite H32, H22 in Hhl.
        by vm_compute in Hhl. }
    destruct (flush_frozen _ _ _ (foldl_parse_line_frozen mode _ _ rest' _ Hfr))
      as (He & Hr & _).
    exists r. by split.
Qed.

(** X9. The body of an entry is made of the lines under its heading:
    when a level-3 heading in a recognised section is followed by one or
    more lines that are not headings, and then by another level-3
    heading or the end of the document, the parser returns an entry
    with the heading's title whose body is those lines joined by
    newlines and stripped. This holds for MEMORY.md and for each daily
    file, whatever the other files hold. *)
Theorem entry_body_is_the_lines_under_its_heading :
  (forall content pre h bs rest sec,
      split content nl_char = pre ++ h :: bs ++ rest ->
      section_before memory_mode (split content nl_char) (length pre)
      = Some sec ->
      startswith h (lit "### ") = true ->
      bs <> [] ->
      Forall (fun l => is_heading_line l = false) bs ->
      (rest = [] \/ exists h2 rest', rest = h2 :: rest'
                                     /\ startswith h2 (lit "### ") = true) ->
      exists e, e ∈ parse_memory_file (Some content)
                /\ title e = strip (slice_from h 4) /\ section e = sec
                /\ body e = Some (strip (join nl bs)))
  /\ (forall days k d content pre h bs rest sec,
        days !! k = Some (d, Some content) ->
        split content nl_char = pre ++ h :: bs ++ rest ->
        section_before (daily_mode d) (split content nl_char) (length pre)
        = Some sec ->
        startswith h (lit "### ") = true ->
        bs <> [] ->
        Forall (fun l => is_heading_line l = false) bs ->
        (rest = [] \/ exists h2 rest', rest = h2 :: rest'
                                       /\ startswith h2 (lit "### ") = true) ->
        exists e, e ∈ parse_daily_files days
                  /\ title e = strip (slice_from h 4) /\ section e = sec
                  /\ date e = Some d
                  /\ body e = Some (strip (join nl bs))).
Proof.
  split.
  - intros content pre h bs rest sec Hsplit Hsec H3 Hne Hbs Hrest.
    destruct (parse_document_body memory_mode content ([], []) pre h bs rest
                sec Hsplit Hsec H3 Hne Hbs Hrest) as (r & Hr & He).
    eexists. split; [by eapply elem_of_deref|]. by repeat split.
  - intros days k d content pre h bs rest sec Hk Hsplit Hsec H3 Hne Hbs Hrest.
    unfold parse_daily_files.
    rewrite <- (take_drop_middle _ _ _ Hk), foldl_app. simpl.
    unfold daily_step at 2. simpl.
    destruct (parse_document_body (daily_mode d) content
                (foldl daily_step ([], []) (take k days)) pre h bs rest
                sec Hsplit Hsec H3 Hne Hbs Hrest) as (r & Hr & He).
    destruct (daily_fold_frozen (drop (S k) days) _ r _ Hr He) as [Hr' He'].
    eexists. split; [by eapply elem_of_deref|]. by repeat split.
Qed.

Lemma entry_body_is_the_lines_under_its_heading_witness :
  exists e, e ∈ parse_memory_file
                  (Some (lit "## Lesson" ++ nl ++ lit "### T" ++ nl
                         ++ lit "one" ++ nl ++ lit "  two" ++ nl ++ lit "### U"))
            /\ title e = lit "T" /\ section e = lit "Lesson"
            /\ body e = Some (lit "one" ++ nl ++ lit "  two").
Proof.
  apply (proj1 entry_body_is_the_lines_under_its_heading
           (lit "## Lesson" ++ nl ++ lit "### T" ++ nl
            ++ lit "one" ++ nl ++ lit "  two" ++ nl ++ lit "### U")
           [lit "## Lesson"] (lit "### T") [lit "one"; lit "  two"]
           [lit "### U"] (lit "Lesson")).
  - reflexivity.
  - reflexivity.
  - reflexivity.
  - discriminate.
  - by repeat constructor.
  - right. by exists (lit "### U"), [].
Defined.

Lemma daily_fold_skip_missing (days : list (str * option str))
  (acc : list nat * list Entry) :
  foldl daily_step acc (filter (fun day => is_Some day.2) days)
  = foldl daily_step acc days.
Proof.
  revert acc. induction days as [|[d c] days IH]; intros acc; [done|].
  destruct c as [content|].
  - rewrite filter_cons_True by (by eexists). simpl. apply IH.
  - rewrite filter_cons_False by (by intros [? ?]). simpl.
    unfold daily_step at 2. simpl. apply IH.
Qed.

(** X10. Days without a file are skipped: [parse_daily_files] returns
    what it returns on the days that have one, and nothing when no day
    of the window has a file. *)
Theorem missing_daily_files_are_skipped (days : list (str * option str)) :
  parse_daily_files days
  = parse_daily_files (filter (fun day => is_Some day.2) days)
  /\ (Forall (fun day => day.2 = None) days -> parse_daily_files days = []).
Proof.
  unfold parse_daily_files. split.
  - by rewrite daily_fold_skip_missing.
  - intros Hnone. rewrite <- daily_fold_skip_missing.
    replace (filter (fun day => is_Some day.2) days) with (@nil (str * option str));
      [done|].
    induction Hnone as [|[d c] days Hc _ IH]; [done|]. simpl in Hc. subst.
    by rewrite filter_cons_False by (by intros [? ?]).
Qed.

Lemma missing_daily_files_are_skipped_witness :
  parse_daily_files [(lit "2026-01-02", None); (lit "2026-01-01", None)] = [].
Proof.
  apply (proj2 (missing_daily_files_are_skipped
                  [(lit "2026-01-02", None); (lit "2026-01-01", None)])).
  by repeat constructor.
Defined.

(** ** EntryClassifier: labels, score and tags *)

Lemma first_label_in (taxonomy : Taxonomy) (text default : str) :
  first_label taxonomy text default ∈ default :: (fst <$> taxonomy).
Proof.
  induction taxonomy as [|[label keywords] rest IH]; simpl; [by left|].
  destruct (any_in keywords text); [right; by left|].
  apply elem_of_cons in IH as [->|IH]; [by left|]. right. by right.
Qed.

(** X11. The four labels produced by [classify] always belong to their
    lists: one of the seven content types, one of the six domains or
    General, one of the four certainties, one of the four impacts. *)
Theorem classify_labels_are_enumerated (e : Entry) :
  exists m,
    metadata (classify e) = Some m
    /\ content_type m ∈ map lit ["Research"; "Lesson"; "Decision"; "Pattern";
                                 "Tutorial"; "Reference"; "Insight"]%string
    /\ domain m ∈ map lit ["AI Models"; "OpenClaw"; "Cost Optimization";
                           "Trading"; "Learning"; "Process"; "General"]%string
    /\ certainty m ∈ map lit ["Verified"; "Likely"; "Speculative";
                              "Opinion"]%string
    /\ impact m ∈ map lit ["High"; "Medium"; "Low"; "Negligible"]%string
    /\ meta_source m = source e.
Proof.
  eexists. split; [reflexivity|].
  cbn [content_type domain certainty impact meta_source].
  unfold classify_type, classify_domain, classify_certainty, classify_impact.
  repeat split.
  - pose proof (first_label_in TYPE_KEYWORDS
                  (lower (title e ++ lit " " ++ default [] (body e)))
                  (lit "Insight")) as H.
    apply elem_of_cons in H as [->|H]; [|exact H].
    do 6 right. by left.
  - pose proof (first_label_in DOMAIN_KEYWORDS
                  (lower (title e ++ lit " " ++ default [] (body e)))
                  (lit "General")) as H.
    apply elem_of_cons in H as [->|H].
    + do 6 right. by left.
    + change (map lit ["AI Models"; "OpenClaw"; "Cost Optimization";
                       "Trading"; "Learning"; "Process"; "General"]%string)
        with ((fst <$> DOMAIN_KEYWORDS) ++ [lit "General"]).
      apply elem_of_app. by left.
  - pose proof (first_label_in CERTAINTY_PHRASES
                  (lower (default [] (body e))) (lit "Verified")) as H.
    apply elem_of_cons in H as [->|H]; [by left|exact H].
  - pose proof (first_label_in IMPACT_INDICATORS
                  (lower (title e ++ lit " " ++ default [] (body e)))
                  (lit "Medium")) as H.
    apply elem_of_cons in H as [->|H]; [right; by left|exact H].
Qed.

(** X12. The confidence score is always between 7 and 10: it is 7 plus
    at most three bonuses, and the clamp to [1, 10] never changes it. *)
Theorem confidence_between_7_and_10 (title body : str) (source : option str) :
  (7 <= _estimate_confidence title body source <= 10)%Z
  /\ _estimate_confidence title body source
     = (7 + (if bool_decide (source = Some (lit "MEMORY.md")) then 1 else 0)
          + (if Nat.ltb 500 (length body) then 1 else 0)
          + (if any_in EVIDENCE_WORDS (lower body) then 1 else 0))%Z.
Proof.
  unfold _estimate_confidence.
  destruct (bool_decide _), (Nat.ltb 500 _), (any_in EVIDENCE_WORDS _); lia.
Qed.

Lemma first_label_first_match (pre post : Taxonomy) (label : str)
  (keywords : list str) (text default : str) :
  no_match pre text = true -> any_in keywords text = true ->
  first_label (pre ++ (label, keywords) :: post) text default = label.
Proof.
  intros Hpre Hkw. induction pre as [|[l k] pre IH]; simpl in *.
  - by rewrite Hkw.
  - apply andb_true_iff in Hpre as [Hk Hpre].
    apply negb_true_iff in Hk. rewrite Hk. by apply IH.
Qed.

(** X13. In each taxonomy the first label with a matching keyword wins,
    in the order the dictionary is written: a label is returned when one
    of its keywords occurs in the text and no keyword of an earlier
    label does. *)
Theorem classify_first_match_wins (title body : str) :
  (forall pre label keywords post,
      TYPE_KEYWORDS = pre ++ (label, keywords) :: post ->
      no_match pre (lower (title ++ lit " " ++ body)) = true ->
      any_in keywords (lower (title ++ lit " " ++ body)) = true ->
      classify_type title body = label)
  /\ (forall pre label keywords post,
        DOMAIN_KEYWORDS = pre ++ (label, keywords) :: post ->
        no_match pre (lower (title ++ lit " " ++ body)) = true ->
        any_in keywords (lower (title ++ lit " " ++ body)) = true ->
        classify_domain title body = label)
  /\ (forall pre label phrases post,
        CERTAINTY_PHRASES = pre ++ (label, phrases) :: post ->
        no_match pre (lower body) = true ->
        any_in phrases (lower body) = true ->
        classify_certainty body = label)
  /\ (forall pre label indicators post,
        IMPACT_INDICATORS = pre ++ (label, indicators) :: post ->
        no_match pre (lower (title ++ lit " " ++ body)) = true ->
        any_in indicators (lower (title ++ lit " " ++ body)) = true ->
        classify_impact title body = label).
Proof.
  unfold classify_type, classify_domain, classify_certainty, classify_impact.
  repeat split; intros pre label kws post -> Hpre Hkw;
    by apply first_label_first_match.
Qed.

Lemma classify_first_match_wins_witness :
  classify_type (lit "A Mistake") (lit "we learned from the benchmark wrongly")
  = lit "Research".
Proof.
  apply (proj1 (classify_first_match_wins (lit "A Mistake")
                  (lit "we learned from the benchmark wrongly"))
           [] (lit "Research")
           (map lit ["research"; "benchmark"; "analysis"; "comparison";
                     "technical deep dive"; "performance";
                     "detailed breakdown"]%string)
           (tail TYPE_KEYWORDS)); reflexivity.
Defined.

Lemma lower_app (x y : str) : lower (x ++ y) = lower x ++ lower y.
Proof. unfold lower. apply map_app. Qed.

(** X14. The labels depend on the title and the body only through
    their lowercase forms: two entries whose titles are equal once
    lowercased, and whose bodies are, get the same four labels. The
    confidence score also looks at the length of the body as it is
    written: when the two bodies have the same length as well, the
    scores are equal. *)
Theorem classify_ignores_case (title title' body body' : str)
  (source : option str) :
  lower title = lower title' -> lower body = lower body' ->
  classify_type title body = classify_type title' body'
  /\ classify_domain title body = classify_domain title' body'
  /\ classify_certainty body = classify_certainty body'
  /\ classify_impact title body = classify_impact title' body'
  /\ (length body = length body' ->
      _estimate_confidence title body source
      = _estimate_confidence title' body' source).
Proof.
  intros Ht Hb.
  unfold classify_type, classify_domain, classify_certainty, classify_impact,
    _estimate_confidence.
  rewrite !lower_app, Ht, Hb. do 4 (split; [done|]).
  by intros ->.
Qed.

Lemma classify_ignores_case_witness :
  classify_type (lit "BENCHMARK Run") (lit "Measured DATA")
  = classify_type (lit "benchmark run") (lit "measured data")
  /\ classify_domain (lit "BENCHMARK Run") (lit "Measured DATA")
     = classify_domain (lit "benchmark run") (lit "measured data")
  /\ classify_certainty (lit "Measured DATA")
     = classify_certainty (lit "measured data")
  /\ classify_impact (lit "BENCHMARK Run") (lit "Measured DATA")
     = classify_impact (lit "benchmark run") (lit "measured data")
  /\ _estimate_confidence (lit "BENCHMARK Run") (lit "Measured DATA") None
     = _estimate_confidence (lit "benchmark run") (lit "measured data") None.
Proof.
  destruct (classify_ignores_case (lit "BENCHMARK Run") (lit "benchmark run")
              (lit "Measured DATA") (lit "measured data") None)
    as (Htype & Hdomain & Hcertainty & Himpact & Hscore); [reflexivity..|].
  do 4 (split; [assumption|]). by apply Hscore.
Defined.

Lemma tags_loop_sublist (keyword_map : Taxonomy) (text : str) :
  tags_loop keyword_map text `sublist_of` (fst <$> keyword_map).
Proof.
  induction keyword_map as [|[tag words] rest IH]; simpl; [constructor|].
  destruct (any_in words text); [by apply sublist_skip|by apply sublist_cons].
Qed.

Lemma tags_loop_matched (keyword_map : Taxonomy) (text tag : str) :
  tag ∈ tags_loop keyword_map text ->
  exists words, (tag, words) ∈ keyword_map /\ any_in words text = true.
Proof.
  induction keyword_map as [|[tag' words] rest IH]; simpl;
    [by intros ?%elem_of_nil|].
  destruct (any_in words text) eqn:Hw.
  - intros [->|Hin]%elem_of_cons.
    + exists words. split; [by left|done].
    + destruct (IH Hin) as (w & Hw' & Hany). exists w. split; [by right|done].
  - intros Hin. destruct (IH Hin) as (w & Hw' & Hany).
    exists w. split; [by right|done].
Qed.

Lemma tags_loop_NoDup (text : str) : NoDup (tags_loop TAG_KEYWORDS text).
Proof.
  eapply sublist_NoDup; [|apply tags_loop_sublist].
  apply (bool_decide_unpack (NoDup (fst <$> TAG_KEYWORDS))). by vm_compute.
Qed.

(** X15. Whatever order the set of tags is listed in, [extract_tags]
    returns at most 7 tags, without repetition, each of them a tag of
    the keyword map one of whose words occurs in the lowercased title,
    body and section; when at most 7 tags match, all of them are
    returned. *)
Theorem extract_tags_bounded (set_order : list str -> list str)
  (title body section : str) :
  (forall l, set_order l ≡ₚ remove_dups l) ->
  let text := lower (title ++ lit " " ++ body ++ lit " " ++ section) in
  let tags := extract_tags set_order title body section in
  length tags <= 7
  /\ NoDup tags
  /\ (forall tag, tag ∈ tags ->
        exists words, (tag, words) ∈ TAG_KEYWORDS /\ any_in words text = true)
  /\ (length (tags_loop TAG_KEYWORDS text) <= 7 ->
      tags ≡ₚ tags_loop TAG_KEYWORDS text).
Proof.
  intros Horder text tags. unfold tags, extract_tags, slice_to. fold text.
  change (0 <=? Z.of_nat MAX_TAGS)%Z with true. cbv iota.
  change (Z.to_nat (Z.of_nat MAX_TAGS)) with 7.
  set (l := tags_loop TAG_KEYWORDS text).
  assert (Hnd : NoDup (set_order l)).
  { rewrite Horder. apply NoDup_remove_dups. }
  split; [rewrite length_take; lia|].
  split; [eapply sublist_NoDup; [exact Hnd|apply sublist_take]|].
  split.
  - intros tag Hin. apply (tags_loop_matched TAG_KEYWORDS).
    apply subseteq_take in Hin. rewrite Horder in Hin.
    rewrite elem_of_remove_dups in Hin. exact Hin.
  - intros Hlen.
    assert (Hperm : set_order l ≡ₚ l).
    { rewrite Horder. apply NoDup_Permutation;
        [apply NoDup_remove_dups|apply tags_loop_NoDup|].
      intros x. apply elem_of_remove_dups. }
    rewrite take_ge; [done|]. by rewrite Hperm.
Qed.

Lemma extract_tags_bounded_witness :
  let tags := extract_tags remove_dups (lit "Benchmark of a free model")
                (lit "cost and code") (lit "Research") in
  length tags <= 7 /\ NoDup tags.
Proof.
  destruct (extract_tags_bounded remove_dups (lit "Benchmark of a free model")
              (lit "cost and code") (lit "Research"))
    as (Hlen & Hnd & _); [done|].
  split; [exact Hlen|exact Hnd].
Defined.

(** ** SyncOrchestrator: counters and log *)

Lemma dispatch_dry_run (children_of : str -> list Block) (es : list Entry)
  (stats : Stats) (w : World) :
  foldl (sync_entry_with children_of true) (stats, w) es
  = ({| created := created stats; updated := updated stats;
        failed := failed stats + length es |},
     {| db := db w; log := log w ++ ((fun e => (DRY_RUN, title e)) <$> es) |}).
Proof.
  revert stats w. induction es as [|e es IH]; intros stats w.
  - simpl. rewrite Nat.add_0_r, app_nil_r. by destruct stats, w.
  - cbn [foldl].
    assert (Hstep : sync_entry_with children_of true (stats, w) e
                    = ({| created := created stats; updated := updated stats;
                          failed := S (failed stats) |},
                       log_action DRY_RUN (title e) w)).
    { unfold sync_entry_with, process_entry_with.
      destruct (metadata (classify e)) as [meta|] eqn:Hm;
        [|unfold classify, set_metadata in Hm; cbn [metadata] in Hm; done].
      reflexivity. }
    rewrite Hstep, IH. cbn [created updated failed db log log_action length].
    rewrite fmap_cons, <- app_assoc.
    replace (S (failed stats) + length es) with (failed stats + S (length es))
      by lia.
    done.
Qed.

(** X16. A dry run converts the bodies too: [convert] is called on
    every body longer than 50 characters before the dry-run test. When
    it returns on each of them, the run writes nothing to the database,
    gives every extracted entry one DRY-RUN record in the log and, since
    [process_entry] returns [None], counts it as failed. When it does
    not return on one of them, the dry run does not return either. *)
Theorem sync_dry_run_writes_nothing
  (md5_16 : str -> str) (fuel : nat)
  (memory_md : option str) (days : list (str * option str))
  (limit : option Z) (w : World) (entries : list Entry) :
  extract_all_entries md5_16 memory_md days = Some entries ->
  sync md5_16 fuel memory_md days true limit w
  = if forallb (converted fuel) (apply_limit limit entries)
    then Some ({| created := 0; updated := 0;
                  failed := length (apply_limit limit entries) |},
               {| db := db w;
                  log := log w ++ ((fun e => (DRY_RUN, title e))
                                   <$> apply_limit limit entries) |})
    else None.
Proof.
  intros Hex. unfold sync, dispatch. rewrite Hex. cbn [mbind option_bind].
  cbv zeta. rewrite dispatch_loop_converted.
  destruct (forallb (converted fuel) (apply_limit limit entries)); [|done].
  by rewrite dispatch_dry_run.
Qed.

Lemma sync_dry_run_writes_nothing_witness :
  sync id 8 (Some long_entry_md) [] true None empty_world
  = Some ({| created := 0; updated := 0; failed := 1 |},
          {| db := []; log := [(DRY_RUN, lit "A")] |})
  /\ sync id 8 (Some starred_entry_md) [] true None empty_world = None.
Proof.
  split.
  - rewrite (sync_dry_run_writes_nothing id 8 (Some long_entry_md) []
               None empty_world
               (default [] (extract_all_entries id (Some long_entry_md) [])))
      by (by vm_compute).
    by vm_compute.
  - rewrite (sync_dry_run_writes_nothing id 8 (Some starred_entry_md) []
               None empty_world
               (default [] (extract_all_entries id (Some starred_entry_md) [])))
      by (by vm_compute).
    by vm_compute.
Defined.





(** ** MarkdownToNotion: list runs *)

Lemma isdigit_not_isspace (c : ascii) : isdigit c = true -> isspace c = false.
Proof. destruct c as [[] [] [] [] [] [] [] []]; by vm_compute. Qed.

Lemma digits_prefix_app (ds rest : str) :
  Forall (fun c => isdigit c = true) ds ->
  digits_prefix (ds ++ "."%char :: rest) = length ds.
Proof.
  induction 1 as [|d ds Hd _ IH]; simpl; [done|]. by rewrite Hd, IH.
Qed.

Lemma item_of_dash (raw : str) :
  startswith (rstrip raw) (lit "- ") = true ->
  item_of Dash raw
  = Some (ListItem (slice_to (strip (slice_from (rstrip raw) 2)) 2000)).
Proof.
  intros Hd. unfold item_of, is_blank, list_prefix. rewrite Hd.
  destruct (rstrip raw) as [|a [|b l]] eqn:Hl; simpl in Hd;
    repeat case_decide; subst; try done.
  destruct (strip_cons_nonspace "-"%char (" "%char :: l) eq_refl) as [l' ->].
  reflexivity.
Qed.

Lemma item_of_numbered (raw ds t : str) :
  ds <> [] -> Forall (fun c => isdigit c = true) ds ->
  rstrip raw = ds ++ lit ". " ++ t ->
  item_of Numbered raw = Some (ListItem (slice_to (strip t) 2000)).
Proof.
  intros Hne Hds Hraw. unfold item_of, is_blank, list_prefix. rewrite Hraw.
  assert (Hstrip : truthy (strip (ds ++ lit ". " ++ t)) = true).
  { destruct Hds as [|d ds Hd _]; [done|].
    destruct (strip_cons_nonspace d (ds ++ lit ". " ++ t)
                (isdigit_not_isspace d Hd)) as [l' Hl'].
    change ((d :: ds) ++ lit ". " ++ t) with (d :: ds ++ lit ". " ++ t).
    by rewrite Hl'. }
  rewrite Hstrip. simpl negb. cbv iota.
  unfold re_match_numbered.
  change (ds ++ lit ". " ++ t) with (ds ++ "."%char :: " "%char :: t).
  rewrite digits_prefix_app by done.
  assert (Nat.ltb 0 (length ds) = true) as ->.
  { apply Nat.ltb_lt. destruct ds; [done|simpl; lia]. }
  rewrite drop_app_length. simpl andb. cbv iota. simpl.
  unfold _create_list_item, slice_from.
  rewrite length_take, length_app. simpl.
  replace (min (length ds + 2) (length ds + S (S (length t))))
    with (length ds + 2) by lia.
  replace (length ds + 2) with (length (ds ++ lit ". ")) by
    (rewrite length_app; reflexivity).
  change (ds ++ "."%char :: " "%char :: t) with (ds ++ lit ". " ++ t).
  by rewrite app_assoc, drop_app_length.
Qed.

Lemma convert_step_list_item (lines : list str) (i : nat) (blocks : list Block)
  (lt : ListType) (raw : str) :
  lines !! i = Some raw -> is_Some (item_of lt raw) ->
  convert_step lines (i, blocks)
  = Some (_skip_list lines i lt, blocks ++ _parse_list lines i lt).
Proof.
  intros Hi [b Hb]. unfold convert_step. rewrite Hi. cbv zeta.
  unfold item_of, is_blank in Hb.
  destruct (truthy (strip (rstrip raw))) eqn:Hblank; [|done]. simpl in Hb.
  simpl negb. cbv iota.
  destruct (list_prefix lt (rstrip raw)) as [prefix|] eqn:Hp; [|done].
  destruct lt; unfold list_prefix in Hp.
  - destruct (startswith (rstrip raw) (lit "- ")) eqn:Hd; [|done].
    destruct (rstrip raw) as [|a [|c l]] eqn:Hl; simpl in Hd;
      repeat case_decide; subst; try done.
  - unfold re_match_numbered in Hp.
    destruct (rstrip raw) as [|d l] eqn:Hl; [done|]. simpl in Hp.
    destruct (isdigit d) eqn:Hd; [|done].
    assert (Hnum : re_match_numbered (d :: l) = Some prefix).
    { unfold re_match_numbered. simpl. by rewrite Hd. }
    rewrite Hnum.
    assert (Hhead : forall c p, isdigit c = false ->
                                startswith (d :: l) (c :: p) = false).
    { intros c p Hc. simpl. destruct (decide (c = d)) as [<-|]; congruence. }
    change (lit "# ") with ("#"%char :: lit " ").
    change (lit "## ") with ("#"%char :: lit "# ").
    change (lit "### ") with ("#"%char :: lit "## ").
    change (lit "- ") with ("-"%char :: lit " ").
    change (lit "* ") with ("*"%char :: lit " ").
    rewrite !Hhead by reflexivity. simpl orb. cbv iota.
    by rewrite bool_decide_eq_true_2 by (by eexists).
Qed.

(** X18. A text made only of items of one list type and blank lines,
    starting with an item, is converted in one pass to one list item
    per item line, in order: blank lines between the items do not split
    the list. A ['- '] item gives the text after the marker, stripped; a
    numbered item gives the text after the digits, the dot and the
    space, stripped, whatever the number of digits. *)
Theorem convert_list_run (lt : ListType) (text raw0 : str) (rest : list str) :
  split text nl_char = raw0 :: rest ->
  is_Some (item_of lt raw0) ->
  Forall (fun raw => in_run lt raw = true) rest ->
  convert 1 text = Some (omap (item_of lt) (raw0 :: rest))
  /\ (forall raw, startswith (rstrip raw) (lit "- ") = true ->
        item_of Dash raw
        = Some (ListItem (slice_to (strip (slice_from (rstrip raw) 2)) 2000)))
  /\ (forall raw ds t,
        ds <> [] -> Forall (fun c => isdigit c = true) ds ->
        rstrip raw = ds ++ lit ". " ++ t ->
        item_of Numbered raw = Some (ListItem (slice_to (strip t) 2000))).
Proof.
  intros Hsplit Hitem Hrest.
  split; [|split; [apply item_of_dash|apply item_of_numbered]].
  unfold convert. rewrite Hsplit. set (lines := raw0 :: rest).
  assert (Hall : Forall (fun raw => in_run lt raw = true) lines).
  { constructor; [|done]. unfold in_run. destruct Hitem as [b Hb].
    unfold item_of in Hb. destruct (is_blank raw0); [done|]. simpl.
    apply bool_decide_eq_true_2.
    destruct (list_prefix lt (rstrip raw0)); [by eexists|done]. }
  assert (Hrun : _skip_list lines 0 lt = length lines
                 /\ _parse_list lines 0 lt = omap (item_of lt) lines).
  { unfold _skip_list, _parse_list. rewrite drop_0.
    destruct (skip_parse_from_run lines 0 lt)
      as (run & rest' & Hl & _ & Hhead & -> & ->).
    destruct rest' as [|r rest'].
    - rewrite app_nil_r in Hl. by subst.
    - exfalso. rewrite Forall_forall in Hall.
      rewrite (Hall r) in Hhead; [done|]. rewrite Hl.
      apply elem_of_app. right. by left. }
  destruct Hrun as [Hskip Hparse].
  cbn [convert_loop].
  rewrite (convert_step_list_item lines 0 [] lt raw0 eq_refl Hitem).
  rewrite Hskip, Hparse. cbn [convert_loop].
  unfold convert_step. by rewrite lookup_ge_None_2 by lia.
Qed.

Lemma convert_list_run_witness :
  convert 1 (lit "7. seven" ++ nl ++ nl ++ lit "10.   ten  ")
  = Some [ListItem (lit "seven"); ListItem (lit "ten")].
Proof.
  apply (proj1 (convert_list_run Numbered
                  (lit "7. seven" ++ nl ++ nl ++ lit "10.   ten  ")
                  (lit "7. seven") [[]; lit "10.   ten  "]
                  eq_refl (ex_intro _ _ eq_refl)
                  ltac:(by repeat constructor))).
Defined.

(** ** SyncOrchestrator: the database after a run *)

Lemma sync_entry_db (children_of : str -> list Block) (stats : Stats)
  (w : World) (e : Entry) :
  db (sync_entry_with children_of false (stats, w) e).2
  = upsert children_of (db w) e.
Proof.
  unfold sync_entry_with, process_entry_with, upsert.
  change (metadata (classify e)) with (Some (entry_meta e)).
  change (file (classify e)) with (file e).
  change (body (classify e)) with (body e).
  change (build_properties (classify e) (entry_meta e))
    with (entry_properties e).
  cbv zeta.
  destruct (query_by_source_file (db w) (file e)) as [i|] eqn:Hq.
  - unfold update_page. destruct (db w !! i) as [p|] eqn:Hi; simpl.
    + by destruct (bool_decide _).
    + reflexivity.
  - unfold create_page. simpl.
    destruct (bool_decide _); simpl;
      by destruct (truthy _ && Nat.ltb 50 _).
Qed.

Lemma dispatch_db (children_of : str -> list Block) (es : list Entry)
  (stats : Stats) (w : World) :
  db (foldl (sync_entry_with children_of false) (stats, w) es).2
  = foldl (upsert children_of) (db w) es.
Proof.
  revert stats w. induction es as [|e es IH]; intros stats w; [done|].
  cbn [foldl].
  destruct (sync_entry_with children_of false (stats, w) e) as [stats1 w1] eqn:Hs.
  rewrite IH. f_equal.
  change w1 with (stats1, w1).2. rewrite <- Hs. apply sync_entry_db.
Qed.

Lemma query_Some_iff (d : list Page) (f : str) (i : nat) :
  query_by_source_file d f = Some i <->
  (exists p, d !! i = Some p
             /\ contains (Source_File (page_properties p)) f = true)
  /\ forall j q, d !! j = Some q -> j < i ->
                 contains (Source_File (page_properties q)) f = false.
Proof.
  unfold query_by_source_file. split.
  - destruct (list_find _ d) as [[i' p]|] eqn:Hfind; [|done].
    intros [= <-]. apply list_find_Some in Hfind as (Hi & Hp & Hfirst).
    split; [exists p; split; [done|by apply Is_true_eq_true]|].
    intros j q Hj Hlt. specialize (Hfirst j q Hj Hlt).
    by apply negb_prop_intro, Is_true_eq_true, negb_true_iff in Hfirst.
  - intros [(p & Hi & Hp) Hfirst].
    assert (Hfind : list_find
              (fun p => Is_true (contains (Source_File (page_properties p)) f))
              d = Some (i, p)).
    { apply list_find_Some. split; [done|]. split; [by rewrite Hp|].
      intros j q Hj Hlt. rewrite (Hfirst j q Hj Hlt). intros []. }
    by rewrite Hfind.
Qed.

Lemma query_None_iff (d : list Page) (f : str) :
  query_by_source_file d f = None <->
  forall j q, d !! j = Some q ->
              contains (Source_File (page_properties q)) f = false.
Proof.
  unfold query_by_source_file. split.
  - destruct (list_find _ d) as [[i' p]|] eqn:Hfind; [done|]. intros _ j q Hj.
    apply list_find_None in Hfind. rewrite Forall_forall in Hfind.
    specialize (Hfind q (list_elem_of_lookup_2 _ _ _ Hj)).
    by apply negb_prop_intro, Is_true_eq_true, negb_true_iff in Hfind.
  - intros Hnone.
    destruct (list_find _ d) as [[i' p]|] eqn:Hfind; [|done].
    apply list_find_Some in Hfind as (Hi & Hp & _).
    rewrite (Hnone i' p Hi) in Hp. done.
Qed.

Lemma patched_source_file (e : Entry) (p : Page) :
  Source_File (page_properties (patched (entry_properties e) p)) = file e.
Proof. reflexivity. Qed.

Lemma patched_children (props : Properties) (p : Page) :
  page_children (patched props p) = page_children p.
Proof. reflexivity. Qed.

(** A new page is what a PATCH of the same entry leaves of some page. *)
Lemma new_page_patched (e : Entry) (children : list Block) :
  {| page_properties := entry_properties e; page_children := children |}
  = patched (entry_properties e)
      {| page_properties := entry_properties e; page_children := children |}.
Proof.
  generalize (entry_properties e).
  intros [n ct dm ce so cs im sf [b|]]; reflexivity.
Qed.

(** An entry of another file leaves the page of [f] where and as it is;
    an entry of [f] patches it. *)
Lemma upsert_anchored (children_of : str -> list Block) (fs : list str)
  (d : list Page) (e : Entry) (f : str) (i : nat) (p : Page) :
  files_separate fs -> f ∈ fs -> file e ∈ fs ->
  query_by_source_file d f = Some i -> d !! i = Some p ->
  Source_File (page_properties p) = f ->
  anchored (upsert children_of d e) f i
  /\ upsert children_of d e !! i
     = Some (if decide (file e = f) then patched (entry_properties e) p else p).
Proof.
  intros Hsep Hf Hfe Hq Hi Hsf.
  pose proof Hq as [_ Hfirst]%query_Some_iff.
  assert (Hlt : i < length d) by (by eapply lookup_lt_Some).
  unfold upsert, anchored.
  destruct (query_by_source_file d (file e)) as [j|] eqn:Hqe.
  - pose proof Hqe as [(pj & Hj & Hcj) Hfirstj]%query_Some_iff. rewrite Hj.
    assert (Hltj : j < length d) by (by eapply lookup_lt_Some).
    destruct (decide (file e = f)) as [Heq|Hne].
    + assert (j = i) as -> by congruence.
      assert (pj = p) as -> by congruence.
      rewrite list_lookup_insert_eq by done.
      split; [|done]. split; [|by eexists].
      apply query_Some_iff. split.
      * eexists. split; [by apply list_lookup_insert_eq|].
        rewrite patched_source_file, Heq. apply contains_refl.
      * intros k q Hk Hki. rewrite list_lookup_insert_ne in Hk by lia.
        by apply (Hfirst k).
    + assert (j <> i).
      { intros ->. assert (pj = p) as -> by congruence.
        rewrite Hsf in Hcj. by apply Hne, Hsep. }
      rewrite list_lookup_insert_ne by done.
      split; [|done]. split; [|by exists p].
      apply query_Some_iff. split.
      * exists p. rewrite list_lookup_insert_ne by done. split; [done|].
        rewrite Hsf. apply contains_refl.
      * intros k q Hk Hki. destruct (decide (k = j)) as [->|Hkj].
        -- rewrite list_lookup_insert_eq in Hk by done. injection Hk as <-.
           rewrite patched_source_file.
           destruct (contains (file e) f) eqn:Hc; [|done].
           exfalso. apply Hne. symmetry. by apply Hsep.
        -- rewrite list_lookup_insert_ne in Hk by done. by apply (Hfirst k).
  - assert (Hne : file e <> f).
    { intros Heq. rewrite Heq in Hqe. congruence. }
    rewrite decide_False by done. cbv zeta.
    rewrite lookup_app_l by done.
    split; [|done]. split; [|by exists p].
    apply query_Some_iff. split.
    + exists p. rewrite lookup_app_l by done. split; [done|].
      rewrite Hsf. apply contains_refl.
    + intros k q Hk Hki. rewrite lookup_app_l in Hk by lia.
      by apply (Hfirst k).
Qed.

(** After an entry is dispatched its file has a page, patched by it. *)
Lemma upsert_anchors (children_of : str -> list Block) (d : list Page)
  (e : Entry) :
  exists i q,
    anchored (upsert children_of d e) (file e) i
    /\ upsert children_of d e !! i = Some (patched (entry_properties e) q).
Proof.
  unfold upsert, anchored.
  destruct (query_by_source_file d (file e)) as [j|] eqn:Hqe.
  - pose proof Hqe as [(pj & Hj & Hcj) Hfirstj]%query_Some_iff. rewrite Hj.
    assert (Hltj : j < length d) by (by eapply lookup_lt_Some).
    exists j, pj. rewrite list_lookup_insert_eq by done.
    split; [|done]. split; [|by eexists].
    apply query_Some_iff. split.
    + eexists. split; [by apply list_lookup_insert_eq|].
      rewrite patched_source_file. apply contains_refl.
    + intros k q Hk Hki. rewrite list_lookup_insert_ne in Hk by lia.
      by apply (Hfirstj k).
  - cbv zeta. eexists (length d), _.
    rewrite lookup_app_r, Nat.sub_diag by done. simpl.
    split; [|by rewrite <- new_page_patched].
    split; [|by eexists].
    apply query_Some_iff. split.
    + eexists. rewrite lookup_app_r, Nat.sub_diag by done.
      split; [done|]. apply contains_refl.
    + intros k q Hk Hki. rewrite lookup_app_l in Hk by done.
      by apply (proj1 (query_None_iff d (file e)) Hqe k).
Qed.

Lemma patched_by_children (es : list Entry) (q : Page) :
  page_children (patched_by es q) = page_children q.
Proof.
  revert q. induction es as [|e es IH]; intros q; [done|].
  unfold patched_by in *. cbn [foldl]. by rewrite IH.
Qed.

Lemma patched_by_body (es : list Entry) (q : Page) :
  Body (page_properties (patched_by es q))
  = body_after es (Body (page_properties q)).
Proof.
  revert q. induction es as [|e es IH]; intros q; [done|].
  unfold patched_by, body_after in *. cbn [foldl]. rewrite IH.
  unfold patched. simpl. by destruct (Body (entry_properties e)).
Qed.

Lemma body_after_cases (es : list Entry) :
  (forall b, body_after es b = b)
  \/ (exists x, forall b, body_after es b = Some x).
Proof.
  induction es as [|e es IH]; [by left|].
  unfold body_after in *. cbn [foldl].
  destruct (Body (entry_properties e)) as [y|].
  - right. destruct IH as [Hid|[x Hx]].
    + exists y. intros b. apply Hid.
    + exists x. intros b. apply Hx.
  - destruct IH as [Hid|[x Hx]].
    + left. intros b. apply Hid.
    + right. exists x. intros b. apply Hx.
Qed.

Lemma body_after_idemp (es : list Entry) (b : option str) :
  body_after es (body_after es b) = body_after es b.
Proof.
  destruct (body_after_cases es) as [Hid|[x Hx]]; [by rewrite !Hid|].
  by rewrite !Hx.
Qed.

Lemma patched_by_congr (es : list Entry) (q q' : Page) :
  es <> [] ->
  page_children q = page_children q' ->
  body_after es (Body (page_properties q))
  = body_after es (Body (page_properties q')) ->
  patched_by es q = patched_by es q'.
Proof.
  revert q q'. induction es as [|e es IH]; intros q q' Hne Hch Hb; [done|].
  destruct es as [|e' es].
  - unfold patched_by, body_after in *. cbn [foldl] in *. unfold patched.
    by rewrite Hch, Hb.
  - change (patched_by (e' :: es) (patched (entry_properties e) q)
            = patched_by (e' :: es) (patched (entry_properties e) q')).
    apply IH; [done|exact Hch|]. exact Hb.
Qed.

Lemma patched_by_idemp (es : list Entry) (q : Page) :
  patched_by es (patched_by es q) = patched_by es q.
Proof.
  destruct es as [|e es]; [done|].
  apply patched_by_congr; [done|apply patched_by_children|].
  by rewrite patched_by_body, body_after_idemp.
Qed.

Lemma filter_ext_in {A} (P Q : A -> Prop) `{!forall x, Decision (P x)}
  `{!forall x, Decision (Q x)} (l : list A) :
  (forall x, x ∈ l -> P x <-> Q x) -> filter P l = filter Q l.
Proof.
  induction l as [|x l IH]; intros Hext; [done|].
  rewrite !filter_cons.
  rewrite IH by (intros y Hy; apply Hext; by right).
  destruct (decide (P x)) as [HP|HP], (decide (Q x)) as [HQ|HQ]; try done.
  - exfalso. apply HQ. by apply (Hext x); [left|].
  - exfalso. apply HP. by apply (Hext x); [left|].
Qed.

Lemma filter_file_nil (f : str) (es : list Entry) :
  f ∉ file <$> es -> filter (fun e => file e = f) es = [].
Proof.
  intros Hnot. induction es as [|e es IH]; [done|].
  rewrite fmap_cons in Hnot. apply not_elem_of_cons in Hnot as [Hne Hnot].
  rewrite filter_cons_False by congruence. by apply IH.
Qed.

Lemma anchored_upsert (children_of : str -> list Block) (d : list Page)
  (e : Entry) (i : nat) (p : Page) :
  query_by_source_file d (file e) = Some i -> d !! i = Some p ->
  upsert children_of d e = <[i := patched (entry_properties e) p]> d.
Proof. intros Hq Hi. unfold upsert. by rewrite Hq, Hi. Qed.

(** After a run every file of [es] has its page, and that page is what
    the PATCHes of the entries of that file leave of some page. *)
Lemma first_run_anchors (children_of : str -> list Block) (fs : list str)
  (es : list Entry) (d : list Page) :
  files_separate fs -> (forall e, e ∈ es -> file e ∈ fs) ->
  forall f, f ∈ file <$> es ->
    exists i q,
      anchored (foldl (upsert children_of) d es) f i
      /\ foldl (upsert children_of) d es !! i
         = Some (patched_by (filter (fun e => file e = f) es) q).
Proof.
  intros Hsep. induction es as [|e es0 IH] using rev_ind; intros Hes f Hf.
  { by apply elem_of_nil in Hf. }
  assert (Hes0 : forall e', e' ∈ es0 -> file e' ∈ fs).
  { intros e' He'. apply Hes, elem_of_app. by left. }
  assert (Hfe : file e ∈ fs).
  { apply Hes, elem_of_app. right. by left. }
  rewrite foldl_app, filter_app. simpl.
  set (d0 := foldl (upsert children_of) d es0) in *.
  destruct (decide (file e = f)) as [Heq|Hne].
  - rewrite (filter_cons_True _ e) by done. rewrite filter_nil.
    destruct (decide (f ∈ file <$> es0)) as [Hin|Hnin].
    + destruct (IH Hes0 f Hin) as (i & q & [Hq (p & Hp & Hsf)] & Hi).
      destruct (upsert_anchored children_of fs d0 e f i p Hsep)
        as [Hanch Hlook]; try done.
      { rewrite <- Heq. exact Hfe. }
      exists i, q. split; [done|]. rewrite Hlook, decide_True by done.
      rewrite Hi in Hp. injection Hp as <-.
      unfold patched_by. by rewrite foldl_app.
    + rewrite (filter_file_nil f es0 Hnin). subst f.
      destruct (upsert_anchors children_of d0 e) as (i & q & Hanch & Hlook).
      by exists i, q.
  - rewrite (filter_cons_False _ e) by done. rewrite filter_nil, app_nil_r.
    assert (Hin : f ∈ file <$> es0).
    { rewrite fmap_app in Hf. apply elem_of_app in Hf as [Hf|Hf]; [done|].
      apply list_elem_of_singleton in Hf. congruence. }
    destruct (IH Hes0 f Hin) as (i & q & [Hq (p & Hp & Hsf)] & Hi).
    destruct (upsert_anchored children_of fs d0 e f i p Hsep)
      as [Hanch Hlook]; try done.
    { apply list_elem_of_fmap in Hin as (e' & -> & He'). by apply Hes0. }
    exists i, q. split; [done|]. rewrite Hlook, decide_False by done.
    congruence.
Qed.

(** On a database where every file has its page, a run patches each
    page with the entries whose lookup finds it, and nothing else. *)
Lemma second_run_pages (children_of : str -> list Block) (fs : list str)
  (es : list Entry) (d : list Page) :
  files_separate fs -> (forall e, e ∈ es -> file e ∈ fs) ->
  (forall f, f ∈ fs -> exists i, anchored d f i) ->
  forall j,
    foldl (upsert children_of) d es !! j
    = patched_by
        (filter (fun e => query_by_source_file d (file e) = Some j) es)
      <$> d !! j.
Proof.
  intros Hsep. revert d. induction es as [|e es IH]; intros d Hes Hanch j.
  { simpl. by destruct (d !! j). }
  assert (Hes' : forall e', e' ∈ es -> file e' ∈ fs).
  { intros e' He'. apply Hes. by right. }
  assert (Hfe : file e ∈ fs) by (apply Hes; by left).
  destruct (Hanch (file e) Hfe) as (i & Hq & p & Hp & Hsf).
  cbn [foldl]. set (d1 := upsert children_of d e).
  assert (Hkeep : forall f k, f ∈ fs -> anchored d f k -> anchored d1 f k).
  { intros f k Hf (Hqf & pf & Hpf & Hsff).
    by destruct (upsert_anchored children_of fs d e f k pf Hsep). }
  rewrite (IH d1 Hes').
  2:{ intros f Hf. destruct (Hanch f Hf) as [k Hk]. exists k. by apply Hkeep. }
  assert (Hfilter :
            filter (fun e' => query_by_source_file d1 (file e') = Some j) es
            = filter (fun e' => query_by_source_file d (file e') = Some j) es).
  { apply filter_ext_in. intros e' He'.
    destruct (Hanch (file e') (Hes' e' He')) as [k Hk].
    pose proof (Hkeep _ _ (Hes' e' He') Hk) as [Hq1 _].
    destruct Hk as [Hq0 _]. by rewrite Hq0, Hq1. }
  rewrite Hfilter. unfold d1.
  rewrite (anchored_upsert children_of d e i p Hq Hp).
  destruct (decide (i = j)) as [->|Hne].
  - rewrite list_lookup_insert_eq by (by eapply lookup_lt_Some).
    rewrite filter_cons_True by done. by rewrite Hp.
  - rewrite list_lookup_insert_ne by done.
    rewrite filter_cons_False by congruence. done.
Qed.

(** Running the entries again on the database a run has left changes no
    page. *)
Lemma second_run_fixed (children_of : str -> list Block) (es : list Entry)
  (d : list Page) :
  files_separate (file <$> es) ->
  foldl (upsert children_of) (foldl (upsert children_of) d es) es
  = foldl (upsert children_of) d es.
Proof.
  intros Hsep. set (d1 := foldl (upsert children_of) d es).
  assert (Hes : forall e, e ∈ es -> file e ∈ file <$> es).
  { intros e He. by apply list_elem_of_fmap_2. }
  pose proof (first_run_anchors children_of (file <$> es) es d Hsep Hes)
    as Hfirst. fold d1 in Hfirst.
  apply list_eq. intros j.
  rewrite (second_run_pages children_of (file <$> es) es d1 Hsep Hes).
  2:{ intros f Hf. destruct (Hfirst f Hf) as (i & q & Hi & _). by exists i. }
  destruct (filter (fun e => query_by_source_file d1 (file e) = Some j) es)
    as [|e0 l] eqn:Hfilter.
  { by destruct (d1 !! j). }
  assert (He0 : e0 ∈ filter
                  (fun e => query_by_source_file d1 (file e) = Some j) es).
  { rewrite Hfilter. by left. }
  apply list_elem_of_filter in He0 as [Hq0 He0].
  destruct (Hfirst (file e0) (Hes e0 He0)) as (i & q & [Hq (p & Hp & Hsf)] & Hi).
  assert (i = j) as -> by congruence.
  rewrite <- Hfilter.
  assert (Hsame :
            filter (fun e => query_by_source_file d1 (file e) = Some j) es
            = filter (fun e => file e = file e0) es).
  { apply filter_ext_in. intros e He. split.
    - intros Hqe.
      destruct (Hfirst (file e) (Hes e He))
        as (k & q' & [Hqk (p' & Hp' & Hsf')] & _).
      assert (k = j) as -> by congruence. congruence.
    - intros ->. exact Hq. }
  rewrite Hsame, Hi. simpl. by rewrite patched_by_idemp.
Qed.

(** X19. When no file identifier occurs inside another, a second run on
    unchanged input, against a database that answers every request,
    leaves the database as the first run left it: no page is added, and
    each page ends with the properties and the children it had. This is
    about the properties of [Properties]; ["Tags"] is not among them. *)
Theorem resync_leaves_database_unchanged
  (md5_16 : str -> str) (fuel : nat)
  (memory_md : option str) (days : list (str * option str))
  (limit : option Z) (w0 : World) (entries : list Entry)
  (s1 : Stats) (w1 : World) :
  extract_all_entries md5_16 memory_md days = Some entries ->
  files_separate (file <$> entries) ->
  sync md5_16 fuel memory_md days false limit w0 = Some (s1, w1) ->
  exists s2 w2,
    sync md5_16 fuel memory_md days false limit w1 = Some (s2, w2)
    /\ db w2 = db w1.
Proof.
  intros Hex Hsep. unfold sync, dispatch. rewrite Hex. cbn [mbind option_bind].
  cbv zeta. set (es := apply_limit limit entries).
  rewrite !dispatch_loop_converted.
  destruct (forallb (converted fuel) es); [|done].
  set (children_of := blocks_of fuel).
  assert (Hsep' : files_separate (file <$> es)).
  { eapply files_separate_subseteq; [|exact Hsep].
    intros f (e & -> & He)%list_elem_of_fmap.
    apply list_elem_of_fmap_2. by apply (apply_limit_subseteq limit entries). }
  intros [= Hrun].
  destruct (foldl (sync_entry_with children_of false)
              ({| created := 0; updated := 0; failed := 0 |}, w1) es)
    as [s2 w2] eqn:Hrun2.
  exists s2, w2. split; [done|].
  change w2 with (s2, w2).2. rewrite <- Hrun2, dispatch_db.
  change w1 with (s1, w1).2. rewrite <- Hrun, dispatch_db.
  by apply second_run_fixed.
Qed.

Lemma resync_leaves_database_unchanged_witness :
  exists s2 w2,
    sync id 8 (Some two_entries_md) [] false None
         (default (Build_Stats 0 0 0, empty_world)
            (sync id 8 (Some two_entries_md) [] false None
                  empty_world)).2
    = Some (s2, w2)
    /\ length (db w2) = 1.
Proof.
  destruct (resync_leaves_database_unchanged id 8
              (Some two_entries_md) [] None empty_world
              (default [] (extract_all_entries id (Some two_entries_md) []))
              (default (Build_Stats 0 0 0, empty_world)
                 (sync id 8 (Some two_entries_md) [] false None
                       empty_world)).1
              (default (Build_Stats 0 0 0, empty_world)
                 (sync id 8 (Some two_entries_md) [] false None
                       empty_world)).2)
    as (s2 & w2 & Hrun & Hdb).
  - by vm_compute.
  - apply files_separate_b_sound. by vm_compute.
  - by vm_compute.
  - exists s2, w2. split; [exact Hrun|]. rewrite Hdb. by vm_compute.
Defined.

(** ** Truncation, tables and block shapes *)

(** X20. For any limit of at least 3 characters [_truncate_text] returns
    a text within the limit, and truncating again changes nothing. *)
Theorem truncate_text_idempotent (text : str) (max_len : nat) :
  3 <= max_len ->
  length (_truncate_text text max_len) <= max_len
  /\ _truncate_text (_truncate_text text max_len) max_len
     = _truncate_text text max_len.
Proof.
  intros Hmax. pose proof (truncate_text_bound text max_len Hmax) as Hle.
  split; [done|].
  unfold _truncate_text at 1.
  by rewrite (proj2 (Nat.leb_le _ _) Hle).
Qed.

Lemma truncate_text_idempotent_witness :
  _truncate_text (_truncate_text (lit "Hello world. Bye now") 15) 15
  = lit "Hello world."
  /\ _truncate_text (lit "Hello world. Bye now") 15 = lit "Hello world.".
Proof.
  destruct (truncate_text_idempotent (lit "Hello world. Bye now") 15)
    as [_ H]; [lia|].
  split; [rewrite H|]; by vm_compute.
Defined.

Lemma join_cons_concat (sep x : str) (rest : list str) :
  join sep (x :: rest) = x ++ concat ((fun r => sep ++ r) <$> rest).
Proof.
  revert x. induction rest as [|y rest IH]; intros x.
  - simpl. by rewrite app_nil_r.
  - change (join sep (x :: y :: rest)) with (x ++ sep ++ join sep (y :: rest)).
    rewrite IH, fmap_cons. simpl. by rewrite <- app_assoc.
Qed.

Lemma table_from_all (rest : list str) (j : nat) (table_text : str) :
  Forall (fun raw => contains raw (lit "|") = true) rest ->
  table_from rest j table_text
  = (table_text ++ concat ((fun r => nl ++ r) <$> rest), j + length rest).
Proof.
  intros Hall. revert j table_text.
  induction Hall as [|raw rest Hraw _ IH]; intros j table_text.
  - simpl. rewrite app_nil_r. f_equal. lia.
  - cbn [table_from]. rewrite Hraw, IH, fmap_cons. simpl.
    rewrite <- !app_assoc. f_equal. lia.
Qed.

Lemma pipe_line_shape (line : str) :
  startswith line (lit "|") = true -> exists l, line = "|"%char :: l.
Proof.
  destruct line as [|a l]; simpl; repeat case_decide; subst; try done.
  by exists l.
Qed.

(** X21. A text whose first line starts with a pipe and has three pipes
    or more, and whose other lines each contain a pipe, is converted to
    a single code block of language "markdown-table": the first line
    right-stripped, the others as they are, whatever else they look
    like. *)
Theorem convert_table_text (text raw0 : str) (rest : list str) :
  split text nl_char = raw0 :: rest ->
  startswith (rstrip raw0) (lit "|") = true ->
  3 <= count (rstrip raw0) "|"%char ->
  Forall (fun raw => contains raw (lit "|") = true) rest ->
  convert 1 text
  = Some [Code (slice_to (join nl (rstrip raw0 :: rest)) 2000)
               (lit "markdown-table")].
Proof.
  intros Hsplit Hpipe Hcount Hrest. unfold convert. rewrite Hsplit.
  set (lines := raw0 :: rest).
  destruct (pipe_line_shape _ Hpipe) as [l Hl].
  destruct (strip_cons_nonspace "|"%char l eq_refl) as [l' Hl'].
  assert (Hstep : convert_step lines (0, [])
                  = Some (S (length rest),
                          [Code (slice_to (join nl (rstrip raw0 :: rest)) 2000)
                                (lit "markdown-table")])).
  { unfold convert_step. change (lines !! 0) with (Some raw0).
    cbv beta iota zeta. change (drop 1 lines) with rest.
    rewrite (table_from_all rest 1 (rstrip raw0) Hrest).
    rewrite <- join_cons_concat.
    rewrite (proj2 (Nat.leb_le _ _) Hcount).
    set (table_text := join nl (rstrip raw0 :: rest)). rewrite Hl, Hl'.
    change (negb (truthy ("|"%char :: l'))) with false.
    cbn [startswith contains]. repeat (case_decide; [done|]).
    assert (re_match_numbered ("|"%char :: l) = None) as -> by reflexivity.
    rewrite bool_decide_eq_false_2 by (by intros [? ?]).
    rewrite bool_decide_eq_false_2.
    2:{ intros Hin. repeat (apply elem_of_cons in Hin as [Hin|Hin]; [done|]).
        by apply elem_of_nil in Hin. }
    repeat (case_decide; [|done]). reflexivity. }
  cbn [convert_loop]. rewrite Hstep. cbn [convert_loop].
  unfold convert_step. rewrite lookup_ge_None_2; [done|].
  unfold lines. simpl. lia.
Qed.

Lemma convert_table_text_witness :
  convert 1 (lit "| a | b |" ++ nl ++ lit "# not a heading | x")
  = Some [Code (lit "| a | b |" ++ nl ++ lit "# not a heading | x")
               (lit "markdown-table")].
Proof.
  apply (convert_table_text
           (lit "| a | b |" ++ nl ++ lit "# not a heading | x")
           (lit "| a | b |") [lit "# not a heading | x"]).
  - reflexivity.
  - reflexivity.
  - vm_compute. lia.
  - repeat constructor.
Defined.

Lemma parse_list_from_wf (rest : list str) (lt : ListType) :
  Forall block_wf (parse_list_from rest lt).
Proof.
  induction rest as [|raw rest IH]; simpl; [constructor|].
  destruct (negb _); [done|].
  destruct (list_prefix lt (rstrip raw)); constructor; done.
Qed.

Lemma create_code_wf (code : str) (language : option str) :
  block_wf (_create_code code language).
Proof. by destruct language as [[|c l]|]. Qed.

Lemma convert_step_wf (lines : list str) (st st' : nat * list Block) :
  convert_step lines st = Some st' ->
  Forall block_wf st.2 -> Forall block_wf st'.2.
Proof.
  destruct st as [i blocks]. unfold convert_step, _parse_list.
  destruct (lines !! i) as [raw|]; [|done]. cbv zeta.
  intros [= <-] Hok.
  repeat match goal with
         | |- context [if ?c then _ else _] => destruct c
         | |- context [let '(_, _) := ?p in _] => destruct p
         end; cbn [snd]; try done;
    apply Forall_app_2; try done; try apply parse_list_from_wf;
    apply Forall_singleton; try apply create_code_wf;
    simpl; try done; lia.
Qed.

Lemma convert_loop_wf (fuel : nat) (lines : list str) (st : nat * list Block)
  (blocks : list Block) :
  convert_loop fuel lines st = Some blocks ->
  Forall block_wf st.2 -> Forall block_wf blocks.
Proof.
  revert st. induction fuel as [|fuel IH]; intros st; simpl;
    destruct (convert_step lines st) as [st'|] eqn:Hstep; try done.
  - by intros [= <-].
  - intros Hloop Hok. eapply IH; [exact Hloop|]. by eapply convert_step_wf.
  - by intros [= <-].
Qed.

(** X22. Whatever [convert] returns, every heading block has level 1, 2
    or 3 and every code block has a language: a line with four hashes or
    more is not a heading, and a fence without a language gets
    "plain text". *)
Theorem convert_blocks_well_formed (text : str) (blocks : list Block) :
  convert_returns text blocks -> Forall block_wf blocks.
Proof.
  intros [fuel Hconv]. unfold convert in Hconv.
  eapply convert_loop_wf; [exact Hconv|]. constructor.
Qed.

Lemma convert_blocks_well_formed_witness :
  Forall block_wf
    [Paragraph (lit "#### deep"); Code (lit "x") (lit "plain text")].
Proof.
  apply (convert_blocks_well_formed
           (lit "#### deep" ++ nl ++ lit "```" ++ nl ++ lit "x" ++ nl
            ++ lit "```")).
  exists 2. by vm_compute.
Defined.

(** ** Lengths of the emitted text *)

(** X23. The title property has at most 100 characters, the body
    property and the text of every block at most 2000. A body of more
    than 2000 characters is cut at the first separator, in the order
    of the list, whose last occurrence inside the first 2000 characters
    starts beyond index 1000: the text up to the first character of
    that occurrence is kept, and stripped. When no separator has such
    an occurrence, the first 1997 characters are kept, stripped, and
    followed by an ellipsis. *)
Theorem truncation_bounds :
  (forall e m, length (Name (build_properties e m)) <= 100)
  /\ (forall e m b, Body (build_properties e m) = Some b -> length b <= 2000)
  /\ (forall text blocks, convert_returns text blocks -> Forall text_ok blocks)
  /\ (forall text pre sep post,
        2000 < length text ->
        SENTENCE_SEPARATORS = pre ++ sep :: post ->
        Forall (fun s => (rfind text s 2000 <= 1000)%Z) pre ->
        (1000 < rfind text sep 2000)%Z ->
        _truncate_text text 2000
        = strip (take (Z.to_nat (rfind text sep 2000) + 1) text))
  /\ (forall text,
        2000 < length text ->
        Forall (fun s => (rfind text s 2000 <= 1000)%Z) SENTENCE_SEPARATORS ->
        _truncate_text text 2000 = strip (take 1997 text) ++ lit "...").
Proof.
  split; [|split; [|split; [|split]]].
  - intros e m. simpl. by apply (length_slice_to (title e) 100).
  - intros e m b. simpl.
    destruct (truthy _ && Nat.ltb 50 _); [|done].
    intros [= <-]. by apply (truncate_text_bound _ 2000); lia.
  - intros text blocks [fuel Hfuel]. unfold convert in Hfuel.
    eapply convert_loop_ok; [exact Hfuel|]. constructor.
  - intros text pre sep post Hlen Hseps Hpre Hsep. unfold _truncate_text.
    destruct (Nat.leb_spec (length text) 2000) as [Hle|_]; [lia|].
    rewrite Hseps, (truncate_at_first pre post sep text 2000); [done| |lia].
    eapply Forall_impl; [exact Hpre|]. intros s Hs. simpl in *. lia.
  - intros text Hlen Hseps. unfold _truncate_text.
    destruct (Nat.leb_spec (length text) 2000) as [Hle|_]; [lia|].
    rewrite truncate_at_none; [done|].
    eapply Forall_impl; [exact Hseps|]. intros s Hs. simpl in *. lia.
Qed.

Lemma truncation_bounds_witness :
  Forall text_ok [Heading 2 (lit "H"); ListItem (lit "a"); ListItem (lit "b");
                  Paragraph (lit "para")]
  /\ _truncate_text (replicate 1200 "x"%char ++ lit ". "
                     ++ replicate 1000 "y"%char) 2000
     = replicate 1200 "x"%char ++ lit ".".
Proof.
  split.
  - apply (proj1 (proj2 (proj2 truncation_bounds))
             (lit "## H" ++ nl ++ lit "- a" ++ nl ++ lit "- b" ++ nl ++ nl
              ++ lit "para")).
    exists 4. reflexivity.
  - rewrite (proj1 (proj2 (proj2 (proj2 truncation_bounds)))
               (replicate 1200 "x"%char ++ lit ". " ++ replicate 1000 "y"%char)
               [nl ++ nl] (lit ". ") [lit "! "; lit "? "; lit "; "]).
    + by vm_compute.
    + rewrite !length_app, !length_replicate. simpl. lia.
    + reflexivity.
    + repeat constructor. by vm_compute.
    + by vm_compute.
Defined.
